(** * Investment advisor: structured extraction, feedback loop and the
      caching market-data client

    A shallow embedding of
    - [extract_json_response] (src/main.py) and [process_feedback]
      (src/workflow.py),
    - [AlphaVantageClient] (src/agents/alpha_vantage_client.py), and
    - [FinancialDataTool.evaluate_portfolio_symbols]
      (src/agents/financial_data_agent.py),
    together with the properties the specification states about them.

    Conventions.
    - Python [str] values are [string]s; dictionaries used as stores
      ([self.cache], [results]) are [gmap string _]; decoded JSON objects
      and the small result dictionaries keep their insertion order as
      association lists.
    - Prices are rationals ([Q]), and the quotients formed from them are
      exact; a number that the source rounds with [round(x, 2)] is held as
      an integer number of hundredths, which stands for the floating-point
      number nearest to that decimal.  The arithmetic of
      [analyze_etf_for_investment] on such numbers, the difference of two
      of them and its fifth, is binary64 arithmetic (module [Float]): there
      the rounding error decides a tie of [round].
    - What the program obtains from outside (the wall clock, the data
      provider, the language model) and the library functions whose full
      behaviour is not reproduced here ([json.loads], [float], [int],
      [datetime.strptime], [str] of an exception) are parameters of the
      sections below; executable instances are given for the examples. *)

From Stdlib Require Import ZArith QArith Qpower String Ascii List Lia Lqa.
From stdpp Require Import base option list sorting gmap strings.

Set Warnings "-register-all".

Local Open Scope Z_scope.

(** ** Decoded JSON values *)

Inductive json : Type :=
| JNull
| JBool (b : bool)
| JInt (n : Z)
| JFloat (q : Q)
| JStr (s : string)
| JArr (xs : list json)
| JObj (kvs : list (string * json)).

(** [d[k] = v] on an insertion-ordered dictionary. *)
Fixpoint dict_set {A} (k : string) (v : A) (d : list (string * A))
  : list (string * A) :=
  match d with
  | [] => [(k, v)]
  | (k', v') :: d' =>
      if String.eqb k' k then (k, v) :: d' else (k', v') :: dict_set k v d'
  end.

(** [d.get(k)] *)
Fixpoint dict_get {A} (k : string) (d : list (string * A)) : option A :=
  match d with
  | [] => None
  | (k', v) :: d' => if String.eqb k' k then Some v else dict_get k d'
  end.

(** ** Python string primitives used by the extraction code *)

Module PyStr.

(** [s.find(c)]: index of the first occurrence, [-1] when absent. *)
Fixpoint find (c : ascii) (s : string) : Z :=
  match s with
  | EmptyString => -1
  | String a s' =>
      if Ascii.eqb a c then 0
      else let r := find c s' in if r <? 0 then -1 else r + 1
  end.

(** [s.rfind(c)]: index of the last occurrence, [-1] when absent. *)
Fixpoint rfind (c : ascii) (s : string) : Z :=
  match s with
  | EmptyString => -1
  | String a s' =>
      let r := rfind c s' in
      if 0 <=? r then r + 1 else if Ascii.eqb a c then 0 else -1
  end.

(** [s[i:j]] for [0 <= i <= j]; the callers guard exactly this case. *)
Definition slice (s : string) (i j : Z) : string :=
  String.substring (Z.to_nat i) (Z.to_nat (j - i)) s.

Definition len (s : string) : Z := Z.of_nat (String.length s).

(** Occurrence of a character. *)
Fixpoint mem (c : ascii) (s : string) : bool :=
  match s with
  | EmptyString => false
  | String a s' => Ascii.eqb a c || mem c s'
  end.

End PyStr.

Definition lbrace : ascii := "{"%char.
Definition rbrace : ascii := "}"%char.

(** The text of an object: an opening brace, anything, a closing one. *)
Definition braced (mid : string) : string :=
  String lbrace (mid +:+ String rbrace EmptyString).

(** ** Structured extraction and the feedback loop *)

Section Extraction.

(** [json.loads]; [None] stands for the [JSONDecodeError] it raises. *)
Variable json_loads : string -> option json.
(** [json.dumps] *)
Variable json_dumps : json -> string.
(** One exchange with the feedback role: the message sent by
    [user_proxy.initiate_chat] to the content of
    [feedback_agent.last_message()]. *)
Variable feedback_agent : string -> string.

(** src/main.py, [extract_json_response].  Both the [ValueError] of the
    [else] branch and a decoding error end in the [except] clause, which
    returns [None]. *)
Definition extract_json_response (response_string : string) : option json :=
  let json_start := PyStr.find lbrace response_string in
  let json_end := PyStr.rfind rbrace response_string + 1 in
  if (0 <=? json_start) && (json_start <? json_end) then
    json_loads (PyStr.slice response_string json_start json_end)
  else None.

(** The default of src/workflow.py, [process_feedback]. *)
Definition default_feedback_analysis : json :=
  JObj [ ("feedback_analysis", JStr "Unable to analyze feedback properly.");
         ("risk_adjustment", JStr "no change");
         ("preference_changes", JArr []);
         ("strategy_adjustments", JArr []) ].

Definition feedback_message (user_feedback : string)
    (structured_goal strategy : json) : string :=
  "
        Process this feedback on an investment recommendation:
        
        Original Goal: " +:+ json_dumps structured_goal +:+ "
        Recommended Strategy: " +:+ json_dumps strategy +:+ "
        User Feedback: " +:+ user_feedback +:+ "
        ".

(** src/workflow.py, [process_feedback]: the extraction is written out
    in the function, inside a [try] whose [except] returns the default. *)
Definition process_feedback (user_feedback : string)
    (structured_goal strategy : json) : json :=
  let feedback_response :=
    feedback_agent (feedback_message user_feedback structured_goal strategy) in
  let json_start := PyStr.find lbrace feedback_response in
  let json_end := PyStr.rfind rbrace feedback_response + 1 in
  if (0 <=? json_start) && (json_start <? json_end) then
    match json_loads (PyStr.slice feedback_response json_start json_end) with
    | Some analysis => analysis
    | None => default_feedback_analysis
    end
  else default_feedback_analysis.

End Extraction.

(** ** An executable JSON decoder

    [JsonText.loads] follows the grammar [json.loads] accepts (RFC 8259:
    objects, arrays, strings with their escapes, numbers, [true], [false],
    [null], blanks between tokens, nothing after the value).  A number
    without fraction and exponent decodes to an integer, any other to a
    float; a repeated key keeps its first position and its last value, as a
    Python [dict] does.  Not reproduced: the literals [NaN] and [Infinity],
    and [\u] escapes of surrogate code points (they are rejected here).
    It instantiates [json_loads] in the examples. *)

Module JsonText.

Definition dquote : ascii := "034"%char.
Definition backslash : ascii := "092"%char.

(** Writes a literal with ['] for the double quote. *)
Fixpoint dq (s : string) : string :=
  match s with
  | EmptyString => EmptyString
  | String c r => String (if Ascii.eqb c "'"%char then dquote else c) (dq r)
  end.

Definition code (c : ascii) : Z := Z.of_N (N_of_ascii c).
Definition chr (n : Z) : ascii := ascii_of_N (Z.to_N n).

Definition is_ws (c : ascii) : bool :=
  let n := code c in (n =? 32) || (n =? 9) || (n =? 10) || (n =? 13).

Fixpoint skip_ws (s : string) : string :=
  match s with
  | String c r => if is_ws c then skip_ws r else s
  | EmptyString => s
  end.

Definition digit (c : ascii) : option Z :=
  let n := code c in
  if (48 <=? n) && (n <=? 57) then Some (n - 48) else None.

Definition hexdigit (c : ascii) : option Z :=
  let n := code c in
  if (48 <=? n) && (n <=? 57) then Some (n - 48)
  else if (65 <=? n) && (n <=? 70) then Some (n - 55)
  else if (97 <=? n) && (n <=? 102) then Some (n - 87)
  else None.

(** Longest run of decimal digits: its value, its length, the rest. *)
Fixpoint digits (acc : Z) (k : nat) (s : string) : Z * nat * string :=
  match s with
  | String c r =>
      match digit c with
      | Some d => digits (acc * 10 + d) (S k) r
      | None => (acc, k, s)
      end
  | EmptyString => (acc, k, s)
  end.

Definition pow10 (e : Z) : Q :=
  if 0 <=? e then inject_Z (10 ^ e) else Qinv (inject_Z (10 ^ (- e))).

Definition number (s : string) : option (json * string) :=
  let '(neg, s1) :=
    match s with
    | String c r => if Ascii.eqb c "-"%char then (true, r) else (false, s)
    | EmptyString => (false, s)
    end in
  match s1 with
  | EmptyString => None
  | String c r =>
      match digit c with
      | None => None
      | Some d =>
          let '(ip, _, s2) := if d =? 0 then (0, 1%nat, r) else digits 0 0 s1 in
          let '(fr, fk, s3) :=
            match s2 with
            | String p r' =>
                if Ascii.eqb p "."%char then
                  let '(f, k, r'') := digits 0 0 r' in
                  match k with O => (0, O, s2) | _ => (f, k, r'') end
                else (0, O, s2)
            | EmptyString => (0, O, s2)
            end in
          let '(ex, has_exp, s4) :=
            match s3 with
            | String e r' =>
                if Ascii.eqb e "e"%char || Ascii.eqb e "E"%char then
                  let '(sg, r'') :=
                    match r' with
                    | String g t =>
                        if Ascii.eqb g "-"%char then (-1, t)
                        else if Ascii.eqb g "+"%char then (1, t) else (1, r')
                    | EmptyString => (1, r')
                    end in
                  let '(x, k, t) := digits 0 0 r'' in
                  match k with O => (0, false, s3) | _ => (sg * x, true, t) end
                else (0, false, s3)
            | EmptyString => (0, false, s3)
            end in
          let sign := if neg : bool then -1 else 1 in
          match fk, has_exp with
          | O, false => Some (JInt (sign * ip), s4)
          | _, _ =>
              let m := (inject_Z ip + inject_Z fr * pow10 (- Z.of_nat fk))%Q in
              Some (JFloat (Qred (inject_Z sign * m * pow10 ex)), s4)
          end
      end
  end.

(** UTF-8 bytes of a code point of the basic plane. *)
Definition utf8 (cp : Z) : option string :=
  if cp <? 128 then Some (String (chr cp) EmptyString)
  else if cp <? 2048 then
    Some (String (chr (192 + cp / 64)) (String (chr (128 + cp mod 64)) EmptyString))
  else if (55296 <=? cp) && (cp <=? 57343) then None
  else
    Some (String (chr (224 + cp / 4096))
           (String (chr (128 + (cp / 64) mod 64))
             (String (chr (128 + cp mod 64)) EmptyString))).

Definition escape (e : ascii) : option ascii :=
  if Ascii.eqb e dquote then Some dquote
  else if Ascii.eqb e backslash then Some backslash
  else if Ascii.eqb e "/"%char then Some "/"%char
  else if Ascii.eqb e "b"%char then Some (chr 8)
  else if Ascii.eqb e "f"%char then Some (chr 12)
  else if Ascii.eqb e "n"%char then Some (chr 10)
  else if Ascii.eqb e "r"%char then Some (chr 13)
  else if Ascii.eqb e "t"%char then Some (chr 9)
  else None.

(** The characters of a string literal after its opening quote. *)
Fixpoint str_body (s : string) : option (string * string) :=
  match s with
  | EmptyString => None
  | String c r =>
      if Ascii.eqb c dquote then Some (EmptyString, r)
      else if Ascii.eqb c backslash then
        match r with
        | EmptyString => None
        | String e r1 =>
            if Ascii.eqb e "u"%char then
              match r1 with
              | String h1 (String h2 (String h3 (String h4 r2))) =>
                  match hexdigit h1, hexdigit h2, hexdigit h3, hexdigit h4 with
                  | Some a, Some b, Some c', Some d =>
                      match utf8 (((a * 16 + b) * 16 + c') * 16 + d), str_body r2 with
                      | Some u, Some (t, rest) => Some (u +:+ t, rest)
                      | _, _ => None
                      end
                  | _, _, _, _ => None
                  end
              | _ => None
              end
            else
              match escape e, str_body r1 with
              | Some x, Some (t, rest) => Some (String x t, rest)
              | _, _ => None
              end
        end
      else if code c <? 32 then None
      else
        match str_body r with
        | Some (t, rest) => Some (String c t, rest)
        | None => None
        end
  end.

Fixpoint strip (p s : string) : option string :=
  match p, s with
  | EmptyString, _ => Some s
  | String a p', String b s' => if Ascii.eqb a b then strip p' s' else None
  | _, EmptyString => None
  end.

(** Every call consumes a character before it recurses, so the length
    of the input bounds the depth. *)
Fixpoint value (fuel : nat) (s : string) {struct fuel} : option (json * string) :=
  match fuel with
  | O => None
  | S n =>
      match s with
      | EmptyString => None
      | String c r =>
          if Ascii.eqb c lbrace then
            match skip_ws r with
            | String c' r' =>
                if Ascii.eqb c' rbrace then Some (JObj [], r')
                else members n [] (String c' r')
            | EmptyString => None
            end
          else if Ascii.eqb c "["%char then
            match skip_ws r with
            | String c' r' =>
                if Ascii.eqb c' "]"%char then Some (JArr [], r')
                else elements n [] (String c' r')
            | EmptyString => None
            end
          else if Ascii.eqb c dquote then
            match str_body r with
            | Some (t, rest) => Some (JStr t, rest)
            | None => None
            end
          else
            match strip "null" s, strip "true" s, strip "false" s with
            | Some rest, _, _ => Some (JNull, rest)
            | _, Some rest, _ => Some (JBool true, rest)
            | _, _, Some rest => Some (JBool false, rest)
            | _, _, _ => number s
            end
      end
  end
with members (fuel : nat) (acc : list (string * json)) (s : string)
     {struct fuel} : option (json * string) :=
  match fuel with
  | O => None
  | S n =>
      match s with
      | String c r =>
          if Ascii.eqb c dquote then
            match str_body r with
            | Some (k, r1) =>
                match skip_ws r1 with
                | String c1 r2 =>
                    if Ascii.eqb c1 ":"%char then
                      match value n (skip_ws r2) with
                      | Some (v, r3) =>
                          match skip_ws r3 with
                          | String c3 r4 =>
                              if Ascii.eqb c3 ","%char then
                                members n (dict_set k v acc) (skip_ws r4)
                              else if Ascii.eqb c3 rbrace then
                                Some (JObj (dict_set k v acc), r4)
                              else None
                          | EmptyString => None
                          end
                      | None => None
                      end
                    else None
                | EmptyString => None
                end
            | None => None
            end
          else None
      | EmptyString => None
      end
  end
with elements (fuel : nat) (acc : list json) (s : string)
     {struct fuel} : option (json * string) :=
  match fuel with
  | O => None
  | S n =>
      match value n s with
      | Some (v, r1) =>
          match skip_ws r1 with
          | String c r2 =>
              if Ascii.eqb c ","%char then elements n (acc ++ [v]) (skip_ws r2)
              else if Ascii.eqb c "]"%char then Some (JArr (acc ++ [v]), r2)
              else None
          | EmptyString => None
          end
      | None => None
      end
  end.

Definition loads (s : string) : option json :=
  match value (S (String.length s)) (skip_ws s) with
  | Some (v, r) =>
      match skip_ws r with
      | EmptyString => Some v
      | String _ _ => None
      end
  | None => None
  end.

End JsonText.

(** ** Python values, exceptions and numbers *)

Inductive exn : Type :=
| KeyError (key : string)
| TypeError
| ValueError
| AttributeError
| IndexError
| ZeroDivisionError
| RequestException (detail : string).

(** Code that may raise. *)
Definition exc (A : Type) : Type := exn + A.

Module Py.

(** Truth value of a decoded JSON value ([not v] is its negation). *)
Definition truthy (v : json) : bool :=
  match v with
  | JNull => false
  | JBool b => b
  | JInt n => negb (n =? 0)
  | JFloat q => negb (Qnum q =? 0)
  | JStr s => negb (String.eqb s "")
  | JArr xs => match xs with [] => false | _ => true end
  | JObj kvs => match kvs with [] => false | _ => true end
  end.

Fixpoint is_prefix (p s : string) : bool :=
  match p, s with
  | EmptyString, _ => true
  | String a p', String b s' => Ascii.eqb a b && is_prefix p' s'
  | String _ _, EmptyString => false
  end.

Fixpoint is_substring (p s : string) : bool :=
  is_prefix p s ||
  match s with
  | EmptyString => false
  | String _ s' => is_substring p s'
  end.

(** [k in v] for a string [k]: key of a dict, element of a list,
    substring of a string; other values are not iterable. *)
Definition contains (k : string) (v : json) : exc bool :=
  match v with
  | JObj kvs => inr (bool_decide (is_Some (dict_get k kvs)))
  | JArr xs =>
      inr (existsb (fun x => match x with JStr s => String.eqb s k | _ => false end) xs)
  | JStr s => inr (is_substring k s)
  | _ => inl TypeError
  end.

(** [v[k]] for a string [k]. *)
Definition getitem (v : json) (k : string) : exc json :=
  match v with
  | JObj kvs =>
      match dict_get k kvs with
      | Some x => inr x
      | None => inl (KeyError k)
      end
  | _ => inl TypeError
  end.

(** [v.get(k, default)]: only a dict has the method. *)
Definition get (v : json) (k : string) (dflt : json) : exc json :=
  match v with
  | JObj kvs => inr (default dflt (dict_get k kvs))
  | _ => inl AttributeError
  end.

(** [v.keys()], each key once. *)
Definition keys (v : json) : exc (list string) :=
  match v with
  | JObj kvs => inr (remove_dups (map fst kvs))
  | _ => inl AttributeError
  end.

(** [round(x)] of an exact number: to the nearest integer, a tie to the
    even one. *)
Definition round (q : Q) : Z :=
  let n := Qnum q in
  let d := Z.pos (Qden q) in
  let f := n / d in
  match (2 * (n mod d)) ?= d with
  | Lt => f
  | Gt => f + 1
  | Eq => if Z.even f then f else f + 1
  end.

(** [round(x, 2)], as a number of hundredths. *)
Definition round2 (q : Q) : Z := round (q * 100).

End Py.

(** ** Floating-point numbers

    A finite binary64 number is held as the rational it denotes, and an
    operation gives the nearest binary64 number to its exact result, a tie
    going to the even mantissa, as IEEE 754 arithmetic does.  There are 53
    bits of mantissa, and the least unit in the last place is 2^-1074.
    Results beyond the largest finite number (about 1.8e308), infinities
    and NaN are outside the model. *)

Module Float.

(** The [k] with [2^k <= q < 2^(k+1)], for a positive [q]. *)
Definition magnitude (q : Q) : Z :=
  let l := Z.log2 (Qnum q) - Z.log2 (Z.pos (Qden q)) in
  if Qle_bool (2 ^ l) q then l else l - 1.

(** The exponent of the unit in the last place of the numbers near [q]. *)
Definition ulp_exponent (q : Q) : Z := Z.max (magnitude q - 52) (-1074).

Definition round_pos (q : Q) : Q :=
  (inject_Z (Py.round (q / 2 ^ ulp_exponent q)) * 2 ^ ulp_exponent q)%Q.

(** The nearest floating-point number. *)
Definition rnd (q : Q) : Q :=
  match (Qnum q ?= 0)%Z with
  | Eq => 0%Q
  | Gt => round_pos q
  | Lt => (- round_pos (- q))%Q
  end.

(** [x - y] and [x / y] on floats. *)
Definition sub (x y : Q) : Q := rnd (x - y).
Definition div (x y : Q) : Q := rnd (x / y).

(** The float that [round(x, 2)] returns when the decimal it arrives at
    is [v] hundredths. *)
Definition of_hundredths (v : Z) : Q := rnd (v # 100).

End Float.

(** ** The market-data client: data model *)

(** Clock readings are microseconds since the epoch of the local
    calendar, the resolution of [datetime]; a date is a day number. *)
Definition us_per_hour : Z := 3600 * 1000000.
Definition us_per_day : Z := 24 * us_per_hour.
Definition hours (n : Z) : Z := n * us_per_hour.
(** [timedelta(days=n)] *)
Definition days_delta (n : Z) : Z := n * us_per_day.
(** The calendar day of a reading (what [strftime("%Y-%m-%d")] keeps). *)
Definition date_of (t : Z) : Z := t / us_per_day.
(** The second of a reading (what [strftime("%Y-%m-%d %H:%M:%S")] keeps). *)
Definition second_of (t : Z) : Z := t / 1000000.

(** The result of [get_stock_price]. *)
Record quote : Type := Quote {
  quote_symbol : string;
  price : Q;
  change_percent : json;
  volume : Z;
  quote_last_updated : Z
}.

(** One entry of [metrics["performance"]]: a change in hundredths of a
    percent with its reference date, or the error of a horizon without
    data. *)
Inductive period_result : Type :=
| Change (price_change_percent : Z) (reference_date : string)
| NoData (error : string).

(** The result of [get_performance_metrics]. *)
Record metrics : Type := Metrics {
  metrics_symbol : string;
  current_price : Q;
  performance : list (string * period_result)
}.

(** The result of [get_etf_overview]. *)
Record overview : Type := Overview {
  overview_symbol : string;
  name : json;
  description : json;
  sector : json;
  pe_ratio : json;
  dividend_yield : json;
  market_cap : json;
  overview_last_updated : Z
}.

(** The result of [get_sector_performance]. *)
Record sector_table : Type := SectorTable {
  sectors : json;
  sectors_last_updated : Z
}.

(** The dictionaries the client returns: [{"error": msg}] or a result. *)
Inductive payload : Type :=
| OfQuote (q : quote)
| OfMetrics (m : metrics)
| OfOverview (o : overview)
| OfSectors (t : sector_table).

Inductive reply : Type :=
| Error (msg : string)
| Data (d : payload).

(** ["error" in r] *)
Definition is_error (r : reply) : bool :=
  match r with Error _ => true | Data _ => false end.

(** A value of [self.cache]. *)
Record entry : Type := Entry {
  timestamp : Z;
  data : reply
}.

(** The [params] of a request. *)
Definition params : Type := list (string * string).

(** The client object ([api_key], [cache]) together with the history of
    its exchanges with the outside: how many times the clock was read and
    which requests were sent, oldest first. *)
Record state : Type := State {
  api_key : option string;
  cache : gmap string entry;
  clock_reads : nat;
  requests : list params
}.

(** The outside: the [n]-th reading of [datetime.now()], and what the
    [n]-th [requests.get(...)] followed by [response.json()] gives, the
    decoded body or the exception raised on the way. *)
Record world : Type := World {
  clock : nat -> Z;
  provider : nat -> params -> exc json
}.

(** [AlphaVantageClient()] *)
Definition new_client (key : option string) : state :=
  State key ∅ 0 [].

(** [not self.api_key]: unset or empty. *)
Definition no_api_key (s : state) : bool :=
  match api_key s with
  | Some (String _ _) => false
  | _ => true
  end.

Definition the_key (s : state) : string := default "" (api_key s).

(** Code inside a function of the client: it reads and changes the state
    and may raise. *)
Definition eval (A : Type) : Type := state -> exc A * state.

Definition ret {A} (a : A) : eval A := fun s => (inr a, s).
Definition bind {A B} (m : eval A) (k : A -> eval B) : eval B :=
  fun s =>
    match m s with
    | (inl e, s') => (inl e, s')
    | (inr a, s') => k a s'
    end.
Definition lift {A} (x : exc A) : eval A := fun s => (x, s).

Notation "'let*' x ':=' m 'in' k" := (bind m (fun x => k))
  (at level 10, x pattern, m at level 100, k at level 200).

(** [self.cache[key] = {"timestamp": t, "data": r}] *)
Definition cache_store (key : string) (t : Z) (r : reply) : eval unit :=
  fun s => (inr tt, State (api_key s) (<[key := Entry t r]> (cache s))
                          (clock_reads s) (requests s)).

(** [max(l)] and [min(l)] of a non-empty list. *)
Definition list_max (x : Z) (l : list Z) : Z := fold_left Z.max l x.
Definition list_min (x : Z) (l : list Z) : Z := fold_left Z.min l x.

(** [min(l, key=...)] over elements paired with their keys: the first
    element is the candidate, a later one replaces it only with a strictly
    smaller key. *)
Fixpoint argmin {A} (best : A) (kbest : Z) (l : list (A * Z)) : A :=
  match l with
  | [] => best
  | (x, k) :: l' => if k <? kbest then argmin x k l' else argmin best kbest l'
  end.

Definition min_by_key {A} (l : list (A * Z)) : exc A :=
  match l with
  | [] => inl ValueError
  | (x, k) :: l' => inr (argmin x k l')
  end.

Fixpoint exc_map {A B} (f : A -> exc B) (l : list A) : exc (list B) :=
  match l with
  | [] => inr []
  | x :: l' =>
      match f x with
      | inl e => inl e
      | inr y =>
          match exc_map f l' with
          | inl e => inl e
          | inr ys => inr (y :: ys)
          end
      end
  end.

(** A number of hundredths as the number it denotes. *)
Definition percent (v : Z) : Q := v # 100.

(** The horizons of [get_performance_metrics], in days. *)
Definition periods : list (string * Z) :=
  [("1mo", 30); ("3mo", 90); ("6mo", 180); ("1yr", 365)].

(** The changes of a performance table: the values of the entries that
    have a ["price_change_percent"]. *)
Fixpoint changes (perf : list (string * period_result)) : list Z :=
  match perf with
  | [] => []
  | (_, Change v _) :: perf' => v :: changes perf'
  | (_, NoData _) :: perf' => changes perf'
  end.

(** The result of [analyze_etf_for_investment]. *)
Record analysis : Type := Analysis {
  analysis_symbol : string;
  analysis_current_price : Q;
  analysis_performance : list (string * period_result);
  risk_score : Z;
  volatility : Z;
  risk_match : bool;
  recommendation : string
}.

(** [{"symbol": symbol, "error": e}], where [e] may be [None], or an
    analysis. *)
Inductive analysis_result : Type :=
| Failed (symbol : string) (error : option string)
| Analysed (a : analysis).

(** [r.get("error")] *)
Definition get_error (r : reply) : option string :=
  match r with Error msg => Some msg | Data _ => None end.

(** [a or b] on optional strings: [None] and the empty string are false. *)
Definition or_else (a b : option string) : option string :=
  match a with
  | Some (String _ _) => a
  | _ => b
  end.

(** ["portfolio_metrics"] of [evaluate_portfolio_symbols]; the two rounded
    figures are in hundredths. *)
Record portfolio_metrics : Type := PortfolioMetrics {
  total_symbols : Z;
  valid_symbols : Z;
  avg_volatility : Z;
  risk_match_percentage : Z;
  diversification_score : Z
}.

Record evaluation : Type := Evaluation {
  symbol_evaluations : gmap string analysis_result;
  metrics_of : portfolio_metrics
}.

(** ** The market-data client: operations *)

Section Client.

Variable w : world.
(** [str(e)] *)
Variable str_exn : exn -> string.
(** [float(s)] and [int(s)] of a string; [None] is their [ValueError]. *)
Variable float_of_string : string -> option Q.
Variable int_of_string : string -> option Z.
(** [datetime.strptime(s, "%Y-%m-%d")] as a day number; [None] is its
    [ValueError]. *)
Variable strptime : string -> option Z.

(** [datetime.now()] *)
Definition datetime_now : eval Z :=
  fun s => (inr (clock w (clock_reads s)),
            State (api_key s) (cache s) (S (clock_reads s)) (requests s)).

(** [requests.get(self.base_url, params=p).json()] *)
Definition requests_get (p : params) : eval json :=
  fun s => (provider w (length (requests s)) p,
            State (api_key s) (cache s) (clock_reads s) (requests s ++ [p])).

(** [float(v)] *)
Definition py_float (v : json) : exc Q :=
  match v with
  | JStr s => match float_of_string s with Some q => inr q | None => inl ValueError end
  | JInt n => inr (inject_Z n)
  | JFloat q => inr q
  | JBool b => inr (if b then 1%Q else 0%Q)
  | _ => inl TypeError
  end.

(** [int(v)] *)
Definition py_int (v : json) : exc Z :=
  match v with
  | JStr s => match int_of_string s with Some n => inr n | None => inl ValueError end
  | JInt n => inr n
  | JFloat q => inr (Z.quot (Qnum q) (Z.pos (Qden q)))
  | JBool b => inr (if b then 1 else 0)
  | _ => inl TypeError
  end.

(** The test that opens every operation:
    [if cache_key in self.cache:
       if datetime.now() - self.cache[cache_key]["timestamp"] < ttl:
         return self.cache[cache_key]["data"]].
    [Some r] is that return. *)
Definition cached (cache_key : string) (ttl : Z) : state -> option reply * state :=
  fun s =>
    match cache s !! cache_key with
    | Some e =>
        let now := clock w (clock_reads s) in
        (if now - timestamp e <? ttl then Some (data e) else None,
         State (api_key s) (cache s) (S (clock_reads s)) (requests s))
    | None => (None, s)
    end.

(** [try: body except Exception as e: return {"error": str(e)}] *)
Definition try_except (body : eval reply) : state -> reply * state :=
  fun s =>
    match body s with
    | (inr r, s') => (r, s')
    | (inl e, s') => (Error (str_exn e), s')
    end.

(** The shape shared by the four operations: the credential test, the
    cache test, then the guarded request. *)
Definition operation (cache_key : string) (ttl : Z) (body : eval reply)
  : state -> reply * state :=
  fun s =>
    if no_api_key s then (Error "API key not set", s)
    else
      match cached cache_key ttl s with
      | (Some r, s1) => (r, s1)
      | (None, s1) => try_except body s1
      end.

(** *** [get_stock_price] *)

Definition price_key (symbol : string) : string := "price_" +:+ symbol.

Definition fetch_stock_price (symbol : string) : eval reply :=
  fun s0 =>
  (let* data :=
     requests_get [("function", "GLOBAL_QUOTE"); ("symbol", symbol);
                   ("apikey", the_key s0)] in
   let* present := lift (Py.contains "Global Quote" data) in
   if negb present then ret (Error ("No data found for symbol " +:+ symbol))
   else
     let* global_quote := lift (Py.getitem data "Global Quote") in
     if negb (Py.truthy global_quote)
     then ret (Error ("No data found for symbol " +:+ symbol))
     else
       let* p := lift (Py.getitem global_quote "05. price") in
       let* price := lift (py_float p) in
       let* change_percent := lift (Py.getitem global_quote "10. change percent") in
       let* v := lift (Py.getitem global_quote "06. volume") in
       let* volume := lift (py_int v) in
       let* t := datetime_now in
       let result :=
         Data (OfQuote (Quote symbol price change_percent volume (second_of t))) in
       let* t' := datetime_now in
       let* _ := cache_store (price_key symbol) t' result in
       ret result) s0.

Definition get_stock_price (symbol : string) : state -> reply * state :=
  operation (price_key symbol) (hours 1) (fetch_stock_price symbol).

(** *** [get_performance_metrics] *)

Definition metrics_key (symbol : string) : string := "metrics_" +:+ symbol.

(** [sorted(keys, reverse=True)] *)
Definition sorted_reverse (keys : list string) : list string :=
  merge_sort (flip String.le) keys.

(** [abs((strptime(x) - strptime(target_date)).days)]; the target is a
    date the program printed itself, so only [x] can fail to parse. *)
Definition day_distance (target_date : Z) (x : string) : exc Z :=
  match strptime x with
  | Some d => inr (Z.abs (d - target_date))
  | None => inl ValueError
  end.

(** [min(dates, key=lambda x: ...)] *)
Definition closest (target_date : Z) (dates : list string) : exc string :=
  match exc_map (fun x => match day_distance target_date x with
                          | inl e => inl e
                          | inr k => inr (x, k)
                          end) dates with
  | inl e => inl e
  | inr keyed => min_by_key keyed
  end.

(** [float(time_series[date]["4. close"])] *)
Definition close_of (time_series : json) (date : string) : exc Q :=
  match Py.getitem time_series date with
  | inl e => inl e
  | inr day =>
      match Py.getitem day "4. close" with
      | inl e => inl e
      | inr c => py_float c
      end
  end.

(** [((current_price - past_price) / past_price) * 100] *)
Definition percent_change (current_price past_price : Q) : exc Q :=
  if Qnum past_price =? 0 then inl ZeroDivisionError
  else inr (((current_price - past_price) / past_price) * 100)%Q.

(** The body of the loop over the periods. *)
Definition period_entry (time_series : json) (dates : list string)
    (current_price : Q) (days : Z) : eval period_result :=
  let* now := datetime_now in
  let target_date := date_of (now - days_delta days) in
  let* closest_date := lift (closest target_date dates) in
  let* distance := lift (day_distance target_date closest_date) in
  if distance <=? 7 then
    let* past_price := lift (close_of time_series closest_date) in
    let* change := lift (percent_change current_price past_price) in
    ret (Change (Py.round2 change) closest_date)
  else ret (NoData "No data available within 7 days of target date").

Fixpoint period_loop (time_series : json) (dates : list string)
    (current_price : Q) (todo : list (string * Z))
    (perf : list (string * period_result))
  : eval (list (string * period_result)) :=
  match todo with
  | [] => ret perf
  | (period_name, days) :: todo' =>
      let* r := period_entry time_series dates current_price days in
      period_loop time_series dates current_price todo'
        (dict_set period_name r perf)
  end.

Definition fetch_performance_metrics (symbol : string) : eval reply :=
  fun s0 =>
  (let* data :=
     requests_get [("function", "TIME_SERIES_DAILY"); ("symbol", symbol);
                   ("outputsize", "full"); ("apikey", the_key s0)] in
   let* present := lift (Py.contains "Time Series (Daily)" data) in
   if negb present then ret (Error ("No data found for symbol " +:+ symbol))
   else
     let* time_series := lift (Py.getitem data "Time Series (Daily)") in
     if negb (Py.truthy time_series)
     then ret (Error ("No data found for symbol " +:+ symbol))
     else
       let* keys := lift (Py.keys time_series) in
       let dates := sorted_reverse keys in
       let* latest :=
         lift (match dates with d :: _ => inr d | [] => inl IndexError end) in
       let* current_price := lift (close_of time_series latest) in
       let* perf := period_loop time_series dates current_price periods [] in
       let result := Data (OfMetrics (Metrics symbol current_price perf)) in
       let* t := datetime_now in
       let* _ := cache_store (metrics_key symbol) t result in
       ret result) s0.

Definition get_performance_metrics (symbol : string) : state -> reply * state :=
  operation (metrics_key symbol) (hours 6) (fetch_performance_metrics symbol).

(** *** [get_etf_overview] *)

Definition overview_key (symbol : string) : string := "overview_" +:+ symbol.

Definition fetch_etf_overview (symbol : string) : eval reply :=
  fun s0 =>
  (let* data :=
     requests_get [("function", "OVERVIEW"); ("symbol", symbol);
                   ("apikey", the_key s0)] in
   if negb (Py.truthy data)
   then ret (Error ("No overview data found for symbol " +:+ symbol))
   else
     let* has_error := lift (Py.contains "Error Message" data) in
     if has_error : bool
     then ret (Error ("No overview data found for symbol " +:+ symbol))
     else
       let* name := lift (Py.get data "Name" (JStr "Unknown")) in
       let* description :=
         lift (Py.get data "Description" (JStr "No description available")) in
       let* sector := lift (Py.get data "Sector" (JStr "Various")) in
       let* pe_ratio := lift (Py.get data "PERatio" (JStr "N/A")) in
       let* dividend_yield := lift (Py.get data "DividendYield" (JStr "N/A")) in
       let* market_cap := lift (Py.get data "MarketCapitalization" (JStr "N/A")) in
       let* t := datetime_now in
       let result :=
         Data (OfOverview (Overview symbol name description sector pe_ratio
                             dividend_yield market_cap (second_of t))) in
       let* t' := datetime_now in
       let* _ := cache_store (overview_key symbol) t' result in
       ret result) s0.

Definition get_etf_overview (symbol : string) : state -> reply * state :=
  operation (overview_key symbol) (hours 24) (fetch_etf_overview symbol).

(** *** [get_sector_performance] *)

Definition sector_key : string := "sector_performance".

Definition fetch_sector_performance : eval reply :=
  fun s0 =>
  (let* data := requests_get [("function", "SECTOR"); ("apikey", the_key s0)] in
   let* present := lift (Py.contains "Rank A: Real-Time Performance" data) in
   if negb present then ret (Error "No sector performance data available")
   else
     let* sectors := lift (Py.getitem data "Rank A: Real-Time Performance") in
     let* t := datetime_now in
     let result := Data (OfSectors (SectorTable sectors (second_of t))) in
     let* t' := datetime_now in
     let* _ := cache_store sector_key t' result in
     ret result) s0.

Definition get_sector_performance : state -> reply * state :=
  operation sector_key (hours 6) fetch_sector_performance.

(** *** [analyze_etf_for_investment] *)

(** A call of an operation from code that may itself raise. *)
Definition call {A} (f : state -> A * state) : eval A :=
  fun s => let (a, s') := f s in (inr a, s').

(** [metrics["performance"]] *)
Definition performance_of (r : reply) : exc (list (string * period_result)) :=
  match r with
  | Data (OfMetrics m) => inr (performance m)
  | _ => inl (KeyError "performance")
  end.

(** [price_data["price"]] *)
Definition price_of (r : reply) : exc Q :=
  match r with
  | Data (OfQuote q) => inr (price q)
  | _ => inl (KeyError "price")
  end.

(** [min(10, max(1, round(volatility / 5)))], on the float [volatility]. *)
Definition score_of (volatility : Q) : Z :=
  Z.min 10 (Z.max 1 (Py.round (Float.div volatility 5))).

Definition matches (risk_tolerance : string) (risk_score : Z) : bool :=
  if String.eqb risk_tolerance "low" && (risk_score <=? 4) then true
  else if String.eqb risk_tolerance "medium" && (3 <? risk_score)
          && (risk_score <=? 7) then true
  else if String.eqb risk_tolerance "high" && (6 <? risk_score) then true
  else false.

(** [metrics["performance"].get("1yr", {}).get("price_change_percent")] *)
Definition yearly (perf : list (string * period_result)) : option Z :=
  match dict_get "1yr" perf with
  | Some (Change v _) => Some v
  | _ => None
  end.

(** The recommendation: ["hold"] unless the yearly change is present and
    not zero (the test [if yearly_performance:]) and one of the two
    conditions holds; the bounds 15 and -10 are 1500 and -1000
    hundredths. *)
Definition recommend (yearly_performance : option Z) (risk_match : bool) : string :=
  match yearly_performance with
  | Some v =>
      if v =? 0 then "hold"
      else if (1500 <? v) && risk_match then "buy"
      else if v <? -1000 then "avoid"
      else "hold"
  | None => "hold"
  end.

(** The performances are floats of two decimals, held by their
    hundredths: [max] and [min] choose among them as among the floats,
    whose order is that of the hundredths; their difference and the score
    are computed on the floats, and the volatility reported is the
    difference rounded to two decimals. *)
Definition analyze_etf_for_investment (symbol risk_tolerance : string)
  : eval analysis_result :=
  let* metrics := call (get_performance_metrics symbol) in
  let* price_data := call (get_stock_price symbol) in
  if is_error metrics || is_error price_data then
    ret (Failed symbol (or_else (get_error metrics) (get_error price_data)))
  else
    let* perf := lift (performance_of metrics) in
    match changes perf with
    | [] => ret (Failed symbol (Some "Insufficient performance data"))
    | x :: rest =>
        let volatility :=
          Float.sub (Float.of_hundredths (list_max x rest))
            (Float.of_hundredths (list_min x rest)) in
        let risk_score := score_of volatility in
        let risk_match := matches risk_tolerance risk_score in
        let* current := lift (price_of price_data) in
        ret (Analysed
               (Analysis symbol current perf risk_score (Py.round2 volatility)
                  risk_match (recommend (yearly perf) risk_match)))
    end.

(** *** [FinancialDataTool.evaluate_portfolio_symbols] *)

(** The variables of the loop: [results], [valid_symbols],
    [total_volatility] (in hundredths) and [matched_risk_count]. *)
Record tally : Type := Tally {
  results : gmap string analysis_result;
  valid : list string;
  total_volatility : Z;
  matched_risk_count : Z
}.

Definition record_analysis (symbol : string) (r : analysis_result) (t : tally)
  : tally :=
  let results' := <[symbol := r]> (results t) in
  match r with
  | Failed _ _ =>
      Tally results' (valid t) (total_volatility t) (matched_risk_count t)
  | Analysed a =>
      Tally results' (valid t ++ [symbol])
        (total_volatility t + volatility a)
        (if risk_match a then matched_risk_count t + 1 else matched_risk_count t)
  end.

Fixpoint evaluate_loop (symbols : list string) (risk_tolerance : string)
    (t : tally) : eval tally :=
  match symbols with
  | [] => ret t
  | symbol :: symbols' =>
      let* r := analyze_etf_for_investment symbol risk_tolerance in
      evaluate_loop symbols' risk_tolerance (record_analysis symbol r t)
  end.

Definition summarise (symbols : list string) (t : tally) : portfolio_metrics :=
  let n := Z.of_nat (length (valid t)) in
  let some_valid := match valid t with [] => false | _ => true end in
  PortfolioMetrics
    (Z.of_nat (length symbols))
    n
    (if some_valid then Py.round2 (percent (total_volatility t) / inject_Z n) else 0)
    (if some_valid
     then Py.round2 (inject_Z (matched_risk_count t) / inject_Z n * 100) else 0)
    (if some_valid then Z.min 10 n else 0).

Definition evaluate_portfolio_symbols (symbols : list string)
    (risk_tolerance : string) : eval evaluation :=
  let* t := evaluate_loop symbols risk_tolerance (Tally ∅ [] 0 0) in
  ret (Evaluation (results t) (summarise symbols t)).

(** The analyses the loop performs, one per symbol of the list, in order. *)
Fixpoint analyses (symbols : list string) (risk_tolerance : string)
  : eval (list analysis_result) :=
  match symbols with
  | [] => ret []
  | symbol :: symbols' =>
      let* r := analyze_etf_for_investment symbol risk_tolerance in
      let* rs := analyses symbols' risk_tolerance in
      ret (r :: rs)
  end.

(** *** The four operations under one name *)

Inductive op : Type :=
| GetStockPrice (symbol : string)
| GetPerformanceMetrics (symbol : string)
| GetEtfOverview (symbol : string)
| GetSectorPerformance.

Definition key_of (o : op) : string :=
  match o with
  | GetStockPrice symbol => price_key symbol
  | GetPerformanceMetrics symbol => metrics_key symbol
  | GetEtfOverview symbol => overview_key symbol
  | GetSectorPerformance => sector_key
  end.

Definition ttl_of (o : op) : Z :=
  match o with
  | GetStockPrice _ => hours 1
  | GetPerformanceMetrics _ => hours 6
  | GetEtfOverview _ => hours 24
  | GetSectorPerformance => hours 6
  end.

(** The guarded request of an operation. *)
Definition fetch_of (o : op) : eval reply :=
  match o with
  | GetStockPrice symbol => fetch_stock_price symbol
  | GetPerformanceMetrics symbol => fetch_performance_metrics symbol
  | GetEtfOverview symbol => fetch_etf_overview symbol
  | GetSectorPerformance => fetch_sector_performance
  end.

Definition perform (o : op) : state -> reply * state :=
  match o with
  | GetStockPrice symbol => get_stock_price symbol
  | GetPerformanceMetrics symbol => get_performance_metrics symbol
  | GetEtfOverview symbol => get_etf_overview symbol
  | GetSectorPerformance => get_sector_performance
  end.

End Client.

(** ** Invariants of the cache and assumptions on the clock *)

(** What an entry under a key may hold: a result of the operation that
    owns the key, never an error. *)
Definition tag_ok (key : string) (r : reply) : bool :=
  match r with
  | Error _ => false
  | Data (OfQuote _) => Py.is_prefix "price_" key
  | Data (OfMetrics _) => Py.is_prefix "metrics_" key
  | Data (OfOverview _) => Py.is_prefix "overview_" key
  | Data (OfSectors _) => String.eqb key "sector_performance"
  end.

Definition cache_wf (s : state) : Prop :=
  forall key e, cache s !! key = Some e -> tag_ok key (data e) = true.

(** A clock that does not go back. *)
Definition monotone (w : world) : Prop :=
  forall i j : nat, (i <= j)%nat -> clock w i <= clock w j.

(** ** Executable instances of the library functions

    They cover the inputs the provider sends (plain decimal numerals and
    ISO dates) and are used to run the client in the examples; the
    theorems hold for any instance. *)

Module Lib.

(** A sign, digits, and optionally a point followed by digits. *)
Definition signed (s : string) : Z * string :=
  match s with
  | String c r =>
      if Ascii.eqb c "-"%char then (-1, r)
      else if Ascii.eqb c "+"%char then (1, r) else (1, s)
  | EmptyString => (1, s)
  end.

Definition float_of_string (s : string) : option Q :=
  let '(sign, s1) := signed s in
  let '(ip, k, s2) := JsonText.digits 0 0 s1 in
  match k, s2 with
  | O, _ => None
  | _, EmptyString => Some (inject_Z (sign * ip))
  | _, String p r =>
      if Ascii.eqb p "."%char then
        let '(fr, fk, s3) := JsonText.digits 0 0 r in
        match fk, s3 with
        | S _, EmptyString =>
            Some (Qred (inject_Z sign *
                        (inject_Z ip + inject_Z fr * JsonText.pow10 (- Z.of_nat fk))))
        | _, _ => None
        end
      else None
  end.

Definition int_of_string (s : string) : option Z :=
  let '(sign, s1) := signed s in
  let '(n, k, s2) := JsonText.digits 0 0 s1 in
  match k, s2 with
  | S _, EmptyString => Some (sign * n)
  | _, _ => None
  end.

(** Days from 1970-01-01 to a date of the proleptic Gregorian calendar. *)
Definition days_from_civil (y m d : Z) : Z :=
  let y' := if m <=? 2 then y - 1 else y in
  let era := y' / 400 in
  let yoe := y' - era * 400 in
  let doy := (153 * (if 2 <? m then m - 3 else m + 9) + 2) / 5 + d - 1 in
  let doe := yoe * 365 + yoe / 4 - yoe / 100 + doy in
  era * 146097 + doe - 719468.

Definition leap (y : Z) : bool :=
  ((y mod 4 =? 0) && negb (y mod 100 =? 0)) || (y mod 400 =? 0).

Definition days_in_month (y m : Z) : Z :=
  if m =? 2 then (if leap y then 29 else 28)
  else if (m =? 4) || (m =? 6) || (m =? 9) || (m =? 11) then 30 else 31.

(** A field of one or two digits followed by [sep]. *)
Definition field (s : string) : option (Z * string) :=
  let '(n, k, r) := JsonText.digits 0 0 s in
  match k with
  | 1%nat | 2%nat => Some (n, r)
  | _ => None
  end.

(** [%Y-%m-%d]: four digits, then month and day of one or two digits. *)
Definition strptime (s : string) : option Z :=
  match s with
  | String a (String b (String c (String d (String h r)))) =>
      match JsonText.digit a, JsonText.digit b, JsonText.digit c, JsonText.digit d with
      | Some ya, Some yb, Some yc, Some yd =>
          let y := ((ya * 10 + yb) * 10 + yc) * 10 + yd in
          if Ascii.eqb h "-"%char then
            match field r with
            | Some (m, String h' r') =>
                if Ascii.eqb h' "-"%char then
                  match field r' with
                  | Some (dd, EmptyString) =>
                      if (1 <=? y) && (1 <=? m) && (m <=? 12) && (1 <=? dd)
                         && (dd <=? days_in_month y m)
                      then Some (days_from_civil y m dd) else None
                  | _ => None
                  end
                else None
            | _ => None
            end
          else None
      | _, _, _, _ => None
      end
  | _ => None
  end.

(** The text of an exception: the wording of CPython for a missing key,
    an empty list and a division by zero; for the other kinds, whose
    wording names the values involved, a fixed text. *)
Definition str_exn (e : exn) : string :=
  match e with
  | KeyError k => "'" +:+ k +:+ "'"
  | TypeError => "unsupported operand"
  | ValueError => "invalid literal"
  | AttributeError => "object has no such attribute"
  | IndexError => "list index out of range"
  | ZeroDivisionError => "float division by zero"
  | RequestException detail => detail
  end.

End Lib.


Module Sample.

(** Noon of 2024-02-07, one second between two readings. *)
Definition noon : Z := 19760 * us_per_day + hours 12.
Definition clock (n : nat) : Z := noon + Z.of_nat n * 1000000.

Definition quote_text : string :=
  JsonText.dq "{'Global Quote': {'01. symbol': 'VTI', '05. price': '118.2500',
     '06. volume': '3100000', '10. change percent': '0.4200%'}}".

(** Closes that give changes of 2, -1, 3 and 18 percent over the four
    horizons counted from 2024-02-07. *)
Definition vti_series : string :=
  JsonText.dq "{'Meta Data': {'2. Symbol': 'VTI'},
    'Time Series (Daily)': {
      '2024-02-07': {'1. open': '117.9000', '4. close': '118.0000'},
      '2024-01-08': {'1. open': '115.0000', '4. close': '115.6863'},
      '2023-11-09': {'1. open': '119.0000', '4. close': '119.1919'},
      '2023-08-11': {'1. open': '114.0000', '4. close': '114.5631'},
      '2023-02-07': {'1. open': '101.0000', '4. close': '100.0000'}}}".

(** A short history: changes of 5 and 0 percent, nothing near the two
    longer horizons. *)
Definition bond_series : string :=
  JsonText.dq "{'Time Series (Daily)': {
      '2024-02-06': {'4. close': '105.0000'},
      '2024-01-10': {'4. close': '100.0000'},
      '2023-11-08': {'4. close': '105.0000'}}}".

(** A history whose close near the one-month horizon is zero. *)
Definition zero_series : string :=
  JsonText.dq "{'Time Series (Daily)': {
      '2024-02-06': {'4. close': '105.0000'},
      '2024-01-08': {'4. close': '0.0000'}}}".

Definition body (text : string) : exc json :=
  match JsonText.loads text with
  | Some v => inr v
  | None => inl (RequestException "Expecting value")
  end.

(** The provider knows VTI, BND and VIG, serves a broken history for
    ZERO, and answers with an empty object for any other symbol. *)
Definition provider (n : nat) (p : params) : exc json :=
  match dict_get "function" p, dict_get "symbol" p with
  | Some f, Some symbol =>
      if String.eqb symbol "VTI" || String.eqb symbol "BND"
         || String.eqb symbol "VIG" || String.eqb symbol "ZERO" then
        if String.eqb f "GLOBAL_QUOTE" then body quote_text
        else if String.eqb f "TIME_SERIES_DAILY" then
          body (if String.eqb symbol "VTI" then vti_series
                else if String.eqb symbol "ZERO" then zero_series
                else bond_series)
        else body (JsonText.dq "{'Name': 'A fund'}")
      else body "{}"
  | _, _ => body (JsonText.dq "{'Information': 'no sector data'}")
  end.

Definition w : world := World clock provider.

Definition get_stock_price :=
  get_stock_price w Lib.str_exn Lib.float_of_string Lib.int_of_string.
Definition get_performance_metrics :=
  get_performance_metrics w Lib.str_exn Lib.float_of_string Lib.strptime.
Definition perform :=
  perform w Lib.str_exn Lib.float_of_string Lib.int_of_string Lib.strptime.
Definition analyze :=
  analyze_etf_for_investment w Lib.str_exn Lib.float_of_string Lib.int_of_string
    Lib.strptime.
Definition evaluate :=
  evaluate_portfolio_symbols w Lib.str_exn Lib.float_of_string Lib.int_of_string
    Lib.strptime.

Definition analyses :=
  analyses w Lib.str_exn Lib.float_of_string Lib.int_of_string Lib.strptime.

(** A client with a credential and an empty cache. *)
Definition fresh : state := new_client (Some "demo").

(** The decoded reply to the request for the series of VTI, and its days. *)
Definition vti_data : json :=
  Eval vm_compute in
    match JsonText.loads vti_series with Some v => v | None => JNull end.

Definition vti_days : list (string * json) :=
  Eval vm_compute in
    match Py.getitem vti_data "Time Series (Daily)" with
    | inr (JObj days) => days
    | _ => []
    end.

(** The metrics of VTI and the state of the client once it has them. *)
Definition vti_metrics : metrics :=
  Metrics "VTI" 118
    [("1mo", Change 200 "2024-01-08"); ("3mo", Change (-100) "2023-11-09");
     ("6mo", Change 300 "2023-08-11"); ("1yr", Change 1800 "2023-02-07")].

Definition after_metrics : state :=
  Eval vm_compute in snd (get_performance_metrics "VTI" fresh).

(** The quote of VTI obtained next, and the state after it. *)
Definition vti_quote : quote :=
  Eval vm_compute in
    match fst (get_stock_price "VTI" after_metrics) with
    | Data (OfQuote q) => q
    | _ => Quote "" 0 JNull 0 0
    end.

Definition after_quote : state :=
  Eval vm_compute in snd (get_stock_price "VTI" after_metrics).

(** The first quote of VTI on the fresh client, and the state after it. *)
Definition first_quote : reply :=
  Eval vm_compute in fst (get_stock_price "VTI" fresh).

Definition after_first_quote : state :=
  Eval vm_compute in snd (get_stock_price "VTI" fresh).

(** The state after a failed request for an unknown symbol. *)
Definition after_unknown : state :=
  Eval vm_compute in snd (get_stock_price "NONE" fresh).

(** A portfolio of three funds analysed for a medium tolerance: the
    analyses, the evaluation and the state after them. *)
Definition three : list string := ["VTI"; "BND"; "VIG"].


Definition three_evaluation : evaluation :=
  Eval vm_compute in
    match fst (evaluate three "medium" fresh) with
    | inr ev => ev
    | inl _ => Evaluation ∅ (PortfolioMetrics 0 0 0 0 0)
    end.

Definition after_three : state :=
  Eval vm_compute in snd (evaluate three "medium" fresh).

(** The analysis of VTI, the same for a low and for a medium tolerance. *)
Definition vti_analysis : analysis :=
  Analysis "VTI" (473 # 4) (performance vti_metrics) 4 1900 true "buy".

End Sample.


(** ** Sample inputs of the extraction and of the feedback loop *)

Module SampleText.

(** A reply with the object between two sentences. *)
Definition reply_with_object : string :=
  "Here is the analysis: " +:+ braced (JsonText.dq "'risk_adjustment': 'lower'")
  +:+ " I hope this helps.".

(** A reply whose prose has braces of its own. *)
Definition prose_with_braces : string := "Use {braces} like ".
Definition small_object : string := JsonText.dq "{'a': 1}".

Definition goal : json :=
  JObj [("goal_type", JStr "retirement"); ("risk_tolerance", JStr "low")].
Definition strategy : json :=
  JObj [("description", JStr "Bond ladder"); ("products", JArr [])].

(** A serialiser that is enough for the samples. *)
Definition dumps (v : json) : string :=
  match v with
  | JObj kvs =>
      "{" +:+ fold_right (fun kv acc => fst kv +:+ ";" +:+ acc) "" kvs +:+ "}"
  | _ => "null"
  end.

(** A feedback role that answers without any JSON. *)
Definition silent_agent (message : string) : string :=
  "I am sorry, I cannot analyse this feedback.".

End SampleText.

(** ** What a guarded request does to the state

    It sends exactly one request; when it ends with a result it has read
    the clock and stored the result under the key with the last reading;
    when it ends with an error value or an exception it has left the cache
    alone. *)
Definition fetch_spec (w : world) (key : string) (body : eval reply) : Prop :=
  forall s, exists p,
    match body s with
    | (inr (Data d), s') =>
        api_key s' = api_key s /\ requests s' = (requests s ++ [p]) /\
        (clock_reads s < clock_reads s')%nat /\
        cache s' = <[key := Entry (clock w (pred (clock_reads s'))) (Data d)]> (cache s) /\
        tag_ok key (Data d) = true
    | (_, s') =>
        api_key s' = api_key s /\ requests s' = (requests s ++ [p]) /\
        (clock_reads s <= clock_reads s')%nat /\ cache s' = cache s
    end.

(** Code that only reads the clock. *)
Definition quiet {A} (m : eval A) : Prop :=
  forall s,
    api_key (snd (m s)) = api_key s /\ cache (snd (m s)) = cache s /\
    requests (snd (m s)) = requests s /\
    (clock_reads s <= clock_reads (snd (m s)))%nat.

(** The analysis of a performance table and a price, as
    [analyze_etf_for_investment] assembles it once [x :: rest] are the
    changes of the table. *)
Definition analysis_of (symbol risk_tolerance : string) (m : metrics) (q : quote)
    (x : Z) (rest : list Z) : analysis :=
  let volatility :=
    Float.sub (Float.of_hundredths (list_max x rest))
      (Float.of_hundredths (list_min x rest)) in
  let risk_match := matches risk_tolerance (score_of volatility) in
  Analysis symbol (price q) (performance m) (score_of volatility)
    (Py.round2 volatility) risk_match
    (recommend (yearly (performance m)) risk_match).

(** ** The selection of a reference date, as a specification *)

(** [x] is the first element of [l] with the least key. *)
Definition first_least {A} (key : A -> Z) (l : list A) (x : A) : Prop :=
  exists l1 l2,
    l = l1 ++ x :: l2 /\
    (forall y, y ∈ l1 -> key x < key y) /\
    (forall y, y ∈ l2 -> key x <= key y).

(** The distance in days of a date that parses. *)
Definition distance (strptime : string -> option Z) (target_date : Z) (x : string) : Z :=
  match strptime x with
  | Some d => Z.abs (d - target_date)
  | None => 0
  end.

(** A daily series in which every date parses and every day has a close
    that is a number other than zero. *)
Definition well_formed_series (float_of_string : string -> option Q)
    (strptime : string -> option Z) (days : list (string * json)) : Prop :=
  forall date, date ∈ map fst days ->
    is_Some (strptime date) /\
    exists c, close_of float_of_string (JObj days) date = inr c /\ Qnum c <> 0.

(** The iteration order of [get_performance_metrics]: the dates of the
    series from the greatest string down. *)
Definition dates_of (days : list (string * json)) : list string :=
  sorted_reverse (remove_dups (map fst days)).

(** The state after one reading of the clock. *)
Definition tick (s : state) : state :=
  State (api_key s) (cache s) (S (clock_reads s)) (requests s).

(** The request of [get_performance_metrics]. *)
Definition series_request (symbol : string) (s : state) : params :=
  [("function", "TIME_SERIES_DAILY"); ("symbol", symbol);
   ("outputsize", "full"); ("apikey", the_key s)].

(** What the entry of a horizon must be, given the series, the current
    price and the target date: the reference date is the first date in
    iteration order at the least distance from the target, which is a date
    of the series at the least distance among all of them; within seven
    days the entry is the change since the close of that date, beyond it
    is the error of the horizon. *)
Definition horizon_entry (float_of_string : string -> option Q)
    (strptime : string -> option Z) (days : list (string * json))
    (current_price : Q) (target_date : Z) (r : period_result) : Prop :=
  exists date d,
    first_least (distance strptime target_date) (dates_of days) date /\
    date ∈ map fst days /\
    strptime date = Some d /\
    (forall y dy, y ∈ map fst days -> strptime y = Some dy ->
                  Z.abs (d - target_date) <= Z.abs (dy - target_date)) /\
    (Z.abs (d - target_date) <= 7 ->
     exists past,
       close_of float_of_string (JObj days) date = inr past /\
       r = Change (Py.round2 (((current_price - past) / past) * 100)) date) /\
    (7 < Z.abs (d - target_date) ->
     r = NoData "No data available within 7 days of target date").

(** ** The aggregate of a portfolio, as a specification *)

(** The analyses without error among the results. *)
Fixpoint analysed (rs : list analysis_result) : list analysis :=
  match rs with
  | [] => []
  | Failed _ _ :: rs' => analysed rs'
  | Analysed a :: rs' => a :: analysed rs'
  end.

(** The sum of their volatilities, in hundredths. *)
Fixpoint sum_volatility (good : list analysis) : Z :=
  match good with
  | [] => 0
  | a :: good' => volatility a + sum_volatility good'
  end.

(** How many of them match the risk tolerance. *)
Fixpoint count_matched (good : list analysis) : Z :=
  match good with
  | [] => 0
  | a :: good' => (if risk_match a then 1 else 0) + count_matched good'
  end.

(** The table of results by symbol: a later analysis of a symbol replaces
    an earlier one. *)
Definition by_symbol (symbols : list string) (rs : list analysis_result)
  : gmap string analysis_result :=
  list_to_map (reverse (zip symbols rs)).

(** ** Proof automation *)

(** Case analysis on the innermost scrutinee of the goal. *)
Ltac case_scrutinee :=
  match goal with
  | |- context [match ?x with _ => _ end] =>
      lazymatch x with
      | context [match _ with _ => _ end] => fail
      | _ => destruct x eqn:?
      end
  | |- context [if ?x then _ else _] =>
      lazymatch x with
      | context [match _ with _ => _ end] => fail
      | context [if _ then _ else _] => fail
      | _ => destruct x eqn:?
      end
  end.

(** ** Further specifications of the client *)

(** The request an operation sends when it goes to the provider. *)
Definition request_of (o : op) (s : state) : params :=
  match o with
  | GetStockPrice symbol =>
      [("function", "GLOBAL_QUOTE"); ("symbol", symbol); ("apikey", the_key s)]
  | GetPerformanceMetrics symbol =>
      [("function", "TIME_SERIES_DAILY"); ("symbol", symbol);
       ("outputsize", "full"); ("apikey", the_key s)]
  | GetEtfOverview symbol =>
      [("function", "OVERVIEW"); ("symbol", symbol); ("apikey", the_key s)]
  | GetSectorPerformance => [("function", "SECTOR"); ("apikey", the_key s)]
  end.

(** The state after a request. *)
Definition sent (p : params) (s : state) : state :=
  State (api_key s) (cache s) (clock_reads s) (requests s ++ [p]).

(** A result answers an operation: it is of the kind the operation
    produces and for the symbol it was asked about; metrics carry the four
    period labels in their order. *)
Definition answers (o : op) (d : payload) : Prop :=
  match o, d with
  | GetStockPrice symbol, OfQuote q => quote_symbol q = symbol
  | GetPerformanceMetrics symbol, OfMetrics m =>
      metrics_symbol m = symbol /\ map fst (performance m) = map fst periods
  | GetEtfOverview symbol, OfOverview v => overview_symbol v = symbol
  | GetSectorPerformance, OfSectors _ => True
  | _, _ => False
  end.

(** Every entry of the cache holds, under its key, a result that answers
    the operation the key belongs to. *)
Definition cache_sound (s : state) : Prop :=
  forall key e, cache s !! key = Some e ->
    exists o d, key = key_of o /\ data e = Data d /\ answers o d.

(** What the guarded request of an operation does to the state, with the
    request it sends and the kind of result it stores. *)
Definition fetch_effect (w : world) (o : op) (body : eval reply) : Prop :=
  forall s,
    match body s with
    | (inr (Data d), s') =>
        api_key s' = api_key s /\ requests s' = requests s ++ [request_of o s] /\
        (clock_reads s < clock_reads s')%nat /\
        cache s' = <[key_of o := Entry (clock w (pred (clock_reads s'))) (Data d)]>
                     (cache s) /\
        answers o d
    | (_, s') =>
        api_key s' = api_key s /\ requests s' = requests s ++ [request_of o s] /\
        (clock_reads s <= clock_reads s')%nat /\ cache s' = cache s
    end.

(** The error message of an operation whose reply has no data. *)
Definition not_found (o : op) : string :=
  match o with
  | GetStockPrice symbol | GetPerformanceMetrics symbol =>
      "No data found for symbol " +:+ symbol
  | GetEtfOverview symbol => "No overview data found for symbol " +:+ symbol
  | GetSectorPerformance => "No sector performance data available"
  end.

(** A reply has no entry for a section: the key is absent, or its value
    is empty (or false in another way). *)
Definition section_missing (section : string) (reply : json) : Prop :=
  Py.contains section reply = inr false \/
  exists v, Py.getitem reply section = inr v /\ Py.truthy v = false.

(** A decoded reply without the data of an operation. *)
Definition lacks_data (o : op) (reply : json) : Prop :=
  match o with
  | GetStockPrice _ => section_missing "Global Quote" reply
  | GetPerformanceMetrics _ => section_missing "Time Series (Daily)" reply
  | GetEtfOverview _ =>
      Py.truthy reply = false \/ Py.contains "Error Message" reply = inr true
  | GetSectorPerformance =>
      Py.contains "Rank A: Real-Time Performance" reply = inr false
  end.

(** [analysis["symbol"]], which a failed analysis has as well. *)
Definition result_symbol (r : analysis_result) : string :=
  match r with
  | Failed symbol _ => symbol
  | Analysed a => analysis_symbol a
  end.

(** ** [FinancialDataTool]: alternatives and diversification *)

(** [l.remove(x)] for an [x] in [l]: [l] without the first [x]. *)
Fixpoint list_remove (x : string) (l : list string) : list string :=
  match l with
  | [] => []
  | y :: l' => if String.eqb y x then l' else y :: list_remove x l'
  end.

(** [l[:count]]: a negative [count] is counted from the end. *)
Definition slice_to {A} (count : Z) (l : list A) : list A :=
  if 0 <=? count then take (Z.to_nat count) l
  else take (Z.to_nat (Z.of_nat (length l) + count)) l.

Definition alternatives_map : list (string * list string) :=
  [("low", ["BND"; "VTIP"; "VGSH"; "VMBS"; "MUB"]);
   ("medium", ["VTI"; "VOO"; "VIG"; "IJH"; "VXUS"]);
   ("high", ["VGT"; "VB"; "VWO"; "ARKK"; "QQQ"])].

(** [alternatives_map.get(risk_tolerance, ["VTI", "BND", "VXUS"])] *)
Definition possible_alternatives (risk_tolerance : string) : list string :=
  default ["VTI"; "BND"; "VXUS"] (dict_get risk_tolerance alternatives_map).

(** [{"symbol": alt_symbol, "analysis": analysis}] *)
Record alternative : Type := Alternative {
  alt_symbol : string;
  alt_analysis : analysis
}.

Definition sector_mapping : list (string * string) :=
  [("VTI", "US Stocks"); ("VOO", "US Stocks"); ("VGT", "Technology");
   ("VHT", "Healthcare"); ("VFH", "Financials"); ("VNQ", "Real Estate");
   ("BND", "US Bonds"); ("VXUS", "International Stocks");
   ("VWO", "Emerging Markets"); ("BNDX", "International Bonds")].

(** [sector_mapping.get(symbol, "Unknown")] *)
Definition sector_of (symbol : string) : string :=
  default "Unknown" (dict_get symbol sector_mapping).

(** The loop that counts the sectors of the portfolio. *)
Definition count_sectors (symbols : list string) : list (string * Z) :=
  fold_left
    (fun sectors symbol =>
       let sector := sector_of symbol in
       dict_set sector (default 0 (dict_get sector sectors) + 1) sectors)
    symbols [].

Definition key_sectors : list string :=
  ["US Stocks"; "International Stocks"; "US Bonds"; "Real Estate"].

(** The key sectors that are [not in sectors], in the order of the list. *)
Definition missing_of (sectors : list (string * Z)) : list string :=
  List.filter (fun sector => negb (bool_decide (is_Some (dict_get sector sectors))))
    key_sectors.

(** An entry of ["suggested_additions"]. *)
Record addition : Type := Addition {
  addition_sector : string;
  addition_symbol : string;
  rationale : string
}.

(** The chain of [if sector == ...] of the loop over the missing sectors:
    what it appends for a sector, if anything. *)
Definition suggestion (risk_tolerance sector : string) : option addition :=
  if String.eqb sector "US Stocks" then
    Some (Addition sector
            (if negb (String.eqb risk_tolerance "low") then "VTI" else "VIG")
            "Provides broad US market exposure")
  else if String.eqb sector "International Stocks" then
    Some (Addition sector "VXUS" "Adds international diversification")
  else if String.eqb sector "US Bonds" then
    Some (Addition sector "BND" "Adds stability and income")
  else if String.eqb sector "Real Estate" then
    Some (Addition sector "VNQ" "Provides exposure to real estate sector")
  else None.

Definition suggested (risk_tolerance : string) (missing : list string) : list addition :=
  omap (suggestion risk_tolerance) missing.

(** [s.strip(chars)]: without the characters of [chars] at both ends. *)
Fixpoint lstrip (chars : list ascii) (s : string) : string :=
  match s with
  | EmptyString => EmptyString
  | String c s' => if existsb (Ascii.eqb c) chars then lstrip chars s' else s
  end.

Fixpoint rstrip (chars : list ascii) (s : string) : string :=
  match s with
  | EmptyString => EmptyString
  | String c s' =>
      match rstrip chars s' with
      | EmptyString => if existsb (Ascii.eqb c) chars then EmptyString
                       else String c EmptyString
      | t => String c t
      end
  end.

Definition strip (chars : list ascii) (s : string) : string :=
  lstrip chars (rstrip chars s).

(** [l.sort(key=lambda x: x[1], reverse=True)]: from the greatest value
    down, elements of equal value in their order in [l]. *)
Fixpoint insert_desc {A} (x : A * Q) (l : list (A * Q)) : list (A * Q) :=
  match l with
  | [] => [x]
  | y :: l' => if Qle_bool (snd x) (snd y) then y :: insert_desc x l' else x :: y :: l'
  end.

Definition sort_desc {A} (l : list (A * Q)) : list (A * Q) :=
  fold_left (fun sorted x => insert_desc x sorted) l [].

(** What [get_portfolio_diversification_recommendations] returns;
    ["top_performing_sectors"] is present only with a sector table. *)
Record recommendations : Type := Recommendations {
  missing_sectors : list string;
  sector_allocation : list (string * Z);
  suggested_additions : list addition;
  top_performing_sectors : option (list (string * string))
}.

Section Tool.

Variable w : world.
Variable str_exn : exn -> string.
Variable float_of_string : string -> option Q.
Variable int_of_string : string -> option Z.
Variable strptime : string -> option Z.
(** [str(x)] of a float, as an f-string formats it. *)
Variable str_float : Q -> string.

(** *** [FinancialDataTool.find_alternative_investments] *)

(** The loop over the candidates, with [results] so far. *)
Fixpoint alternatives_loop (candidates : list string) (risk_tolerance : string)
    (count : Z) (results : list alternative) : eval (list alternative) :=
  match candidates with
  | [] => ret results
  | alt_symbol :: candidates' =>
      let* analysis :=
        analyze_etf_for_investment w str_exn float_of_string int_of_string strptime
          alt_symbol risk_tolerance in
      let results' :=
        match analysis with
        | Analysed a => results ++ [Alternative alt_symbol a]
        | Failed _ _ => results
        end in
      if count <=? Z.of_nat (length results') then ret results'
      else alternatives_loop candidates' risk_tolerance count results'
  end.

Definition find_alternative_investments (symbol risk_tolerance : string) (count : Z)
  : eval (list alternative) :=
  let possible := possible_alternatives risk_tolerance in
  let possible :=
    if bool_decide (symbol ∈ possible) then list_remove symbol possible
    else possible in
  alternatives_loop (slice_to count possible) risk_tolerance count [].

(** *** [FinancialDataTool.get_portfolio_diversification_recommendations] *)

(** [float(performance.strip("%").strip("+"))] under the [try] of the
    loop: nothing for a value that is not a string or does not parse. *)
Definition perf_value (performance : json) : option Q :=
  match performance with
  | JStr p => float_of_string (strip ["+"%char] (strip ["%"%char] p))
  | _ => None
  end.

(** The three best sectors of a table that has [items()]. *)
Definition top_sectors (table : json) : exc (list (string * string)) :=
  match table with
  | JObj kvs =>
      let parsed :=
        omap (fun kv => match perf_value (snd kv) with
                        | Some v => Some (fst kv, v)
                        | None => None
                        end) kvs in
      inr (map (fun sp => (fst sp, str_float (snd sp) +:+ "%"))
             (take 3 (sort_desc parsed)))
  | _ => inl AttributeError
  end.

(** [if "sectors" in sector_data and not isinstance(sector_data["sectors"], str)] *)
Definition top_performing (sector_data : reply)
  : exc (option (list (string * string))) :=
  match sector_data with
  | Data (OfSectors t) =>
      match sectors t with
      | JStr _ => inr None
      | table =>
          match top_sectors table with
          | inl e => inl e
          | inr top => inr (Some top)
          end
      end
  | _ => inr None
  end.

Definition get_portfolio_diversification_recommendations (symbols : list string)
    (risk_tolerance : string) : eval recommendations :=
  let* sector_data := call (get_sector_performance w str_exn) in
  let* portfolio_eval :=
    evaluate_portfolio_symbols w str_exn float_of_string int_of_string strptime
      symbols risk_tolerance in
  let sectors := count_sectors symbols in
  let missing := missing_of sectors in
  let* top := lift (top_performing sector_data) in
  ret (Recommendations missing sectors (suggested risk_tolerance missing) top).

End Tool.

(** How many symbols of a portfolio fall into a sector. *)
Definition occurrences (sector : string) (symbols : list string) : Z :=
  Z.of_nat (length (List.filter (fun symbol => String.eqb (sector_of symbol) sector)
                      symbols)).

(** The sum of the counts of an allocation. *)
Definition allocated (sectors : list (string * Z)) : Z :=
  fold_right Z.add 0 (map snd sectors).





(** ** The other feedback handlers *)

Module Workflow1.
Section Feedback.

Variable json_loads : string -> option json.
Variable json_dumps : json -> string.
Variable feedback_agent : string -> string.

(** src/workflow1.py, [process_feedback]: the same exchange and the same
    default as in src/workflow.py, but the decoding stands outside any
    [try], so its [JSONDecodeError], a [ValueError], leaves the function. *)
Definition process_feedback (user_feedback : string)
    (structured_goal strategy : json) : exc json :=
  let feedback_agent_response :=
    feedback_agent (feedback_message json_dumps user_feedback structured_goal strategy) in
  let json_start := PyStr.find lbrace feedback_agent_response in
  let json_end := PyStr.rfind rbrace feedback_agent_response + 1 in
  if (0 <=? json_start) && (json_start <? json_end) then
    match json_loads (PyStr.slice feedback_agent_response json_start json_end) with
    | Some analysis => inr analysis
    | None => inl ValueError
    end
  else inr default_feedback_analysis.

End Feedback.
End Workflow1.

Module Main.
Section Feedback.

Variable json_loads : string -> option json.
Variable json_dumps : json -> string.
Variable feedback_agent : string -> string.

(** src/main.py, [process_feedback]: what [extract_json_response] gives,
    [None] included. *)
Definition process_feedback (user_feedback : string)
    (structured_goal strategy : json) : option json :=
  let feedback_response :=
    feedback_agent (feedback_message json_dumps user_feedback structured_goal strategy) in
  extract_json_response json_loads feedback_response.

End Feedback.
End Main.

Module Main1.
Section Waiting.

Variable json_loads : string -> option json.

(** src/main1.py, [InvestmentStrategyAdvisor._wait_for_json_response],
    on the messages of the group chat as pairs of the name of the sender
    and the content: the last message of the agent is decoded, with the
    empty object for a failure of any kind. *)
Definition _wait_for_json_response (chat : list (string * string))
    (agent_name : string) : exc json :=
  let messages :=
    List.filter (fun msg => String.eqb (fst msg) agent_name) chat in
  match last messages with
  | None => inl ValueError
  | Some msg =>
      let last_message := snd msg in
      let json_start := PyStr.find lbrace last_message in
      let json_end := PyStr.rfind rbrace last_message + 1 in
      if (0 <=? json_start) && (json_start <? json_end) then
        match json_loads (PyStr.slice last_message json_start json_end) with
        | Some v => inr v
        | None => inr (JObj [])
        end
      else inr (JObj [])
  end.

End Waiting.
End Main1.

(** ** Sample clients for the tool *)

Module SampleTool.

(** Decimal digits of a natural number. *)
Fixpoint digits_of (fuel : nat) (n : Z) (acc : string) : string :=
  match fuel with
  | O => acc
  | S fuel' =>
      let acc' := String (ascii_of_nat (48 + Z.to_nat (n mod 10))) acc in
      if n / 10 =? 0 then acc' else digits_of fuel' (n / 10) acc'
  end.

(** [str(x)] of a float with at most six decimals and no exponent: the
    integer part, a point, and the decimals without trailing zeros, at
    least one. *)
Definition str_float (q : Q) : string :=
  let a := Z.abs (Qnum q) in
  let d := Z.pos (Qden q) in
  let decimals := digits_of 7 (1000000 + (a mod d) * 1000000 / d) "" in
  let decimals :=
    match decimals with String _ r => rstrip ["0"%char] r | EmptyString => "" end in
  (if Qnum q <? 0 then "-" else "") +:+ digits_of 30 (a / d) "" +:+ "."
  +:+ (if String.eqb decimals "" then "0" else decimals).

Definition sector_text : string :=
  JsonText.dq "{'Rank A: Real-Time Performance': {'Energy': '+1.45%',
     'Utilities': '-0.30%', 'Financials': '2.10%', 'Real Estate': '0.85%',
     'Materials': 'n/a'}}".

(** The sample provider, with a sector table. *)
Definition provider (n : nat) (p : params) : exc json :=
  match dict_get "function" p with
  | Some f => if String.eqb f "SECTOR" then Sample.body sector_text
              else Sample.provider n p
  | None => Sample.provider n p
  end.

Definition w : world := World Sample.clock provider.

(** A provider that cannot be reached. *)
Definition unreachable : world :=
  World Sample.clock (fun _ _ => inl (RequestException "Connection refused")).

Definition find_alternatives :=
  find_alternative_investments Sample.w Lib.str_exn Lib.float_of_string
    Lib.int_of_string Lib.strptime.

Definition diversification :=
  get_portfolio_diversification_recommendations w Lib.str_exn Lib.float_of_string
    Lib.int_of_string Lib.strptime str_float.

(** Three alternatives to VTI for a medium tolerance: of the candidates
    VOO, VIG and IJH the provider knows VIG only. *)
Definition alternatives : list alternative :=
  Eval vm_compute in
    match fst (find_alternatives "VTI" "medium" 3 Sample.fresh) with
    | inr alts => alts
    | inl _ => []
    end.

Definition after_alternatives : state :=
  Eval vm_compute in snd (find_alternatives "VTI" "medium" 3 Sample.fresh).

(** The recommendations for a portfolio of a stock fund, a bond fund and
    a symbol outside the table of sectors. *)
Definition portfolio : list string := ["VTI"; "BND"; "XYZ"].

Definition empty_recommendations : recommendations := Recommendations [] [] [] None.

Definition advice : recommendations :=
  Eval vm_compute in
    match fst (diversification portfolio "low" Sample.fresh) with
    | inr rec => rec
    | inl _ => empty_recommendations
    end.

Definition after_advice : state :=
  Eval vm_compute in snd (diversification portfolio "low" Sample.fresh).

(** The recommendations for a bond fund alone, and for it with the
    additions suggested. *)
Definition bond_advice : recommendations :=
  Eval vm_compute in
    match fst (diversification ["BND"] "low" Sample.fresh) with
    | inr rec => rec
    | inl _ => empty_recommendations
    end.

Definition after_bond_advice : state :=
  Eval vm_compute in snd (diversification ["BND"] "low" Sample.fresh).

Definition extended : list string :=
  Eval vm_compute in ["BND"] ++ map addition_symbol (suggested_additions bond_advice).

Definition extended_advice : recommendations :=
  Eval vm_compute in
    match fst (diversification extended "low" after_bond_advice) with
    | inr rec => rec
    | inl _ => empty_recommendations
    end.

Definition after_extended_advice : state :=
  Eval vm_compute in snd (diversification extended "low" after_bond_advice).

(** The sector table of the sample provider, as the client returns it. *)
Definition sector_reply : reply :=
  Eval vm_compute in fst (get_sector_performance w Lib.str_exn Sample.fresh).

Definition after_sectors : state :=
  Eval vm_compute in snd (get_sector_performance w Lib.str_exn Sample.fresh).

Definition portfolio_evaluation : evaluation :=
  Eval vm_compute in
    match fst (evaluate_portfolio_symbols w Lib.str_exn Lib.float_of_string
                 Lib.int_of_string Lib.strptime portfolio "low" after_sectors) with
    | inr ev => ev
    | inl _ => Evaluation ∅ (PortfolioMetrics 0 0 0 0 0)
    end.

(** The analysis of the bond fund on a fresh client. *)
Definition bond_analysis : analysis :=
  Eval vm_compute in
    match fst (Sample.analyze "BND" "medium" Sample.fresh) with
    | inr (Analysed a) => a
    | _ => Sample.vti_analysis
    end.

Definition after_bond_analysis : state :=
  Eval vm_compute in snd (Sample.analyze "BND" "medium" Sample.fresh).

End SampleTool.

(** ** A sample fund at a tie of the score *)

Module SampleTie.

(** Closes that give changes of 32.2 and 9.7 percent over one and three
    months counted from 2024-02-07, and nothing near the longer
    horizons. *)
Definition tie_series : string :=
  JsonText.dq "{'Time Series (Daily)': {
      '2024-02-07': {'4. close': '132.2000'},
      '2024-01-08': {'4. close': '100.0000'},
      '2023-11-09': {'4. close': '120.5105'}}}".

(** The sample provider, which also knows TIE. *)
Definition provider (n : nat) (p : params) : exc json :=
  match dict_get "function" p, dict_get "symbol" p with
  | Some f, Some symbol =>
      if String.eqb symbol "TIE" then
        if String.eqb f "GLOBAL_QUOTE" then Sample.body Sample.quote_text
        else Sample.body tie_series
      else Sample.provider n p
  | _, _ => Sample.provider n p
  end.

Definition w : world := World Sample.clock provider.

Definition analyze :=
  analyze_etf_for_investment w Lib.str_exn Lib.float_of_string Lib.int_of_string
    Lib.strptime.

(** The analysis of TIE and the state after it. *)
Definition tie_analysis : analysis :=
  Eval vm_compute in
    match fst (analyze "TIE" "low" Sample.fresh) with
    | inr (Analysed a) => a
    | _ => Sample.vti_analysis
    end.

Definition after_tie : state :=
  Eval vm_compute in snd (analyze "TIE" "low" Sample.fresh).

End SampleTie.

(** * Properties *)

#[local] Arguments String.append !_ _ : simpl nomatch.

(** ** Structured extraction *)

Section StringFacts.

Lemma find_bounds c s : -1 <= PyStr.find c s < PyStr.len s \/ s = EmptyString.
Proof.
  induction s as [|a s IH]; [by right|left].
  unfold PyStr.len in *. cbn [PyStr.find String.length].
  destruct (Ascii.eqb a c); [lia|].
  destruct IH as [IH| ->]; [|cbn; lia].
  destruct (Z.ltb_spec (PyStr.find c s) 0); lia.
Qed.

Lemma find_nonneg_absent c s : PyStr.mem c s = false -> PyStr.find c s = -1.
Proof.
  induction s as [|a s IH]; cbn; [done|].
  destruct (Ascii.eqb a c); cbn; [done|].
  intros H. by rewrite (IH H).
Qed.

Lemma rfind_absent c s : PyStr.mem c s = false -> PyStr.rfind c s = -1.
Proof.
  induction s as [|a s IH]; cbn; [done|].
  destruct (Ascii.eqb a c); cbn; [done|].
  intros H. by rewrite (IH H).
Qed.

(** The first occurrence after a prefix without the character. *)
Lemma find_app c pre rest :
  PyStr.mem c pre = false ->
  PyStr.find c (pre +:+ String c rest) = PyStr.len pre.
Proof.
  unfold PyStr.len.
  induction pre as [|a pre IH]; cbn [String.append PyStr.find PyStr.mem String.length].
  - by rewrite Ascii.eqb_refl.
  - destruct (Ascii.eqb a c); cbn; [done|].
    intros H. rewrite (IH H).
    destruct (Z.ltb_spec (Z.of_nat (String.length pre)) 0); lia.
Qed.

Lemma rfind_ge c s : -1 <= PyStr.rfind c s.
Proof.
  induction s as [|a s IH]; cbn; [lia|].
  destruct (Z.leb_spec 0 (PyStr.rfind c s)); [lia|].
  destruct (Ascii.eqb a c); lia.
Qed.

(** The last occurrence before a suffix without the character. *)
Lemma rfind_app c s post :
  PyStr.mem c post = false ->
  PyStr.rfind c (s +:+ String c post) = PyStr.len s.
Proof.
  intros H. unfold PyStr.len.
  induction s as [|a s IH]; cbn [String.append PyStr.rfind String.length].
  - rewrite (rfind_absent _ _ H), Ascii.eqb_refl. done.
  - rewrite IH.
    destruct (Z.leb_spec 0 (Z.of_nat (String.length s))); lia.
Qed.

Lemma substring_prefix mid post :
  String.substring 0 (String.length mid) (mid +:+ post) = mid.
Proof.
  induction mid as [|a mid IH]; cbn.
  - by destruct post.
  - by rewrite IH.
Qed.

Lemma slice_app pre mid post :
  PyStr.slice (pre +:+ mid +:+ post) (PyStr.len pre) (PyStr.len pre + PyStr.len mid)
  = mid.
Proof.
  unfold PyStr.slice, PyStr.len.
  replace (Z.of_nat (String.length pre) + Z.of_nat (String.length mid)
           - Z.of_nat (String.length pre)) with (Z.of_nat (String.length mid)) by lia.
  rewrite !Nat2Z.id.
  induction pre as [|a pre IH]; cbn; [apply substring_prefix|apply IH].
Qed.

Lemma len_app a b : PyStr.len (a +:+ b) = PyStr.len a + PyStr.len b.
Proof.
  unfold PyStr.len. induction a as [|c a IH]; cbn [String.append String.length]; lia.
Qed.

Lemma app_assoc_string (a b c : string) : (a +:+ b) +:+ c = a +:+ (b +:+ c).
Proof. induction a as [|x a IH]; cbn; [done|by rewrite IH]. Qed.

End StringFacts.

Section ExtractionProperties.

Variable json_loads : string -> option json.
Variable json_dumps : json -> string.
Variable feedback_agent : string -> string.

(** C3, as amended.  When the prose before the object has no opening
    brace and the prose after it has no closing brace, the span from the
    first opening to the last closing brace is the object itself, and
    the extraction returns what the decoder makes of it. *)
Theorem extract_between_clean_prose pre mid post v :
  PyStr.mem lbrace pre = false ->
  PyStr.mem rbrace post = false ->
  json_loads (braced mid) = Some v ->
  extract_json_response json_loads (pre +:+ braced mid +:+ post) = Some v.
Proof.
  intros Hpre Hpost Hv. unfold extract_json_response.
  assert (Hfind : PyStr.find lbrace (pre +:+ braced mid +:+ post) = PyStr.len pre).
  { unfold braced. cbn [String.append]. by apply find_app. }
  assert (Hrfind : PyStr.rfind rbrace (pre +:+ braced mid +:+ post) + 1
                   = PyStr.len pre + PyStr.len (braced mid)).
  { unfold braced.
    replace (pre +:+ String lbrace (mid +:+ String rbrace EmptyString) +:+ post)
      with ((pre +:+ String lbrace mid) +:+ String rbrace post).
    - rewrite (rfind_app _ _ _ Hpost), len_app.
      unfold PyStr.len. cbn [String.length].
      assert (String.length (mid +:+ String rbrace EmptyString)
              = S (String.length mid)) as ->; [|lia].
      clear. induction mid as [|a m IH]; cbn; [done|by rewrite IH].
    - rewrite app_assoc_string. f_equal. cbn [String.append]. f_equal.
      clear. induction mid as [|a m IH]; cbn; [done|by rewrite IH]. }
  rewrite Hfind, Hrfind.
  assert (0 <= PyStr.len pre) by (unfold PyStr.len; lia).
  assert (0 < PyStr.len (braced mid)) by (unfold PyStr.len, braced; cbn; lia).
  destruct (Z.leb_spec 0 (PyStr.len pre)); [|lia].
  destruct (Z.ltb_spec (PyStr.len pre) (PyStr.len pre + PyStr.len (braced mid))); [|lia].
  cbn [andb]. by rewrite slice_app.
Qed.

(** C8.  When the extraction from the reply of the feedback role fails,
    whether no braces are found or the span does not decode,
    [process_feedback] returns the fixed default analysis: no change of
    risk, no preference changes, no strategy adjustments. *)
Theorem process_feedback_default user_feedback structured_goal strategy :
  extract_json_response json_loads
    (feedback_agent (feedback_message json_dumps user_feedback structured_goal strategy))
    = None ->
  process_feedback json_loads json_dumps feedback_agent
    user_feedback structured_goal strategy
  = JObj [ ("feedback_analysis", JStr "Unable to analyze feedback properly.");
           ("risk_adjustment", JStr "no change");
           ("preference_changes", JArr []);
           ("strategy_adjustments", JArr []) ].
Proof.
  unfold extract_json_response, process_feedback.
  destruct (_ && _); [|done].
  by intros ->.
Qed.

(** Conversely, a successful extraction is returned as it is. *)
Lemma process_feedback_extracted user_feedback structured_goal strategy analysis :
  extract_json_response json_loads
    (feedback_agent (feedback_message json_dumps user_feedback structured_goal strategy))
    = Some analysis ->
  process_feedback json_loads json_dumps feedback_agent
    user_feedback structured_goal strategy = analysis.
Proof.
  unfold extract_json_response, process_feedback.
  destruct (_ && _); [|done].
  by intros ->.
Qed.

End ExtractionProperties.

(** The amended C3 at a reply with the object between two sentences. *)
Lemma extract_between_clean_prose_witness :
  PyStr.mem lbrace "Here is the analysis: " = false /\
  PyStr.mem rbrace " I hope this helps." = false /\
  extract_json_response JsonText.loads SampleText.reply_with_object
  = Some (JObj [("risk_adjustment", JStr "lower")]).
Proof.
  split; [reflexivity|]. split; [reflexivity|].
  apply (extract_between_clean_prose JsonText.loads); reflexivity.
Defined.

(** C3 as stated fails: an object that decodes on its own is not
    returned when the prose before it has a brace, the span then starts
    too early and does not decode. *)
Lemma extract_any_prose_counterexample :
  ~ (forall pre obj post kvs,
        JsonText.loads obj = Some (JObj kvs) ->
        extract_json_response JsonText.loads (pre +:+ obj +:+ post)
        = Some (JObj kvs)).
Proof.
  intros H.
  specialize (H SampleText.prose_with_braces SampleText.small_object ""
                [("a", JInt 1)] eq_refl).
  vm_compute in H. discriminate H.
Qed.

(** C8 at a reply without JSON. *)
Lemma process_feedback_default_witness :
  extract_json_response JsonText.loads
    (SampleText.silent_agent
       (feedback_message SampleText.dumps "Too risky for me."
          SampleText.goal SampleText.strategy)) = None /\
  process_feedback JsonText.loads SampleText.dumps SampleText.silent_agent
    "Too risky for me." SampleText.goal SampleText.strategy
  = JObj [ ("feedback_analysis", JStr "Unable to analyze feedback properly.");
           ("risk_adjustment", JStr "no change");
           ("preference_changes", JArr []);
           ("strategy_adjustments", JArr []) ].
Proof.
  split; [reflexivity|].
  apply (process_feedback_default JsonText.loads SampleText.dumps
           SampleText.silent_agent); reflexivity.
Defined.

(** ** The client: effects of the operations *)

Section ClientProperties.

Variable w : world.
Variable str_exn : exn -> string.
Variable float_of_string : string -> option Q.
Variable int_of_string : string -> option Z.
Variable strptime : string -> option Z.

Local Abbreviation stock_price :=
  (get_stock_price w str_exn float_of_string int_of_string).
Local Abbreviation performance_metrics :=
  (get_performance_metrics w str_exn float_of_string strptime).
Local Abbreviation etf_overview := (get_etf_overview w str_exn).
Local Abbreviation sector_performance := (get_sector_performance w str_exn).
Local Abbreviation run := (perform w str_exn float_of_string int_of_string strptime).
Local Abbreviation fetch := (fetch_of w float_of_string int_of_string strptime).
Local Abbreviation analyze :=
  (analyze_etf_for_investment w str_exn float_of_string int_of_string strptime).
Local Abbreviation evaluate :=
  (evaluate_portfolio_symbols w str_exn float_of_string int_of_string strptime).

Lemma perform_operation o :
  run o = operation w str_exn (key_of o) (ttl_of o) (fetch o).
Proof. by destruct o. Qed.

(** C9.  Without a credential each of the four operations returns the
    error "API key not set" and leaves the state as it was: no request
    is sent, the clock is not read, the cache is neither read nor
    written. *)
Theorem no_credential_short_circuit s symbol :
  no_api_key s = true ->
  stock_price symbol s = (Error "API key not set", s) /\
  performance_metrics symbol s = (Error "API key not set", s) /\
  etf_overview symbol s = (Error "API key not set", s) /\
  sector_performance s = (Error "API key not set", s).
Proof.
  intros H.
  unfold get_stock_price, get_performance_metrics, get_etf_overview,
    get_sector_performance, operation.
  by rewrite H.
Qed.

Lemma quiet_ret {A} (a : A) : quiet (ret a).
Proof. intros s. cbn. auto with lia. Qed.

Lemma quiet_lift {A} (x : exc A) : quiet (lift x).
Proof. intros s. cbn. auto with lia. Qed.

Lemma quiet_now : quiet (datetime_now w).
Proof. intros s. cbn. auto with lia. Qed.

Lemma quiet_bind {A B} (m : eval A) (k : A -> eval B) :
  quiet m -> (forall a, quiet (k a)) -> quiet (bind m k).
Proof.
  intros Hm Hk s. unfold bind.
  specialize (Hm s). destruct (m s) as [[e|a] s1]; cbn in *; [done|].
  specialize (Hk a s1). destruct (k a s1) as [x s2]; cbn in *.
  destruct Hm as (? & ? & ? & ?), Hk as (? & ? & ? & ?).
  repeat split; [congruence..|lia].
Qed.

Lemma quiet_period_entry time_series dates current_price days :
  quiet (period_entry w float_of_string strptime time_series dates current_price days).
Proof.
  unfold period_entry.
  apply quiet_bind; [apply quiet_now|intros now].
  apply quiet_bind; [apply quiet_lift|intros closest_date].
  apply quiet_bind; [apply quiet_lift|intros distance].
  destruct (distance <=? 7); [|apply quiet_ret].
  apply quiet_bind; [apply quiet_lift|intros past_price].
  apply quiet_bind; [apply quiet_lift|intros change].
  apply quiet_ret.
Qed.

Lemma quiet_period_loop time_series dates current_price todo perf :
  quiet (period_loop w float_of_string strptime time_series dates current_price todo perf).
Proof.
  revert perf. induction todo as [|[period_name days] todo IH]; intros perf; cbn.
  - apply quiet_ret.
  - apply quiet_bind; [apply quiet_period_entry|intros r]. apply IH.
Qed.

Lemma fetch_stock_price_spec symbol :
  fetch_spec w (price_key symbol) (fetch_stock_price w float_of_string int_of_string symbol).
Proof.
  intros s. eexists.
  unfold fetch_stock_price, bind, requests_get, lift, ret, datetime_now, cache_store.
  repeat (case_scrutinee; simplify_eq/=); auto with lia.
Qed.

Lemma fetch_etf_overview_spec symbol :
  fetch_spec w (overview_key symbol) (fetch_etf_overview w symbol).
Proof.
  intros s. eexists.
  unfold fetch_etf_overview, bind, requests_get, lift, ret, datetime_now, cache_store.
  repeat (case_scrutinee; simplify_eq/=); auto with lia.
Qed.

Lemma fetch_sector_performance_spec :
  fetch_spec w sector_key (fetch_sector_performance w).
Proof.
  intros s. eexists.
  unfold fetch_sector_performance, bind, requests_get, lift, ret, datetime_now, cache_store.
  repeat (case_scrutinee; simplify_eq/=); auto with lia.
Qed.

Lemma fetch_performance_metrics_spec symbol :
  fetch_spec w (metrics_key symbol)
    (fetch_performance_metrics w float_of_string strptime symbol).
Proof.
  intros s. eexists.
  unfold fetch_performance_metrics, bind, requests_get, lift, ret, datetime_now, cache_store.
  generalize periods; intros todo.
  repeat (case_scrutinee; simplify_eq/=); auto with lia;
    match goal with
    | H : period_loop _ _ _ ?ts ?ds ?c ?todo ?perf ?st = _ |- _ =>
        pose proof (quiet_period_loop ts ds c todo perf st) as Hq;
        rewrite H in Hq; cbn in Hq; destruct Hq as (? & ? & ? & ?)
    end;
    repeat split; try congruence; try lia.
Qed.

Lemma fetch_of_spec o : fetch_spec w (key_of o) (fetch o).
Proof.
  destruct o; cbn.
  - apply fetch_stock_price_spec.
  - apply fetch_performance_metrics_spec.
  - apply fetch_etf_overview_spec.
  - apply fetch_sector_performance_spec.
Qed.

(** The three ways an operation can go: no credential; a fresh entry,
    returned after one reading of the clock; otherwise one request, which
    stores its result when it has one. *)
Lemma operation_inv key ttl body s r s' :
  fetch_spec w key body ->
  operation w str_exn key ttl body s = (r, s') ->
  (no_api_key s = true /\ r = Error "API key not set" /\ s' = s)
  \/ (no_api_key s = false /\
      exists e, cache s !! key = Some e /\
        clock w (clock_reads s) - timestamp e < ttl /\ r = data e /\
        api_key s' = api_key s /\ cache s' = cache s /\
        requests s' = requests s /\ clock_reads s' = S (clock_reads s))
  \/ (no_api_key s = false /\
      (forall e, cache s !! key = Some e ->
                 ttl <= clock w (clock_reads s) - timestamp e) /\
      exists p, api_key s' = api_key s /\
        requests s' = (requests s ++ [p]) /\
        (clock_reads s <= clock_reads s')%nat /\
        ((is_error r = true /\ cache s' = cache s)
         \/ (is_error r = false /\ (clock_reads s < clock_reads s')%nat /\
             cache s' = <[key := Entry (clock w (pred (clock_reads s'))) r]> (cache s) /\
             tag_ok key r = true))).
Proof.
  intros Hspec Hop. unfold operation, cached, try_except in Hop.
  destruct (no_api_key s) eqn:Hkey; [left; by simplify_eq|].
  right.
  destruct (cache s !! key) as [e|] eqn:Hlook.
  - destruct (Z.ltb_spec (clock w (clock_reads s) - timestamp e) ttl) as [Hfresh|Hstale].
    + simplify_eq. left. split; [done|]. by exists e.
    + right. split; [done|]. split; [by intros e' [= <-]|].
      match type of Hop with context [body ?st] => specialize (Hspec st) end.
      destruct Hspec as [p Hp]. exists p. revert Hp Hop.
      destruct (body _) as [[ex|[msg|d]] s2]; cbn; intros Hp [= <- <-];
        destruct Hp as (? & ? & ? & Hp); (split; [done|]); (split; [done|]);
        (split; [lia|]); [by left|by left|].
      right. destruct Hp as [-> ?]. auto with lia.
  - right. split; [done|]. split; [done|].
    specialize (Hspec s). destruct Hspec as [p Hp]. exists p. revert Hp Hop.
    destruct (body s) as [[ex|[msg|d]] s2]; cbn; intros Hp [= <- <-];
      destruct Hp as (? & ? & ? & Hp); (split; [done|]); (split; [done|]);
      (split; [lia|]); [by left|by left|].
    right. destruct Hp as [-> ?]. auto with lia.
Qed.

Lemma cache_wf_new key : cache_wf (new_client key).
Proof. intros k e. cbn. by rewrite lookup_empty. Qed.

(** An operation keeps the cache well formed. *)
Lemma operation_cache_wf key ttl body s r s' :
  fetch_spec w key body ->
  operation w str_exn key ttl body s = (r, s') ->
  cache_wf s -> cache_wf s'.
Proof.
  intros Hspec Hop Hwf.
  destruct (operation_inv _ _ _ _ _ _ Hspec Hop)
    as [(_ & _ & ->)|[(_ & e & _ & _ & _ & _ & Hc & _)
       |(_ & _ & p & _ & _ & _ & [[_ Hc]|(_ & _ & Hc & Htag)])]]; [done|..].
  - intros k e'. rewrite Hc. apply Hwf.
  - intros k e'. rewrite Hc. apply Hwf.
  - intros k e'. rewrite Hc, lookup_insert. case_decide as Hk.
    + intros [= <-]. by subst k.
    + apply Hwf.
Qed.

Lemma no_api_key_eq s s' : api_key s' = api_key s -> no_api_key s' = no_api_key s.
Proof. unfold no_api_key. by intros ->. Qed.

Lemma tag_ok_not_error key r : tag_ok key r = true -> is_error r = false.
Proof. by destruct r. Qed.

Lemma tag_ok_price symbol r :
  tag_ok (price_key symbol) r = true -> exists q, r = Data (OfQuote q).
Proof. destruct r as [msg|[q|m|o|t]]; cbn; try done. by exists q. Qed.


(** C10.  An operation that returns an error value leaves the whole cache
    as it was; the cache only ever holds results, under the key of the
    operation that produced them, so that a reply obtained without a
    request is never an error; and after an error that came from the
    provider the next call of the same operation, at a clock that has not
    gone back, sends a request again. *)
Theorem errors_are_not_cached o s r s' :
  run o s = (r, s') ->
  (is_error r = true -> cache s' = cache s)
  /\ (cache_wf s -> cache_wf s')
  /\ (cache_wf s -> no_api_key s = false -> requests s' = requests s ->
      is_error r = false)
  /\ (cache_wf s -> no_api_key s = false -> monotone w -> is_error r = true ->
      forall r2 s2, run o s' = (r2, s2) ->
        exists p, requests s2 = (requests s' ++ [p])).
Proof.
  rewrite perform_operation. intros Hop.
  pose proof (fetch_of_spec o) as Hspec.
  split; [|split; [|split]].
  - intros Herr.
    destruct (operation_inv _ _ _ _ _ _ Hspec Hop)
      as [(_ & _ & ->)|[(_ & e & _ & _ & _ & _ & Hc & _)
         |(_ & _ & p & _ & _ & _ & [[_ Hc]|(Hok & _)])]]; [done..|congruence].
  - by eapply operation_cache_wf.
  - intros Hwf Hkey Hreq.
    destruct (operation_inv _ _ _ _ _ _ Hspec Hop)
      as [(? & _)|[(_ & e & Hlook & _ & -> & _)|(_ & _ & p & _ & Hp & _)]].
    + congruence.
    + eapply tag_ok_not_error, Hwf, Hlook.
    + rewrite Hreq in Hp. apply (f_equal length) in Hp.
      rewrite length_app in Hp. cbn in Hp. lia.
  - intros Hwf Hkey Hmono Herr r2 s2 Hop2.
    destruct (operation_inv _ _ _ _ _ _ Hspec Hop)
      as [(? & _)|[(_ & e & Hlook & _ & -> & _)
         |(_ & Hstale & p & Hk & _ & Hreads & [[_ Hc]|(Hok & _)])]];
      [congruence| |clear Hop|congruence].
    { apply Hwf, tag_ok_not_error in Hlook. congruence. }
    destruct (operation_inv _ _ _ _ _ _ Hspec Hop2)
      as [(Hk2 & _)|[(_ & e & Hlook & Hfresh & _)|(_ & _ & p2 & _ & Hp2 & _)]].
    + rewrite (no_api_key_eq _ _ Hk) in Hk2. congruence.
    + rewrite Hc in Hlook. specialize (Hstale e Hlook).
      specialize (Hmono _ _ Hreads). lia.
    + by exists p2.
Qed.

(** C6.  When a call of [get_stock_price] has obtained its quote from the
    provider, a second call that reads the clock less than one hour after
    the first reading of the first call sends no request: it returns the
    same quote, from the entry the first call wrote.  The two calls have
    sent one request together. *)
Theorem second_quote_from_cache symbol s r s1 :
  monotone w ->
  stock_price symbol s = (r, s1) ->
  is_error r = false ->
  requests s1 <> requests s ->
  clock w (clock_reads s1) < clock w (clock_reads s) + hours 1 ->
  exists s2,
    stock_price symbol s1 = (r, s2)
    /\ requests s2 = requests s1
    /\ (exists p, requests s2 = (requests s ++ [p]))
    /\ (exists q, r = Data (OfQuote q))
    /\ (exists t, cache s1 !! price_key symbol = Some (Entry t r)).
Proof.
  intros Hmono Hop Hok Hsent Hnear.
  pose proof (fetch_of_spec (GetStockPrice symbol)) as Hspec. cbn in Hspec.
  destruct (operation_inv _ _ _ _ _ _ Hspec Hop)
    as [(_ & _ & ->)|[(_ & e & _ & _ & _ & _ & _ & Hreq & _)
       |(Hkey & _ & p & Hk & Hp & Hreads & [[Herr _]|(_ & Hlt & Hc & Htag)])]];
    [done|congruence|congruence|].
  set (t := clock w (pred (clock_reads s1))) in *.
  assert (Hlook : cache s1 !! price_key symbol = Some (Entry t r))
    by (rewrite Hc; apply lookup_insert_eq).
  assert (Ht : clock w (clock_reads s) <= t)
    by (apply Hmono; lia).
  eexists. split; [|split; [|split; [|split]]].
  - unfold get_stock_price, operation, cached.
    rewrite (no_api_key_eq _ _ Hk), Hkey, Hlook. cbn [timestamp data].
    destruct (Z.ltb_spec (clock w (clock_reads s1) - t) (hours 1)); [reflexivity|lia].
  - reflexivity.
  - by exists p.
  - exact (tag_ok_price symbol r Htag).
  - by exists t.
Qed.

(** *** Rounding *)

(** [round] is a function of the number, not of the fraction that
    represents it. *)
Lemma round_Qeq (q1 q2 : Q) : (q1 == q2)%Q -> Py.round q1 = Py.round q2.
Proof.
  destruct q1 as [n1 d1], q2 as [n2 d2]. unfold Qeq, Py.round. cbn [Qnum Qden].
  intros Heq.
  pose proof (Z.div_mod n1 (Z.pos d1) ltac:(lia)) as E1.
  pose proof (Z.div_mod n2 (Z.pos d2) ltac:(lia)) as E2.
  pose proof (Z.mod_pos_bound n1 (Z.pos d1) ltac:(lia)) as B1.
  pose proof (Z.mod_pos_bound n2 (Z.pos d2) ltac:(lia)) as B2.
  set (f1 := n1 / Z.pos d1) in *. set (r1 := n1 mod Z.pos d1) in *.
  set (f2 := n2 / Z.pos d2) in *. set (r2 := n2 mod Z.pos d2) in *.
  clearbody f1 f2 r1 r2.
  assert (Hd : 0 < Z.pos d1 * Z.pos d2) by lia.
  set (D1 := Z.pos d1) in *. set (D2 := Z.pos d2) in *. clearbody D1 D2.
  assert (Hk : D1 * D2 * (f1 - f2) = r2 * D1 - r1 * D2) by (subst n1 n2; lia).
  assert (Hb1 : r2 * D1 < D1 * D2) by nia.
  assert (Hb2 : r1 * D2 < D1 * D2) by nia.
  assert (Hb3 : 0 <= r2 * D1) by nia.
  assert (Hb4 : 0 <= r1 * D2) by nia.
  assert (Hf : f1 = f2).
  { destruct (Z.lt_trichotomy f1 f2) as [Hlt|[Heq'|Hgt]]; [|done|].
    - assert (D1 * D2 * (f1 - f2) <= - (D1 * D2)) by nia. lia.
    - assert (D1 * D2 <= D1 * D2 * (f1 - f2)) by nia. lia. }
  assert (Hr : r1 * D2 = r2 * D1) by (subst f2; lia).
  rewrite <- Hf.
  destruct (Z.compare_spec (2 * r1) D1) as [H1|H1|H1],
           (Z.compare_spec (2 * r2) D2) as [H2|H2|H2];
    try reflexivity; nia.
Qed.

Lemma round_inject_Z (z : Z) : Py.round (inject_Z z) = z.
Proof.
  unfold Py.round, inject_Z. cbn [Qnum Qden].
  rewrite Z.div_1_r, Z.mod_1_r. reflexivity.
Qed.

(** *** [round] on the rationals *)

Lemma round_near (q : Q) :
  (2 * inject_Z (Py.round q) - 1 <= 2 * q)%Q /\ (2 * q <= 2 * inject_Z (Py.round q) + 1)%Q.
Proof.
  destruct q as [n d]. unfold Py.round, Qle, Qplus, Qminus, Qmult, Qopp, inject_Z.
  cbn [Qnum Qden].
  pose proof (Z.div_mod n (Z.pos d) ltac:(lia)) as E.
  pose proof (Z.mod_pos_bound n (Z.pos d) ltac:(lia)) as B.
  set (f := n / Z.pos d) in *. set (r := n mod Z.pos d) in *. clearbody f r.
  destruct (Z.compare_spec (2 * r) (Z.pos d)); [destruct (Z.even f)|..];
    split; cbn; nia.
Qed.

Lemma round_mono (q1 q2 : Q) : (q1 <= q2)%Q -> Py.round q1 <= Py.round q2.
Proof.
  intros Hle.
  destruct (Z.le_gt_cases (Py.round q1) (Py.round q2)) as [|Hgt]; [done|exfalso].
  destruct (round_near q1) as [Hlo1 _]. destruct (round_near q2) as [_ Hhi2].
  assert (HR : (inject_Z (Py.round q2) + 1 <= inject_Z (Py.round q1))%Q).
  { unfold Qle, Qplus, inject_Z. cbn. lia. }
  assert (Heq : (q1 == q2)%Q) by lra.
  apply round_Qeq in Heq. lia.
Qed.

Lemma round_ge (q : Q) (k : Z) : (inject_Z k <= q)%Q -> k <= Py.round q.
Proof.
  intros Hle. rewrite <- (round_inject_Z k). by apply round_mono.
Qed.

Lemma round_le_int (q : Q) (k : Z) : (q <= inject_Z k)%Q -> Py.round q <= k.
Proof.
  intros Hle. rewrite <- (round_inject_Z k). by apply round_mono.
Qed.

(** *** Powers of two *)

Lemma two_pos_power (k : Z) : (0 < 2 ^ k)%Q.
Proof. by apply Qpower_0_lt. Qed.

Lemma two_power_succ (k : Z) : (2 ^ (k + 1) == 2 * 2 ^ k)%Q.
Proof. rewrite Qpower_plus by done. rewrite Qmult_comm. reflexivity. Qed.

Lemma two_power_pos_Z (k : Z) : 0 <= k -> (2 ^ k == inject_Z (2 ^ k))%Q.
Proof. intros Hk. by rewrite (Zpower_Qpower 2 k Hk). Qed.

(** The powers of two around a positive integer. *)
Lemma log2_bounds (n : Z) :
  0 < n -> (2 ^ Z.log2 n <= inject_Z n)%Q /\ (inject_Z n < 2 ^ (Z.log2 n + 1))%Q.
Proof.
  intros Hn. destruct (Z.log2_spec n Hn) as [Hlo Hhi].
  pose proof (Z.log2_nonneg n) as Hl.
  rewrite (two_power_pos_Z (Z.log2 n)) by lia.
  rewrite (two_power_pos_Z (Z.log2 n + 1)) by lia.
  rewrite <- Zle_Qle, <- Zlt_Qlt. replace (Z.log2 n + 1) with (Z.succ (Z.log2 n)) by lia.
  done.
Qed.

Lemma Qmake_div (n : Z) (d : positive) : (n # d == inject_Z n / inject_Z (Z.pos d))%Q.
Proof. rewrite Qmake_Qdiv. reflexivity. Qed.

Lemma magnitude_spec (q : Q) :
  (0 < q)%Q ->
  (2 ^ Float.magnitude q <= q)%Q /\ (q < 2 ^ (Float.magnitude q + 1))%Q.
Proof.
  intros Hq. unfold Float.magnitude.
  destruct q as [n d]. cbn [Qnum Qden].
  assert (Hn : 0 < n) by (unfold Qlt in Hq; cbn in Hq; lia).
  destruct (log2_bounds n Hn) as [Hnlo Hnhi].
  destruct (log2_bounds (Z.pos d) ltac:(lia)) as [Hdlo Hdhi].
  set (a := Z.log2 n) in *. set (b := Z.log2 (Z.pos d)) in *. clearbody a b.
  assert (Hd : (0 < inject_Z (Z.pos d))%Q) by (unfold Qlt; cbn; lia).
  assert (Hq' : (n # d == inject_Z n / inject_Z (Z.pos d))%Q) by apply Qmake_div.
  destruct (Qle_bool (2 ^ (a - b)) (n # d)) eqn:Hle.
  - apply Qle_bool_iff in Hle. split; [done|].
    rewrite Hq'. apply Qlt_shift_div_r; [done|].
    eapply Qlt_le_trans; [exact Hnhi|].
    replace (a + 1) with ((a - b + 1) + b) by lia.
    rewrite Qpower_plus by done.
    apply Qmult_le_l; [apply two_pos_power|done].
  - assert (Hlt : (n # d < 2 ^ (a - b))%Q).
    { apply Qnot_le_lt. intros Hc. apply Qle_bool_iff in Hc. congruence. }
    replace (a - b - 1 + 1) with (a - b) by lia. split; [|done].
    rewrite Hq'. apply Qle_shift_div_l; [done|].
    eapply Qle_trans; [|exact Hnlo].
    replace a with ((a - b - 1) + (b + 1)) at 2 by lia.
    rewrite Qpower_plus by done.
    apply Qmult_le_l; [apply two_pos_power|]. by apply Qlt_le_weak.
Qed.

Lemma magnitude_mono (q1 q2 : Q) :
  (0 < q1)%Q -> (q1 <= q2)%Q -> Float.magnitude q1 <= Float.magnitude q2.
Proof.
  intros H1 Hle.
  assert (H2 : (0 < q2)%Q) by (eapply Qlt_le_trans; eauto).
  destruct (magnitude_spec q1 H1) as [Hlo _].
  destruct (magnitude_spec q2 H2) as [_ Hhi].
  assert (Hlt : (2 ^ Float.magnitude q1 < 2 ^ (Float.magnitude q2 + 1))%Q).
  { eapply Qle_lt_trans; [exact Hlo|]. eapply Qle_lt_trans; [exact Hle|exact Hhi]. }
  apply Qpower_lt_compat_l_inv in Hlt; [lia|done].
Qed.

(** *** Rounding to the nearest floating-point number *)

Lemma ulp_exponent_mono (q1 q2 : Q) :
  (0 < q1)%Q -> (q1 <= q2)%Q -> Float.ulp_exponent q1 <= Float.ulp_exponent q2.
Proof.
  intros H1 Hle. unfold Float.ulp_exponent.
  pose proof (magnitude_mono q1 q2 H1 Hle). lia.
Qed.

Lemma round_pos_nonneg (q : Q) : (0 < q)%Q -> (0 <= Float.round_pos q)%Q.
Proof.
  intros Hq. unfold Float.round_pos.
  apply Qmult_le_0_compat; [|apply Qlt_le_weak, two_pos_power].
  change 0%Q with (inject_Z 0). rewrite <- Zle_Qle. apply round_ge.
  apply Qle_shift_div_l; [apply two_pos_power|].
  change (inject_Z 0) with 0%Q. rewrite Qmult_0_l. lra.
Qed.

Lemma round_pos_mono (q1 q2 : Q) :
  (0 < q1)%Q -> (q1 <= q2)%Q -> (Float.round_pos q1 <= Float.round_pos q2)%Q.
Proof.
  intros H1 Hle.
  assert (H2 : (0 < q2)%Q) by lra.
  pose proof (ulp_exponent_mono q1 q2 H1 Hle) as He.
  unfold Float.round_pos.
  set (e1 := Float.ulp_exponent q1) in *. set (e2 := Float.ulp_exponent q2) in *.
  pose proof (two_pos_power e1) as Hp1. pose proof (two_pos_power e2) as Hp2.
  destruct (Z.eq_dec e1 e2) as [Heq|Hne].
  - rewrite <- Heq. apply Qmult_le_compat_r; [|lra].
    rewrite <- Zle_Qle. apply round_mono.
    apply Qmult_le_compat_r; [done|]. apply Qlt_le_weak, Qinv_lt_0_compat, Hp1.
  - assert (Hlt : e1 < e2) by lia.
    assert (Hm1 : Py.round (q1 / 2 ^ e1) <= 2 ^ 53).
    { apply round_le_int. apply Qle_shift_div_r; [done|].
      destruct (magnitude_spec q1 H1) as [_ Hhi].
      apply Qlt_le_weak. eapply Qlt_le_trans; [exact Hhi|].
      rewrite <- (two_power_pos_Z 53) by lia. rewrite <- Qpower_plus by done.
      apply Qpower_le_compat_l; [|done].
      subst e1. unfold Float.ulp_exponent. lia. }
    assert (Hm2 : 2 ^ 52 <= Py.round (q2 / 2 ^ e2)).
    { apply round_ge. apply Qle_shift_div_l; [done|].
      destruct (magnitude_spec q2 H2) as [Hlo _].
      eapply Qle_trans; [|exact Hlo].
      rewrite <- (two_power_pos_Z 52) by lia. rewrite <- Qpower_plus by done.
      apply Qpower_le_compat_l; [|done].
      subst e1 e2. unfold Float.ulp_exponent in *. lia. }
    rewrite Zle_Qle in Hm1, Hm2.
    set (m1 := inject_Z (Py.round (q1 / 2 ^ e1))) in *.
    set (m2 := inject_Z (Py.round (q2 / 2 ^ e2))) in *. clearbody m1 m2.
    apply Qle_trans with (inject_Z (2 ^ 53) * 2 ^ e1)%Q.
    { apply Qmult_le_compat_r; [done|lra]. }
    apply Qle_trans with (inject_Z (2 ^ 52) * 2 ^ e2)%Q.
    2: { apply Qmult_le_compat_r; [done|lra]. }
    rewrite <- (two_power_pos_Z 53), <- (two_power_pos_Z 52) by lia.
    rewrite <- !Qpower_plus by done.
    apply Qpower_le_compat_l; [lia|done].
Qed.

Lemma rnd_mono (q1 q2 : Q) : (q1 <= q2)%Q -> (Float.rnd q1 <= Float.rnd q2)%Q.
Proof.
  intros Hle. unfold Float.rnd.
  assert (Hsign : forall q : Q,
             match Qnum q ?= 0 with
             | Eq => (q == 0)%Q | Lt => (q < 0)%Q | Gt => (0 < q)%Q
             end).
  { intros [n d]. cbn [Qnum]. destruct (Z.compare_spec n 0) as [->|H|H].
    - reflexivity.
    - unfold Qlt. cbn. lia.
    - unfold Qlt. cbn. lia. }
  pose proof (Hsign q1) as S1. pose proof (Hsign q2) as S2.
  destruct (Qnum q1 ?= 0), (Qnum q2 ?= 0); try lra.
  - apply round_pos_nonneg, S2.
  - assert (0 <= Float.round_pos (- q1))%Q by (apply round_pos_nonneg; lra). lra.
  - assert (Float.round_pos (- q2) <= Float.round_pos (- q1))%Q
      by (apply round_pos_mono; lra).
    lra.
  - assert (0 <= Float.round_pos (- q1))%Q by (apply round_pos_nonneg; lra).
    assert (0 <= Float.round_pos q2)%Q by (apply round_pos_nonneg; lra). lra.
  - by apply round_pos_mono.
Qed.

Lemma rnd_nonneg (q : Q) : (0 <= q)%Q -> (0 <= Float.rnd q)%Q.
Proof. intros Hq. change 0%Q with (Float.rnd 0) at 1. by apply rnd_mono. Qed.

(** The floats of two decimals are in the order of their hundredths. *)
Lemma of_hundredths_mono (a b : Z) :
  a <= b -> (Float.of_hundredths a <= Float.of_hundredths b)%Q.
Proof. intros Hle. apply rnd_mono. unfold Qle. cbn. lia. Qed.

(** The error of a rounding: half a unit in the last place. *)
Lemma round_pos_error (q : Q) (k : Z) :
  -1021 <= k -> (0 < q)%Q -> (q < 2 ^ k)%Q ->
  (q - 2 ^ (k - 54) <= Float.round_pos q)%Q /\ (Float.round_pos q <= q + 2 ^ (k - 54))%Q.
Proof.
  intros Hk Hq Hlt. unfold Float.round_pos.
  destruct (magnitude_spec q Hq) as [Hlo _].
  assert (Hmag : Float.magnitude q < k).
  { assert (H : (2 ^ Float.magnitude q < 2 ^ k)%Q) by lra.
    by apply Qpower_lt_compat_l_inv in H. }
  assert (He : Float.ulp_exponent q <= k - 53) by (unfold Float.ulp_exponent; lia).
  set (e := Float.ulp_exponent q) in *. clearbody e.
  pose proof (two_pos_power e) as Hp.
  destruct (round_near (q / 2 ^ e)) as [Hn1 Hn2].
  set (m := inject_Z (Py.round (q / 2 ^ e))) in *. clearbody m.
  assert (Hhalf : (2 ^ e <= 2 * 2 ^ (k - 54))%Q).
  { rewrite <- two_power_succ. apply Qpower_le_compat_l; [lia|done]. }
  assert (Hq' : (q / 2 ^ e * 2 ^ e == q)%Q) by (field; lra).
  set (x := (q / 2 ^ e)%Q) in *. clearbody x.
  set (u := (2 ^ e)%Q) in *. set (h := (2 ^ (k - 54))%Q) in *. clearbody u h.
  assert (H1 : ((2 * m - 1) * u <= 2 * x * u)%Q) by (apply Qmult_le_compat_r; lra).
  assert (H2 : (2 * x * u <= (2 * m + 1) * u)%Q) by (apply Qmult_le_compat_r; lra).
  assert (E1 : ((2 * m - 1) * u == 2 * (m * u) - u)%Q) by ring.
  assert (E2 : ((2 * m + 1) * u == 2 * (m * u) + u)%Q) by ring.
  assert (E3 : (2 * x * u == 2 * q)%Q) by (rewrite <- Hq'; ring).
  rewrite E1, E3 in H1. rewrite E2, E3 in H2. clear E1 E2 E3 Hq' Hn1 Hn2.
  set (r := (m * u)%Q) in *. clearbody r. split; lra.
Qed.

Lemma rnd_error (q : Q) (k : Z) :
  -1021 <= k -> (- 2 ^ k < q)%Q -> (q < 2 ^ k)%Q ->
  (q - 2 ^ (k - 54) <= Float.rnd q)%Q /\ (Float.rnd q <= q + 2 ^ (k - 54))%Q.
Proof.
  intros Hk Hlo Hhi. unfold Float.rnd.
  pose proof (two_pos_power (k - 54)) as Hp.
  destruct q as [n d]. cbn [Qnum].
  destruct (Z.compare_spec n 0) as [->|Hn|Hn].
  - assert ((0 # d) == 0)%Q by reflexivity. lra.
  - assert (Hneg : (0 < - (n # d))%Q) by (unfold Qlt; cbn; lia).
    destruct (round_pos_error (- (n # d)) k Hk Hneg ltac:(lra)). lra.
  - assert (Hpos : (0 < n # d)%Q) by (unfold Qlt; cbn; lia).
    by apply round_pos_error.
Qed.

Lemma round_unique (q : Q) (k : Z) :
  (2 * inject_Z k - 1 < 2 * q)%Q -> (2 * q < 2 * inject_Z k + 1)%Q -> Py.round q = k.
Proof.
  intros Hlo Hhi. destruct (round_near q) as [H1 H2].
  assert (Ha : (inject_Z (Py.round q) < inject_Z k + 1)%Q) by lra.
  assert (Hb : (inject_Z k < inject_Z (Py.round q) + 1)%Q) by lra.
  unfold Qlt, Qplus, inject_Z in Ha, Hb. cbn in Ha, Hb. lia.
Qed.

(** The difference of two floats with two decimals, rounded to two
    decimals, is the difference of the decimals, for magnitudes below
    2^40 hundredths. *)
Lemma round2_sub_of_hundredths (a b : Z) :
  - 2 ^ 40 <= a <= 2 ^ 40 -> - 2 ^ 40 <= b <= 2 ^ 40 ->
  Py.round2 (Float.sub (Float.of_hundredths a) (Float.of_hundredths b)) = a - b.
Proof.
  intros Ha Hb. unfold Py.round2, Float.sub, Float.of_hundredths.
  assert (Hbound : forall v, - 2 ^ 40 <= v <= 2 ^ 40 ->
                     (- 2 ^ 34 < v # 100)%Q /\ (v # 100 < 2 ^ 34)%Q).
  { intros v Hv. unfold Qlt. cbn. lia. }
  destruct (Hbound a Ha) as [Ha1 Ha2]. destruct (Hbound b Hb) as [Hb1 Hb2].
  destruct (rnd_error (a # 100) 34 ltac:(lia) Ha1 Ha2) as [Ea1 Ea2].
  destruct (rnd_error (b # 100) 34 ltac:(lia) Hb1 Hb2) as [Eb1 Eb2].
  set (x := Float.rnd (a # 100)) in *. set (y := Float.rnd (b # 100)) in *.
  clearbody x y.
  assert (P20 : (2 ^ (34 - 54) == 1 # 1048576)%Q) by reflexivity.
  assert (P34 : (2 ^ 34 == 17179869184)%Q) by reflexivity.
  assert (P36 : (2 ^ 36 == 68719476736)%Q) by reflexivity.
  assert (P18 : (2 ^ (36 - 54) == 1 # 262144)%Q) by reflexivity.
  rewrite P20 in Ea1, Ea2, Eb1, Eb2. rewrite P34 in Ha1, Ha2, Hb1, Hb2.
  destruct (rnd_error (x - y) 36 ltac:(lia)) as [Ed1 Ed2]; [rewrite P36; lra..|].
  rewrite P18 in Ed1, Ed2.
  set (d := Float.rnd (x - y)) in *. clearbody d.
  assert (Hq : forall v : Z, (inject_Z v == 100 * (v # 100))%Q).
  { intros v. unfold Qeq, Qmult, inject_Z. cbn. lia. }
  assert (Hm : (inject_Z (a - b) == inject_Z a - inject_Z b)%Q)
    by (unfold Qeq, Qminus, Qplus, Qopp, inject_Z; cbn; lia).
  pose proof (Hq a) as Hqa. pose proof (Hq b) as Hqb.
  set (qa := (a # 100)%Q) in *. set (qb := (b # 100)%Q) in *. clearbody qa qb.
  apply round_unique; rewrite Hm, Hqa, Hqb; lra.
Qed.

Lemma score_of_range (v : Q) : 1 <= score_of v <= 10.
Proof. unfold score_of. lia. Qed.

(** *** Greatest and least element *)

Lemma list_max_spec (x : Z) (l : list Z) :
  list_max x l ∈ x :: l /\ forall v, v ∈ x :: l -> v <= list_max x l.
Proof.
  unfold list_max. revert x. induction l as [|y l IH]; intros x; cbn.
  - split; [left|]. intros v Hv. apply list_elem_of_singleton in Hv. lia.
  - destruct (IH (Z.max x y)) as [Hin Hle].
    assert (Hm : Z.max x y <= fold_left Z.max l (Z.max x y)) by (apply Hle; left).
    split.
    + apply elem_of_cons in Hin as [Hin|Hin]; [|by do 2 right].
      rewrite Hin. destruct (Z.max_spec x y) as [[_ ->]|[_ ->]]; [right|]; left.
    + intros v Hv. apply elem_of_cons in Hv as [->|Hv]; [lia|].
      apply elem_of_cons in Hv as [->|Hv]; [lia|]. apply Hle. by right.
Qed.

Lemma list_min_spec (x : Z) (l : list Z) :
  list_min x l ∈ x :: l /\ forall v, v ∈ x :: l -> list_min x l <= v.
Proof.
  unfold list_min. revert x. induction l as [|y l IH]; intros x; cbn.
  - split; [left|]. intros v Hv. apply list_elem_of_singleton in Hv. lia.
  - destruct (IH (Z.min x y)) as [Hin Hle].
    assert (Hm : fold_left Z.min l (Z.min x y) <= Z.min x y) by (apply Hle; left).
    split.
    + apply elem_of_cons in Hin as [Hin|Hin]; [|by do 2 right].
      rewrite Hin. destruct (Z.min_spec x y) as [[_ ->]|[_ ->]]; [|right]; left.
    + intros v Hv. apply elem_of_cons in Hv as [->|Hv]; [lia|].
      apply elem_of_cons in Hv as [->|Hv]; [lia|]. apply Hle. by right.
Qed.

(** The changes of a table are the values of its entries with a value. *)
Lemma elem_of_changes (perf : list (string * period_result)) (v : Z) :
  v ∈ changes perf <-> exists k d, (k, Change v d) ∈ perf.
Proof.
  induction perf as [|[k [v' d|msg]] perf IH]; cbn.
  - split; [by intros ?%elem_of_nil|by intros (? & ? & ?%elem_of_nil)].
  - rewrite elem_of_cons, IH. split.
    + intros [->|(k' & d' & H)]; [exists k, d; left|exists k', d'; by right].
    + intros (k' & d' & H). apply elem_of_cons in H as [H|H]; [left; congruence|].
      right. by exists k', d'.
  - rewrite IH. split.
    + intros (k' & d' & H). exists k', d'. by right.
    + intros (k' & d' & H). apply elem_of_cons in H as [H|H]; [congruence|].
      by exists k', d'.
Qed.

(** *** [analyze_etf_for_investment] *)

Lemma analyze_ok symbol risk_tolerance s m q s1 s2 x rest :
  performance_metrics symbol s = (Data (OfMetrics m), s1) ->
  stock_price symbol s1 = (Data (OfQuote q), s2) ->
  changes (performance m) = x :: rest ->
  analyze symbol risk_tolerance s
  = (inr (Analysed (analysis_of symbol risk_tolerance m q x rest)), s2).
Proof.
  intros Hm Hq Hc. unfold analyze_etf_for_investment, bind, call, lift, ret.
  rewrite Hm, Hq. cbn. rewrite Hc. reflexivity.
Qed.

Lemma analyze_insufficient symbol risk_tolerance s m r s1 s2 :
  performance_metrics symbol s = (Data (OfMetrics m), s1) ->
  stock_price symbol s1 = (r, s2) ->
  is_error r = false ->
  changes (performance m) = [] ->
  analyze symbol risk_tolerance s
  = (inr (Failed symbol (Some "Insufficient performance data")), s2).
Proof.
  intros Hm Hq Hr Hc. unfold analyze_etf_for_investment, bind, call, lift, ret.
  rewrite Hm, Hq. cbn. rewrite Hr. cbn. rewrite Hc. reflexivity.
Qed.

Lemma analyze_inv symbol risk_tolerance s a s' :
  analyze symbol risk_tolerance s = (inr (Analysed a), s') ->
  exists m q s1 x rest,
    performance_metrics symbol s = (Data (OfMetrics m), s1) /\
    stock_price symbol s1 = (Data (OfQuote q), s') /\
    changes (performance m) = x :: rest /\
    a = analysis_of symbol risk_tolerance m q x rest.
Proof.
  unfold analyze_etf_for_investment, bind, call, lift, ret.
  destruct (performance_metrics symbol s) as [r1 s1] eqn:Hm.
  destruct (stock_price symbol s1) as [r2 s2] eqn:Hq.
  destruct r1 as [msg|[q1|m|o|t]]; cbn; try done;
    destruct r2 as [msg2|d2]; cbn; try done.
  destruct (changes (performance m)) as [|x rest] eqn:Hc; [done|].
  destruct d2 as [q|?|?|?]; cbn; try done.
  intros [= <- <-]. by exists m, q, s1, x, rest.
Qed.

Lemma matches_iff risk_tolerance score :
  matches risk_tolerance score = true <->
  (risk_tolerance = "low" /\ score <= 4)
  \/ (risk_tolerance = "medium" /\ 3 < score <= 7)
  \/ (risk_tolerance = "high" /\ 6 < score).
Proof.
  unfold matches.
  destruct (String.eqb_spec risk_tolerance "low"),
           (String.eqb_spec risk_tolerance "medium"),
           (String.eqb_spec risk_tolerance "high"); subst; try discriminate;
    destruct (Z.leb_spec score 4), (Z.ltb_spec 3 score),
             (Z.leb_spec score 7), (Z.ltb_spec 6 score); cbn;
    (split; [intros ?|intros [[? ?]|[[? ?]|[? ?]]]]);
    try done; try lia;
    first [ left; split; [done|lia]
          | right; left; split; [done|lia]
          | right; right; split; [done|lia] ].
Qed.

(** C1, as amended.  In every analysis that [analyze_etf_for_investment]
    returns, [risk_match] holds exactly when the tolerance is "low" and
    the score is at most 4, or the tolerance is "medium" and the score is
    above 3 and at most 7, or the tolerance is "high" and the score is
    above 6. *)
Theorem risk_match_iff symbol risk_tolerance s a s' :
  analyze symbol risk_tolerance s = (inr (Analysed a), s') ->
  (risk_match a = true <->
   (risk_tolerance = "low" /\ risk_score a <= 4)
   \/ (risk_tolerance = "medium" /\ 3 < risk_score a <= 7)
   \/ (risk_tolerance = "high" /\ 6 < risk_score a)).
Proof.
  intros (m & q & s1 & x & rest & _ & _ & _ & ->)%analyze_inv.
  cbn [analysis_of risk_match risk_score]. apply matches_iff.
Qed.

(** C2, as amended.  With changes of 2, -1, 3 and 18 percent over the
    four horizons and a quote, the analysis for "low" has volatility
    18 - (-1) = 19, risk score round(19 / 5) = 4, a risk match, and the
    recommendation "buy". *)
Theorem analyze_four_horizons symbol s m q s1 s2 d1 d2 d3 d4 :
  performance_metrics symbol s = (Data (OfMetrics m), s1) ->
  stock_price symbol s1 = (Data (OfQuote q), s2) ->
  performance m = [("1mo", Change 200 d1); ("3mo", Change (-100) d2);
                   ("6mo", Change 300 d3); ("1yr", Change 1800 d4)] ->
  exists a,
    analyze symbol "low" s = (inr (Analysed a), s2) /\
    volatility a = 1900 /\ risk_score a = 4 /\ risk_match a = true /\
    recommendation a = "buy".
Proof.
  intros Hm Hq Hperf. eexists. split.
  - eapply analyze_ok; [exact Hm|exact Hq|]. rewrite Hperf. reflexivity.
  - unfold analysis_of. rewrite Hperf. by vm_compute.
Qed.

(** C5, as amended.  In every analysis returned, the score and the
    volatility come from the difference, in floating-point arithmetic, of
    the greatest and the least of the changes of the horizons that have
    one: the risk score is [round(difference / 5)] brought into the range
    from 1 to 10, and the volatility is the difference rounded to two
    decimals, which for changes of at most 2^40 hundredths is exactly the
    greatest minus the least; and when both fetches succeed but no horizon
    has a change, the result is the error "Insufficient performance
    data". *)
Theorem volatility_and_risk_score symbol risk_tolerance s :
  (forall a s', analyze symbol risk_tolerance s = (inr (Analysed a), s') ->
     exists hi lo,
       hi ∈ changes (analysis_performance a) /\
       lo ∈ changes (analysis_performance a) /\
       (forall v, v ∈ changes (analysis_performance a) -> lo <= v <= hi) /\
       let difference :=
         Float.sub (Float.of_hundredths hi) (Float.of_hundredths lo) in
       volatility a = Py.round2 difference /\
       risk_score a = Z.min 10 (Z.max 1 (Py.round (Float.div difference 5))) /\
       (- 2 ^ 40 <= lo -> hi <= 2 ^ 40 -> volatility a = hi - lo))
  /\ (forall m r s1 s2,
        performance_metrics symbol s = (Data (OfMetrics m), s1) ->
        stock_price symbol s1 = (r, s2) ->
        is_error r = false ->
        changes (performance m) = [] ->
        analyze symbol risk_tolerance s
        = (inr (Failed symbol (Some "Insufficient performance data")), s2)).
Proof.
  split.
  - intros a s' (m & q & s1 & x & rest & _ & _ & Hc & ->)%analyze_inv.
    cbn [analysis_of analysis_performance volatility risk_score].
    rewrite Hc.
    destruct (list_max_spec x rest) as [Hmax Hle],
             (list_min_spec x rest) as [Hmin Hge].
    exists (list_max x rest), (list_min x rest).
    split; [done|]. split; [done|]. split; [by auto|].
    cbv zeta. split; [done|]. split; [done|].
    intros Hlo Hhi. specialize (Hle _ Hmin).
    apply round2_sub_of_hundredths; lia.
  - intros m r s1 s2. apply analyze_insufficient.
Qed.

(** The score is not a function of the volatility reported.  The changes
    32.2 and 9.7 differ by 22.500000000000004 as floats, which is reported
    as 22.5 and scored 5, while 22.5 and 0 differ by 22.5, scored 4; in the
    same way a volatility reported as 12.5 is scored 3 for the changes 25.1
    and 12.6 and 2 for 12.6 and 0.1, one reported as 17.5 is scored 3 for
    -29.98 and -47.48, and one reported as 37.5 is scored 7 for 64.07 and
    26.57. *)
Lemma score_of_a_tie :
  let figures hi lo :=
    let difference := Float.sub (Float.of_hundredths hi) (Float.of_hundredths lo) in
    (Py.round2 difference, score_of difference) in
  figures 3220 970 = (2250, 5) /\ figures 2250 0 = (2250, 4) /\
  figures 2510 1260 = (1250, 3) /\ figures 1260 10 = (1250, 2) /\
  figures (-2998) (-4748) = (1750, 3) /\ figures 6407 2657 = (3750, 7).
Proof. vm_compute. done. Qed.

(** *** The choice of the reference date *)

Lemma argmin_first_least {A} (key : A -> Z) (xs l1 : list A) (best : A) (l2 : list A) :
  (forall y, y ∈ l1 -> key best < key y) ->
  (forall y, y ∈ l2 -> key best <= key y) ->
  first_least key (l1 ++ best :: l2 ++ xs)
    (argmin best (key best) (map (fun x => (x, key x)) xs)).
Proof.
  revert l1 best l2. induction xs as [|x xs IH]; intros l1 best l2 H1 H2; cbn.
  - exists l1, l2. by rewrite app_nil_r.
  - destruct (Z.ltb_spec (key x) (key best)) as [Hlt|Hge].
    + replace (l1 ++ best :: l2 ++ x :: xs)
        with ((l1 ++ best :: l2) ++ x :: [] ++ xs)
        by (by rewrite <- app_assoc).
      apply IH.
      * intros y Hy. apply elem_of_app in Hy as [Hy|Hy]; [specialize (H1 y Hy); lia|].
        apply elem_of_cons in Hy as [->|Hy]; [lia|specialize (H2 y Hy); lia].
      * by intros y ?%elem_of_nil.
    + replace (l1 ++ best :: l2 ++ x :: xs)
        with (l1 ++ best :: (l2 ++ [x]) ++ xs)
        by (by rewrite <- app_assoc).
      apply IH; [done|].
      intros y Hy. apply elem_of_app in Hy as [Hy|Hy]; [by apply H2|].
      apply list_elem_of_singleton in Hy as ->. lia.
Qed.

Lemma first_least_least {A} (key : A -> Z) (l : list A) (x : A) :
  first_least key l x -> x ∈ l /\ forall y, y ∈ l -> key x <= key y.
Proof.
  intros (l1 & l2 & -> & H1 & H2). split.
  - apply elem_of_app. right. left.
  - intros y Hy. apply elem_of_app in Hy as [Hy|Hy]; [specialize (H1 y Hy); lia|].
    apply elem_of_cons in Hy as [->|Hy]; [lia|by apply H2].
Qed.

Lemma keyed_dates target (dates : list string) :
  (forall x, x ∈ dates -> is_Some (strptime x)) ->
  exc_map (fun x => match day_distance strptime target x with
                    | inl e => inl e
                    | inr k => inr (x, k)
                    end) dates
  = inr (map (fun x => (x, distance strptime target x)) dates).
Proof.
  induction dates as [|x dates IH]; intros Hall; cbn [exc_map map]; [done|].
  rewrite IH by (intros y Hy; apply Hall; by right).
  destruct (Hall x) as [d Hd]; [left|].
  unfold day_distance, distance. by rewrite Hd.
Qed.

Lemma closest_first_least target (dates : list string) :
  dates <> [] ->
  (forall x, x ∈ dates -> is_Some (strptime x)) ->
  exists date,
    closest strptime target dates = inr date /\
    first_least (distance strptime target) dates date.
Proof.
  intros Hne Hall. unfold closest. rewrite (keyed_dates _ _ Hall).
  destruct dates as [|x xs]; [done|]. cbn.
  eexists. split; [reflexivity|].
  apply (argmin_first_least (distance strptime target) xs [] x []);
    by intros y ?%elem_of_nil.
Qed.

(** The dates the loop iterates over are the dates of the series. *)
Lemma elem_of_dates_of (days : list (string * json)) (x : string) :
  x ∈ dates_of days <-> x ∈ map fst days.
Proof.
  unfold dates_of, sorted_reverse.
  rewrite merge_sort_Permutation. apply elem_of_remove_dups.
Qed.

Lemma date_of_sub (t n : Z) : date_of (t - days_delta n) = date_of t - n.
Proof.
  unfold date_of, days_delta.
  replace (t - n * us_per_day) with (t + (- n) * us_per_day) by lia.
  rewrite Z.div_add; [lia|done].
Qed.

(** *** [get_performance_metrics] on a well-formed series *)

Lemma dates_of_nonempty (days : list (string * json)) :
  days <> [] -> exists d0 rest, dates_of days = d0 :: rest.
Proof.
  intros Hne. destruct days as [|[k v] days]; [done|].
  assert (Hk : k ∈ dates_of ((k, v) :: days)) by (apply elem_of_dates_of; left).
  destruct (dates_of ((k, v) :: days)) as [|d0 rest]; [by apply elem_of_nil in Hk|].
  by exists d0, rest.
Qed.

Lemma period_entry_ok (days : list (string * json)) (current : Q) (n : Z) (s : state) :
  days <> [] ->
  well_formed_series float_of_string strptime days ->
  exists r,
    period_entry w float_of_string strptime (JObj days) (dates_of days) current n s
    = (inr r, tick s) /\
    horizon_entry float_of_string strptime days current
      (date_of (clock w (clock_reads s) - days_delta n)) r.
Proof.
  intros Hne Hwf.
  set (target := date_of (clock w (clock_reads s) - days_delta n)).
  destruct (dates_of_nonempty days Hne) as (d0 & rest & Hdates).
  destruct (closest_first_least target (dates_of days)) as (date & Hclosest & Hfirst).
  { by rewrite Hdates. }
  { intros x Hx. apply elem_of_dates_of in Hx. by apply Hwf. }
  destruct (first_least_least _ _ _ Hfirst) as [Hin Hleast].
  apply elem_of_dates_of in Hin.
  destruct (Hwf date Hin) as [[d Hd] (past & Hclose & Hpast)].
  assert (Hdist : day_distance strptime target date = inr (Z.abs (d - target)))
    by (unfold day_distance; by rewrite Hd).
  assert (Hmin : forall y dy, y ∈ map fst days -> strptime y = Some dy ->
                   Z.abs (d - target) <= Z.abs (dy - target)).
  { intros y dy Hy Hdy. apply elem_of_dates_of in Hy.
    specialize (Hleast y Hy). unfold distance in Hleast.
    by rewrite Hd, Hdy in Hleast. }
  unfold period_entry, bind, datetime_now, lift, ret. fold target.
  rewrite Hclosest, Hdist.
  destruct (Z.leb_spec (Z.abs (d - target)) 7) as [Hnear|Hfar].
  - rewrite Hclose. unfold percent_change.
    destruct (Z.eqb_spec (Qnum past) 0) as [|_]; [done|].
    eexists. split; [reflexivity|].
    exists date, d. repeat split; try done.
    + intros _. by exists past.
    + lia.
  - eexists. split; [reflexivity|].
    exists date, d. repeat split; try done. lia.
Qed.

Lemma contains_of_getitem (data x : json) (k : string) :
  Py.getitem data k = inr x -> Py.contains k data = inr true.
Proof.
  destruct data; cbn; try done.
  destruct (dict_get k kvs) eqn:E; [|done]. intros _.
  rewrite bool_decide_eq_true_2; [done|by eexists].
Qed.

(** C4.  When the series is fetched (the credential is set, the cache has
    no fresh metrics, and the provider returns a well-formed daily
    series), the call succeeds and, for each of the four horizons, read at
    its own reading of the clock, the entry is the one [horizon_entry]
    describes for the target date [now - days]. *)
Theorem performance_horizons symbol s s1 data days :
  no_api_key s = false ->
  cached w (metrics_key symbol) (hours 6) s = (None, s1) ->
  provider w (length (requests s1)) (series_request symbol s1) = inr data ->
  Py.getitem data "Time Series (Daily)" = inr (JObj days) ->
  days <> [] ->
  well_formed_series float_of_string strptime days ->
  exists m s',
    performance_metrics symbol s = (Data (OfMetrics m), s') /\
    forall (i : nat) name n, periods !! i = Some (name, n) ->
      exists r,
        dict_get name (performance m) = Some r /\
        horizon_entry float_of_string strptime days (current_price m)
          (date_of (clock w (i + clock_reads s1) - days_delta n)) r.
Proof.
  intros Hkey Hcached Hprov Hseries Hne Hwf.
  destruct (dates_of_nonempty days Hne) as (d0 & rest & Hdates).
  assert (Hd0 : d0 ∈ map fst days)
    by (apply elem_of_dates_of; rewrite Hdates; left).
  destruct (Hwf d0 Hd0) as [_ (current & Hcurrent & _)].
  unfold get_performance_metrics, operation. rewrite Hkey, Hcached.
  unfold try_except, fetch_performance_metrics, bind at 1, requests_get.
  fold (series_request symbol s1). rewrite Hprov.
  unfold bind at 1, lift at 1. rewrite (contains_of_getitem _ _ _ Hseries). cbn [negb].
  unfold bind at 1, lift at 1. rewrite Hseries.
  assert (Py.truthy (JObj days) = true) as -> by (by destruct days).
  cbn [negb]. unfold bind at 1, lift at 1. cbn [Py.keys].
  change (sorted_reverse (remove_dups (map fst days))) with (dates_of days).
  rewrite Hdates. cbv beta iota.
  unfold bind at 1, lift at 1. unfold bind at 1, lift at 1. rewrite Hcurrent.
  rewrite <- Hdates. unfold periods. cbn [period_loop dict_set].
  unfold bind.
  repeat match goal with
  | |- context [period_entry _ _ _ _ _ ?c ?n ?st] =>
      let r := fresh "r" in let E := fresh "E" in let H := fresh "H" in
      destruct (period_entry_ok days c n st Hne Hwf) as (r & E & H);
      rewrite E; clear E; cbv beta iota
  end.
  cbn. eexists _, _. split; [reflexivity|].
  intros i name n Hi. cbn [current_price performance].
  destruct i as [|[|[|[|i]]]]; cbn in Hi; simplify_eq; eexists;
    (split; [reflexivity|]); cbn; assumption.
Qed.

(** *** [evaluate_portfolio_symbols] *)

Local Abbreviation analyses_of :=
  (analyses w str_exn float_of_string int_of_string strptime).





(** The loop is a fold of [record_analysis] over the analyses. *)
Lemma evaluate_loop_analyses symbols risk_tolerance t s rs s' :
  analyses_of symbols risk_tolerance s = (inr rs, s') ->
  evaluate_loop w str_exn float_of_string int_of_string strptime
    symbols risk_tolerance t s
  = (inr (fold_left (fun t sr => record_analysis (fst sr) (snd sr) t)
            (zip symbols rs) t), s').
Proof.
  revert t s rs. induction symbols as [|symbol symbols IH]; intros t s rs; cbn.
  - unfold ret. by intros [= <- <-].
  - unfold bind.
    destruct (analyze symbol risk_tolerance s) as [[e|r] s1]; [done|].
    destruct (analyses_of symbols risk_tolerance s1) as [[e|rs'] s2] eqn:Hrest; [done|].
    unfold ret. intros [= <- <-]. cbn. by apply IH.
Qed.

Lemma fold_record (pairs : list (string * analysis_result)) (t : tally) :
  let t' := fold_left (fun t sr => record_analysis (fst sr) (snd sr) t) pairs t in
  length (valid t') = (length (valid t) + length (analysed (map snd pairs)))%nat /\
  total_volatility t' = total_volatility t + sum_volatility (analysed (map snd pairs)) /\
  matched_risk_count t'
  = matched_risk_count t + count_matched (analysed (map snd pairs)) /\
  results t' = list_to_map (reverse pairs) ∪ results t.
Proof.
  revert t. induction pairs as [|[symbol r] pairs IH]; intros t; cbn.
  - repeat split; try lia. by rewrite (left_id_L ∅ (∪)).
  - destruct (IH (record_analysis symbol r t)) as (Hv & Ht & Hm & Hr).
    rewrite Hv, Ht, Hm, Hr. clear IH Hv Ht Hm Hr.
    assert (Hmap : forall base : gmap string analysis_result,
               list_to_map (reverse pairs) ∪ <[symbol := r]> base
               = list_to_map (reverse ((symbol, r) :: pairs)) ∪ base).
    { intros base. rewrite reverse_cons, list_to_map_app. cbn.
      rewrite <- (assoc_L (∪)). f_equal.
      by rewrite <- insert_union_l, (left_id_L ∅ (∪)). }
    destruct r as [sym err|a]; cbn.
    + repeat split; try lia. apply Hmap.
    + rewrite length_app. cbn. repeat split; try lia; [|apply Hmap].
      destruct (risk_match a); lia.
Qed.

Lemma map_snd_zip (symbols : list string) (rs : list analysis_result) :
  length rs = length symbols -> map snd (zip symbols rs) = rs.
Proof.
  revert rs. induction symbols as [|x symbols IH]; intros [|r rs]; cbn; try done.
  intros [= H]. by rewrite IH.
Qed.



End ClientProperties.

(** ** The theorems at the sample client *)

Lemma sample_clock_monotone : monotone Sample.w.
Proof.
  intros i j Hij. unfold Sample.w, Sample.clock. cbn [clock]. lia.
Qed.

(** C9 at a client created without a credential. *)
Lemma no_credential_short_circuit_witness :
  no_api_key (new_client None) = true /\
  Sample.get_stock_price "VTI" (new_client None)
  = (Error "API key not set", new_client None) /\
  Sample.get_performance_metrics "VTI" (new_client None)
  = (Error "API key not set", new_client None) /\
  get_etf_overview Sample.w Lib.str_exn "VTI" (new_client None)
  = (Error "API key not set", new_client None) /\
  get_sector_performance Sample.w Lib.str_exn (new_client None)
  = (Error "API key not set", new_client None).
Proof.
  split; [reflexivity|].
  apply (no_credential_short_circuit Sample.w Lib.str_exn Lib.float_of_string
           Lib.int_of_string Lib.strptime (new_client None) "VTI").
  reflexivity.
Defined.

(** C10 at a request for a symbol the provider does not know. *)
Lemma errors_are_not_cached_witness :
  Sample.perform (GetStockPrice "NONE") Sample.fresh
  = (Error "No data found for symbol NONE", Sample.after_unknown) /\
  cache Sample.after_unknown = cache Sample.fresh /\
  exists p, requests (snd (Sample.perform (GetStockPrice "NONE") Sample.after_unknown))
            = requests Sample.after_unknown ++ [p].
Proof.
  assert (E : Sample.perform (GetStockPrice "NONE") Sample.fresh
              = (Error "No data found for symbol NONE", Sample.after_unknown))
    by (vm_compute; reflexivity).
  split; [exact E|].
  destruct (errors_are_not_cached Sample.w Lib.str_exn Lib.float_of_string
              Lib.int_of_string Lib.strptime _ _ _ _ E) as (H1 & _ & _ & H4).
  split; [exact (H1 eq_refl)|].
  apply (H4 (cache_wf_new _) eq_refl sample_clock_monotone eq_refl
            (fst (Sample.perform (GetStockPrice "NONE") Sample.after_unknown))).
  apply surjective_pairing.
Defined.

(** C6 at two calls for VTI one after the other. *)
Lemma second_quote_from_cache_witness :
  Sample.get_stock_price "VTI" Sample.fresh
  = (Sample.first_quote, Sample.after_first_quote) /\
  is_error Sample.first_quote = false /\
  requests Sample.after_first_quote <> requests Sample.fresh /\
  clock Sample.w (clock_reads Sample.after_first_quote)
  < clock Sample.w (clock_reads Sample.fresh) + hours 1 /\
  exists s2,
    Sample.get_stock_price "VTI" Sample.after_first_quote = (Sample.first_quote, s2)
    /\ requests s2 = requests Sample.after_first_quote
    /\ (exists p, requests s2 = requests Sample.fresh ++ [p])
    /\ (exists q, Sample.first_quote = Data (OfQuote q))
    /\ (exists t, cache Sample.after_first_quote !! price_key "VTI"
                  = Some (Entry t Sample.first_quote)).
Proof.
  assert (E : Sample.get_stock_price "VTI" Sample.fresh
              = (Sample.first_quote, Sample.after_first_quote))
    by (vm_compute; reflexivity).
  assert (Hreq : requests Sample.after_first_quote <> requests Sample.fresh)
    by (vm_compute; discriminate).
  assert (Hnear : clock Sample.w (clock_reads Sample.after_first_quote)
                  < clock Sample.w (clock_reads Sample.fresh) + hours 1)
    by (vm_compute; reflexivity).
  split; [exact E|]. split; [reflexivity|]. split; [exact Hreq|]. split; [exact Hnear|].
  exact (second_quote_from_cache Sample.w Lib.str_exn Lib.float_of_string
           Lib.int_of_string Lib.strptime "VTI" Sample.fresh Sample.first_quote
           Sample.after_first_quote sample_clock_monotone E eq_refl Hreq Hnear).
Defined.

Lemma sample_metrics :
  Sample.get_performance_metrics "VTI" Sample.fresh
  = (Data (OfMetrics Sample.vti_metrics), Sample.after_metrics).
Proof. vm_compute. reflexivity. Qed.

Lemma sample_quote :
  Sample.get_stock_price "VTI" Sample.after_metrics
  = (Data (OfQuote Sample.vti_quote), Sample.after_quote).
Proof. vm_compute. reflexivity. Qed.

Lemma sample_analysis_medium :
  Sample.analyze "VTI" "medium" Sample.fresh
  = (inr (Analysed Sample.vti_analysis), Sample.after_quote).
Proof. vm_compute. reflexivity. Qed.

(** The amended C1 at the analysis of VTI for a medium tolerance: the
    score is 4 and the risk matches. *)
Lemma risk_match_iff_witness :
  Sample.analyze "VTI" "medium" Sample.fresh
  = (inr (Analysed Sample.vti_analysis), Sample.after_quote) /\
  (risk_match Sample.vti_analysis = true <->
   ("medium" = "low" /\ risk_score Sample.vti_analysis <= 4)
   \/ ("medium" = "medium" /\ 3 < risk_score Sample.vti_analysis <= 7)
   \/ ("medium" = "high" /\ 6 < risk_score Sample.vti_analysis)).
Proof.
  split; [exact sample_analysis_medium|].
  exact (risk_match_iff Sample.w Lib.str_exn Lib.float_of_string Lib.int_of_string
           Lib.strptime "VTI" "medium" Sample.fresh Sample.vti_analysis
           Sample.after_quote sample_analysis_medium).
Defined.

(** C1 as stated fails: for a medium tolerance a score of 4 matches,
    although 4 < 4 does not hold. *)
Lemma risk_match_medium_counterexample :
  ~ (forall symbol risk_tolerance s a s',
       Sample.analyze symbol risk_tolerance s = (inr (Analysed a), s') ->
       (risk_match a = true <->
        (risk_tolerance = "low" /\ risk_score a <= 4)
        \/ (risk_tolerance = "medium" /\ 4 < risk_score a <= 7)
        \/ (risk_tolerance = "high" /\ 6 < risk_score a))).
Proof.
  intros H.
  destruct (H "VTI" "medium" Sample.fresh Sample.vti_analysis Sample.after_quote
              sample_analysis_medium) as [Hto _].
  destruct (Hto eq_refl) as [[Hlow _]|[[_ Hscore]|[Hhigh _]]].
  - discriminate Hlow.
  - cbn in Hscore. lia.
  - discriminate Hhigh.
Qed.

(** The amended C2 at VTI, whose series gives the four changes. *)
Lemma analyze_four_horizons_witness :
  Sample.get_performance_metrics "VTI" Sample.fresh
  = (Data (OfMetrics Sample.vti_metrics), Sample.after_metrics) /\
  Sample.get_stock_price "VTI" Sample.after_metrics
  = (Data (OfQuote Sample.vti_quote), Sample.after_quote) /\
  exists a,
    Sample.analyze "VTI" "low" Sample.fresh = (inr (Analysed a), Sample.after_quote) /\
    volatility a = 1900 /\ risk_score a = 4 /\ risk_match a = true /\
    recommendation a = "buy".
Proof.
  split; [exact sample_metrics|]. split; [exact sample_quote|].
  exact (analyze_four_horizons Sample.w Lib.str_exn Lib.float_of_string
           Lib.int_of_string Lib.strptime "VTI" Sample.fresh Sample.vti_metrics
           Sample.vti_quote Sample.after_metrics Sample.after_quote
           "2024-01-08" "2023-11-09" "2023-08-11" "2023-02-07"
           sample_metrics sample_quote eq_refl).
Defined.

(** C2 as stated fails: with the four changes the volatility is 19, the
    greatest change being the 18 percent of the year, and the score is 4;
    they are not 4 and 1. *)
Lemma analyze_four_horizons_counterexample :
  ~ (forall symbol s m q s1 s2 d1 d2 d3 d4,
       Sample.get_performance_metrics symbol s = (Data (OfMetrics m), s1) ->
       Sample.get_stock_price symbol s1 = (Data (OfQuote q), s2) ->
       performance m = [("1mo", Change 200 d1); ("3mo", Change (-100) d2);
                        ("6mo", Change 300 d3); ("1yr", Change 1800 d4)] ->
       exists a,
         Sample.analyze symbol "low" s = (inr (Analysed a), s2) /\
         volatility a = 400 /\ risk_score a = 1 /\ risk_match a = true /\
         recommendation a = "buy").
Proof.
  intros H.
  destruct (H "VTI" Sample.fresh Sample.vti_metrics Sample.vti_quote
              Sample.after_metrics Sample.after_quote
              "2024-01-08" "2023-11-09" "2023-08-11" "2023-02-07"
              sample_metrics sample_quote eq_refl) as (a & Ha & Hvol & _).
  assert (E : Sample.analyze "VTI" "low" Sample.fresh
              = (inr (Analysed Sample.vti_analysis), Sample.after_quote))
    by (vm_compute; reflexivity).
  rewrite E in Ha. injection Ha as <-. discriminate Hvol.
Qed.

Lemma sample_series_well_formed :
  well_formed_series Lib.float_of_string Lib.strptime Sample.vti_days.
Proof.
  intros date Hdate. cbn in Hdate.
  repeat (apply elem_of_cons in Hdate as [->|Hdate]);
    [..|by apply elem_of_nil in Hdate];
    (split; [eexists; vm_compute; reflexivity|]);
    eexists; (split; [vm_compute; reflexivity|]); vm_compute; discriminate.
Qed.

(** The condition on the closes cannot be dropped: a close of zero on the
    date chosen for a horizon raises in the division, and the catch-all
    [except] clause turns the whole call into an error. *)
Example zero_close_fails_the_call :
  fst (Sample.get_performance_metrics "ZERO" Sample.fresh)
  = Error "float division by zero".
Proof. vm_compute. reflexivity. Qed.

(** C4 at the series of VTI, fetched by a fresh client. *)
Lemma performance_horizons_witness :
  no_api_key Sample.fresh = false /\
  cached Sample.w (metrics_key "VTI") (hours 6) Sample.fresh = (None, Sample.fresh) /\
  provider Sample.w (length (requests Sample.fresh))
    (series_request "VTI" Sample.fresh) = inr Sample.vti_data /\
  Py.getitem Sample.vti_data "Time Series (Daily)" = inr (JObj Sample.vti_days) /\
  Sample.vti_days <> [] /\
  exists m s',
    Sample.get_performance_metrics "VTI" Sample.fresh = (Data (OfMetrics m), s') /\
    forall (i : nat) name n, periods !! i = Some (name, n) ->
      exists r,
        dict_get name (performance m) = Some r /\
        horizon_entry Lib.float_of_string Lib.strptime Sample.vti_days
          (current_price m)
          (date_of (clock Sample.w (i + clock_reads Sample.fresh) - days_delta n)) r.
Proof.
  assert (Hcached : cached Sample.w (metrics_key "VTI") (hours 6) Sample.fresh
                    = (None, Sample.fresh)) by reflexivity.
  assert (Hprov : provider Sample.w (length (requests Sample.fresh))
                    (series_request "VTI" Sample.fresh) = inr Sample.vti_data)
    by (vm_compute; reflexivity).
  assert (Hseries : Py.getitem Sample.vti_data "Time Series (Daily)"
                    = inr (JObj Sample.vti_days)) by (vm_compute; reflexivity).
  assert (Hne : Sample.vti_days <> []) by discriminate.
  split; [reflexivity|]. split; [exact Hcached|]. split; [exact Hprov|].
  split; [exact Hseries|]. split; [exact Hne|].
  exact (performance_horizons Sample.w Lib.str_exn Lib.float_of_string
           Lib.strptime "VTI" Sample.fresh Sample.fresh
           Sample.vti_data Sample.vti_days eq_refl Hcached Hprov Hseries Hne
           sample_series_well_formed).
Defined.

Lemma sample_analysis_low :
  Sample.analyze "VTI" "low" Sample.fresh
  = (inr (Analysed Sample.vti_analysis), Sample.after_quote).
Proof. vm_compute. reflexivity. Qed.

(** C5 at the analysis of VTI: the volatility is 18 - (-1) = 19 and the
    score is round(19 / 5) = 4. *)
Lemma volatility_and_risk_score_witness :
  exists hi lo,
    hi ∈ changes (analysis_performance Sample.vti_analysis) /\
    lo ∈ changes (analysis_performance Sample.vti_analysis) /\
    (forall v, v ∈ changes (analysis_performance Sample.vti_analysis) -> lo <= v <= hi) /\
    let difference :=
      Float.sub (Float.of_hundredths hi) (Float.of_hundredths lo) in
    volatility Sample.vti_analysis = Py.round2 difference /\
    risk_score Sample.vti_analysis
    = Z.min 10 (Z.max 1 (Py.round (Float.div difference 5))) /\
    (- 2 ^ 40 <= lo -> hi <= 2 ^ 40 -> volatility Sample.vti_analysis = hi - lo).
Proof.
  exact (proj1 (volatility_and_risk_score Sample.w Lib.str_exn Lib.float_of_string
                  Lib.int_of_string Lib.strptime "VTI" "low" Sample.fresh)
           Sample.vti_analysis Sample.after_quote sample_analysis_low).
Defined.

Lemma sample_tie_analysis :
  SampleTie.analyze "TIE" "low" Sample.fresh
  = (inr (Analysed SampleTie.tie_analysis), SampleTie.after_tie).
Proof. vm_compute. reflexivity. Qed.

(** C5 as stated fails: with changes of 32.2 and 9.7 percent the
    analysis returns the volatility 22.5 and the risk score 5, which is
    not [round(22.5 / 5)] = 4; the score comes from the floating-point
    difference 22.500000000000004, before it is rounded for the report. *)
Lemma volatility_and_risk_score_counterexample :
  ~ (forall symbol risk_tolerance s a s',
       SampleTie.analyze symbol risk_tolerance s = (inr (Analysed a), s') ->
       risk_score a
       = Z.min 10 (Z.max 1 (Py.round (Float.div (Float.of_hundredths (volatility a)) 5)))).
Proof.
  intros H.
  specialize (H "TIE" "low" Sample.fresh _ _ sample_tie_analysis).
  vm_compute in H. discriminate H.
Qed.


Lemma sample_three_evaluation :
  Sample.evaluate Sample.three "medium" Sample.fresh
  = (inr Sample.three_evaluation, Sample.after_three).
Proof. vm_compute. reflexivity. Qed.



(** * Further properties of the code *)

#[local] Arguments String.append !_ _ : simpl nomatch.

(** ** Structured extraction: when it succeeds *)

Section ExtractionSpans.

Variable json_loads : string -> option json.

(** A first occurrence splits the string before it. *)
Lemma find_split c s :
  0 <= PyStr.find c s ->
  exists pre rest,
    s = pre +:+ String c rest /\ PyStr.mem c pre = false /\
    PyStr.find c s = PyStr.len pre.
Proof.
  induction s as [|a s IH]; cbn [PyStr.find]; [lia|].
  destruct (Ascii.eqb_spec a c) as [->|Hne].
  - intros _. by exists EmptyString, s.
  - destruct (Z.ltb_spec (PyStr.find c s) 0) as [|Hge]; [lia|]. intros _.
    destruct (IH Hge) as (pre & rest & -> & Hpre & Hlen).
    exists (String a pre), rest. cbn [String.append PyStr.mem].
    split; [done|]. split.
    + destruct (Ascii.eqb_spec a c); [done|]. by rewrite Hpre.
    + rewrite Hlen. unfold PyStr.len. cbn [String.length]. lia.
Qed.

(** A last occurrence splits the string after it. *)
Lemma rfind_split c s :
  0 <= PyStr.rfind c s ->
  exists front post,
    s = front +:+ String c post /\ PyStr.mem c post = false /\
    PyStr.rfind c s = PyStr.len front.
Proof.
  induction s as [|a s IH]; cbn [PyStr.rfind]; [lia|].
  destruct (Z.leb_spec 0 (PyStr.rfind c s)) as [Hge|Hlt].
  - intros _. destruct (IH Hge) as (front & post & -> & Hpost & Hlen).
    exists (String a front), post. cbn [String.append].
    split; [done|]. split; [done|].
    rewrite Hlen. unfold PyStr.len. cbn [String.length]. lia.
  - destruct (Ascii.eqb_spec a c) as [->|Hne]; [|lia]. intros _.
    exists EmptyString, s. split; [done|]. split; [|done].
    assert (H := rfind_ge c s).
    clear IH. induction s as [|b s IHs]; [done|].
    cbn [PyStr.rfind PyStr.mem] in *.
    destruct (Z.leb_spec 0 (PyStr.rfind c s)); [lia|].
    destruct (Ascii.eqb_spec b c); [lia|]. cbn. apply IHs; [lia|apply rfind_ge].
Qed.

(** Two splittings of one string, the first one shorter on the left. *)
Lemma split_between (pre front : string) a b rest post :
  pre +:+ String a rest = front +:+ String b post ->
  PyStr.len pre < PyStr.len front ->
  exists mid, front = pre +:+ String a mid /\ rest = mid +:+ String b post.
Proof.
  unfold PyStr.len. revert front.
  induction pre as [|p pre IH]; intros [|f front]; cbn [String.append String.length];
    try lia.
  - intros [= -> ->] _. by exists front.
  - intros [= -> Heq] Hlen. destruct (IH front Heq) as (mid & -> & ->); [lia|].
    by exists mid.
Qed.

(** The extraction on a text cut at its first opening and its last
    closing brace. *)
Lemma extract_span pre mid post :
  PyStr.mem lbrace pre = false ->
  PyStr.mem rbrace post = false ->
  extract_json_response json_loads (pre +:+ braced mid +:+ post)
  = json_loads (braced mid).
Proof.
  intros Hpre Hpost. unfold extract_json_response.
  assert (Hfind : PyStr.find lbrace (pre +:+ braced mid +:+ post) = PyStr.len pre).
  { unfold braced. cbn [String.append]. by apply find_app. }
  assert (Hlen : PyStr.len (braced mid) = PyStr.len mid + 2).
  { unfold braced, PyStr.len. cbn [String.length].
    assert (String.length (mid +:+ String rbrace EmptyString)
            = S (String.length mid)) as ->; [|lia].
    clear. induction mid as [|a m IH]; cbn; [done|by rewrite IH]. }
  assert (Hrfind : PyStr.rfind rbrace (pre +:+ braced mid +:+ post) + 1
                   = PyStr.len pre + PyStr.len (braced mid)).
  { replace (pre +:+ braced mid +:+ post)
      with ((pre +:+ String lbrace mid) +:+ String rbrace post).
    - rewrite (rfind_app _ _ _ Hpost), len_app, Hlen.
      unfold PyStr.len. cbn [String.length]. lia.
    - unfold braced. rewrite app_assoc_string. f_equal. cbn [String.append].
      f_equal. clear. induction mid as [|a m IH]; cbn; [done|by rewrite IH]. }
  rewrite Hfind, Hrfind.
  assert (0 <= PyStr.len pre) by (unfold PyStr.len; lia).
  assert (0 <= PyStr.len mid) by (unfold PyStr.len; lia).
  destruct (Z.leb_spec 0 (PyStr.len pre)); [|lia].
  destruct (Z.ltb_spec (PyStr.len pre) (PyStr.len pre + PyStr.len (braced mid)));
    [|lia].
  cbn [andb]. by rewrite slice_app.
Qed.

(** A successful extraction comes from such a span. *)
Lemma extract_succeeds_span text v :
  extract_json_response json_loads text = Some v ->
  exists pre mid post,
    text = pre +:+ braced mid +:+ post /\
    PyStr.mem lbrace pre = false /\
    PyStr.mem rbrace post = false /\
    json_loads (braced mid) = Some v.
Proof.
  unfold extract_json_response.
  destruct (Z.leb_spec 0 (PyStr.find lbrace text)) as [Hfind|]; [|done].
  destruct (Z.ltb_spec (PyStr.find lbrace text) (PyStr.rfind rbrace text + 1))
    as [Hlt|]; [|done].
  cbn [andb].
  destruct (find_split _ _ Hfind) as (pre & rest & Htext & Hpre & Hi).
  destruct (rfind_split rbrace text) as (front & post & Htext' & Hpost & Hj); [lia|].
  assert (Hpos : PyStr.len pre < PyStr.len front).
  { destruct (Z.eq_dec (PyStr.len pre) (PyStr.len front)) as [Heq|]; [|lia].
    exfalso. rewrite Htext in Htext'. clear -Htext' Heq.
    unfold PyStr.len in Heq. apply Nat2Z.inj in Heq. revert front Htext' Heq.
    induction pre as [|p pre IH]; intros [|f front]; cbn; try done.
    intros [= _ H] [= Hl]. by eapply IH. }
  rewrite Htext in Htext'.
  destruct (split_between _ _ _ _ _ _ Htext' Hpos) as (mid & Hfront & Hrest).
  intros Hv. exists pre, mid, post.
  assert (Hshape : text = pre +:+ braced mid +:+ post).
  { rewrite Htext, Hrest. unfold braced. cbn [String.append]. do 2 f_equal.
    clear. induction mid as [|a m IH]; cbn; [done|by rewrite IH]. }
  split; [exact Hshape|]. split; [done|]. split; [done|].
  rewrite <- Hv, Hshape at 1.
  rewrite <- (extract_span pre mid post Hpre Hpost).
  unfold extract_json_response. rewrite <- Hshape.
  destruct (Z.leb_spec 0 (PyStr.find lbrace text)); [|lia].
  destruct (Z.ltb_spec (PyStr.find lbrace text) (PyStr.rfind rbrace text + 1));
    [|lia].
  reflexivity.
Qed.

(** X1.  The extraction succeeds with [v] exactly when the text is some
    prose without an opening brace, then a brace-delimited span that the
    decoder turns into [v], then some prose without a closing brace. *)
Theorem extract_succeeds_iff text v :
  extract_json_response json_loads text = Some v <->
  exists pre mid post,
    text = pre +:+ braced mid +:+ post /\
    PyStr.mem lbrace pre = false /\
    PyStr.mem rbrace post = false /\
    json_loads (braced mid) = Some v.
Proof.
  split.
  - apply extract_succeeds_span.
  - intros (pre & mid & post & -> & Hpre & Hpost & Hv).
    by rewrite extract_span.
Qed.

End ExtractionSpans.

(** ** The client: isolation, freshness and failure modes *)

Section ClientFrame.

Variable w : world.
Variable str_exn : exn -> string.
Variable float_of_string : string -> option Q.
Variable int_of_string : string -> option Z.
Variable strptime : string -> option Z.

Local Abbreviation run := (perform w str_exn float_of_string int_of_string strptime).
Local Abbreviation fetch := (fetch_of w float_of_string int_of_string strptime).

(** Distinct operations, or one operation on distinct symbols, never
    share a key of the cache. *)
Lemma key_of_inj o1 o2 : key_of o1 = key_of o2 -> o1 = o2.
Proof.
  destruct o1, o2; cbn; try discriminate; try (intros [= ->]; reflexivity).
  reflexivity.
Qed.

(** The loop over the periods fills the four labels, in their order. *)
Lemma period_loop_labels time_series dates current_price s perf s' :
  period_loop w float_of_string strptime time_series dates current_price periods [] s
  = (inr perf, s') ->
  map fst perf = map fst periods.
Proof.
  unfold periods. cbn [period_loop dict_set]. unfold bind. intros H.
  repeat match type of H with
  | context [period_entry ?a ?b ?c ?d ?e ?f ?g ?st] =>
      destruct (period_entry a b c d e f g st) as [[?|?] ?]; [discriminate H|]
  end.
  unfold ret in H. by injection H as <- _.
Qed.

Lemma fetch_stock_price_effect symbol :
  fetch_effect w (GetStockPrice symbol)
    (fetch_stock_price w float_of_string int_of_string symbol).
Proof.
  intros s.
  unfold fetch_stock_price, bind, requests_get, lift, ret, datetime_now, cache_store.
  repeat (case_scrutinee; simplify_eq/=); auto with lia.
Qed.

Lemma fetch_etf_overview_effect symbol :
  fetch_effect w (GetEtfOverview symbol) (fetch_etf_overview w symbol).
Proof.
  intros s.
  unfold fetch_etf_overview, bind, requests_get, lift, ret, datetime_now, cache_store.
  repeat (case_scrutinee; simplify_eq/=); auto with lia.
Qed.

Lemma fetch_sector_performance_effect :
  fetch_effect w GetSectorPerformance (fetch_sector_performance w).
Proof.
  intros s.
  unfold fetch_sector_performance, bind, requests_get, lift, ret, datetime_now,
    cache_store.
  repeat (case_scrutinee; simplify_eq/=); auto with lia.
Qed.

Local Opaque period_loop.

Lemma fetch_performance_metrics_effect symbol :
  fetch_effect w (GetPerformanceMetrics symbol)
    (fetch_performance_metrics w float_of_string strptime symbol).
Proof.
  intros s.
  unfold fetch_performance_metrics, bind, requests_get, lift, ret, datetime_now,
    cache_store.
  repeat (case_scrutinee; simplify_eq/=); auto with lia;
    match goal with
    | H : period_loop _ _ _ ?ts ?ds ?c periods [] ?st = _ |- _ =>
        pose proof (quiet_period_loop w float_of_string strptime ts ds c periods [] st)
          as Hq;
        pose proof H as Hlabels;
        rewrite H in Hq; cbn in Hq; destruct Hq as (? & ? & ? & ?)
    end;
    repeat split; try congruence; try lia.
  eapply period_loop_labels; eassumption.
Qed.

Local Transparent period_loop.

Lemma fetch_of_effect o : fetch_effect w o (fetch o).
Proof.
  destruct o; cbn [fetch_of].
  - apply fetch_stock_price_effect.
  - apply fetch_performance_metrics_effect.
  - apply fetch_etf_overview_effect.
  - apply fetch_sector_performance_effect.
Qed.

(** The three ways a call can go, with the request it sends and what it
    stores. *)
Lemma perform_inv o s r s' :
  run o s = (r, s') ->
  (no_api_key s = true /\ r = Error "API key not set" /\ s' = s)
  \/ (no_api_key s = false /\
      exists e, cache s !! key_of o = Some e /\
        clock w (clock_reads s) - timestamp e < ttl_of o /\
        r = data e /\ s' = tick s)
  \/ (no_api_key s = false /\
      (forall e, cache s !! key_of o = Some e ->
                 ttl_of o <= clock w (clock_reads s) - timestamp e) /\
      api_key s' = api_key s /\
      requests s' = requests s ++ [request_of o s] /\
      (clock_reads s <= clock_reads s')%nat /\
      ((is_error r = true /\ cache s' = cache s)
       \/ (exists d, r = Data d /\ answers o d /\
             (clock_reads s < clock_reads s')%nat /\
             cache s' = <[key_of o := Entry (clock w (pred (clock_reads s'))) r]>
                          (cache s)))).
Proof.
  rewrite (perform_operation w str_exn float_of_string int_of_string strptime).
  intros Hop. unfold operation, cached, try_except in Hop.
  pose proof (fetch_of_effect o) as Heff.
  destruct (no_api_key s) eqn:Hkey; [left; by simplify_eq|].
  right.
  assert (Hgo : forall s1,
             api_key s1 = api_key s -> cache s1 = cache s ->
             requests s1 = requests s -> (clock_reads s <= clock_reads s1)%nat ->
             (let (e0, s2) := fetch o s1 in
              match e0 with
              | inl e => (Error (str_exn e), s2)
              | inr r0 => (r0, s2)
              end) = (r, s') ->
             api_key s' = api_key s /\
             requests s' = requests s ++ [request_of o s] /\
             (clock_reads s <= clock_reads s')%nat /\
             ((is_error r = true /\ cache s' = cache s)
              \/ (exists d, r = Data d /\ answers o d /\
                    (clock_reads s < clock_reads s')%nat /\
                    cache s' = <[key_of o := Entry (clock w (pred (clock_reads s'))) r]>
                                 (cache s)))).
  { intros s1 Hk Hc Hr Hn Hrun. specialize (Heff s1).
    assert (Hreq : request_of o s1 = request_of o s)
      by (unfold request_of, the_key; by rewrite Hk).
    destruct (fetch o s1) as [[ex|[msg|d]] s2]; simplify_eq;
      destruct Heff as (Hk2 & Hr2 & Hn2 & Heff);
      (split; [congruence|]); (split; [congruence|]); (split; [lia|]).
    - left. split; [done|congruence].
    - left. split; [done|congruence].
    - right. destruct Heff as [Hc2 Hans]. exists d.
      repeat split; [done|lia|congruence]. }
  destruct (cache s !! key_of o) as [e|] eqn:Hlook.
  - destruct (Z.ltb_spec (clock w (clock_reads s) - timestamp e) (ttl_of o))
      as [Hfresh|Hstale].
    + simplify_eq. left. split; [done|]. by exists e.
    + right. split; [done|]. split; [by intros e' [= <-]|].
      eapply Hgo; [..|exact Hop]; cbn; auto with lia.
  - right. split; [done|]. split; [done|].
    eapply Hgo; [..|exact Hop]; auto with lia.
Qed.

(** X2.  A call of an operation never changes the credential, never
    removes a request from the history and adds at most one, never sets
    the clock count back, and leaves the cache entry of every other
    operation, or of the same operation on another symbol, as it was. *)
Theorem call_touches_own_entry_only o s r s' :
  run o s = (r, s') ->
  api_key s' = api_key s /\
  (requests s' = requests s \/ requests s' = requests s ++ [request_of o s]) /\
  (clock_reads s <= clock_reads s')%nat /\
  forall o', o' <> o -> cache s' !! key_of o' = cache s !! key_of o'.
Proof.
  intros Hop.
  destruct (perform_inv _ _ _ _ Hop)
    as [(_ & _ & ->)|[(_ & e & _ & _ & _ & ->)
       |(_ & _ & Hk & Hr & Hn & [[_ Hc]|(d & _ & _ & _ & Hc)])]];
    cbn; repeat split; auto with lia; try (intros; by rewrite Hc).
  intros o' Hne. rewrite Hc, lookup_insert_ne; [done|].
  intros Heq. by apply Hne, key_of_inj.
Qed.

Lemma fresh_entry_hit o s e :
  no_api_key s = false ->
  cache s !! key_of o = Some e ->
  clock w (clock_reads s) - timestamp e < ttl_of o ->
  run o s = (data e, tick s).
Proof.
  intros Hkey Hlook Hfresh.
  rewrite (perform_operation w str_exn float_of_string int_of_string strptime).
  unfold operation, cached. rewrite Hkey, Hlook.
  by destruct (Z.ltb_spec (clock w (clock_reads s) - timestamp e) (ttl_of o)); [|lia].
Qed.

(** X3.  With a credential and an entry under the key of the operation:
    an entry younger than the time to live of the operation is returned
    after one reading of the clock, without a request; an entry as old as
    the time to live or older is not used, and the request of the
    operation is sent. *)
Theorem entry_served_while_fresh o s e :
  no_api_key s = false ->
  cache s !! key_of o = Some e ->
  (clock w (clock_reads s) - timestamp e < ttl_of o ->
   run o s = (data e, tick s))
  /\ (ttl_of o <= clock w (clock_reads s) - timestamp e ->
      requests (snd (run o s)) = requests s ++ [request_of o s]).
Proof.
  intros Hkey Hlook. split; [by apply fresh_entry_hit|].
  intros Hstale. destruct (run o s) as [r s'] eqn:Hop. cbn.
  destruct (perform_inv _ _ _ _ Hop)
    as [(? & _)|[(_ & e' & Hlook' & Hfresh & _)|(_ & _ & _ & Hr & _)]];
    [congruence| |done].
  rewrite Hlook in Hlook'. injection Hlook' as <-. lia.
Qed.

(** X4.  When a call of any of the four operations has obtained its
    result from the provider, the next call of the same operation, made at
    a clock that has not gone back and that reads less than the time to
    live after the first reading of the first call, returns the same
    result and sends nothing. *)
Theorem result_reused_within_ttl o s r s1 :
  monotone w ->
  run o s = (r, s1) ->
  is_error r = false ->
  requests s1 <> requests s ->
  clock w (clock_reads s1) < clock w (clock_reads s) + ttl_of o ->
  run o s1 = (r, tick s1).
Proof.
  intros Hmono Hop Hok Hsent Hnear.
  destruct (perform_inv _ _ _ _ Hop)
    as [(_ & _ & ->)|[(_ & e & _ & _ & _ & ->)
       |(Hkey & _ & Hk & Hr & Hn & [[Herr _]|(d & -> & _ & Hlt & Hc)])]];
    [done|done|congruence|].
  assert (Hlook : cache s1 !! key_of o
                  = Some (Entry (clock w (pred (clock_reads s1))) (Data d)))
    by (rewrite Hc; apply lookup_insert_eq).
  assert (Hkey1 : no_api_key s1 = false) by (by rewrite (no_api_key_eq _ _ Hk)).
  apply (fresh_entry_hit o s1 _ Hkey1 Hlook). cbn [timestamp].
  assert (clock w (clock_reads s) <= clock w (pred (clock_reads s1)))
    by (apply Hmono; lia).
  lia.
Qed.

(** X5.  When the request of an operation fails with an exception (the
    connection, or the decoding of the body), the operation returns the
    text of the exception as its error; it has sent that one request and
    has neither read the clock again nor written to the cache. *)
Theorem provider_exception_becomes_error o s s1 e :
  no_api_key s = false ->
  cached w (key_of o) (ttl_of o) s = (None, s1) ->
  provider w (length (requests s1)) (request_of o s1) = inl e ->
  run o s = (Error (str_exn e), sent (request_of o s1) s1).
Proof.
  intros Hkey Hcached Hprov.
  rewrite (perform_operation w str_exn float_of_string int_of_string strptime).
  unfold operation. rewrite Hkey, Hcached. unfold try_except.
  destruct o; cbn [fetch_of request_of] in *;
    unfold fetch_stock_price, fetch_performance_metrics, fetch_etf_overview,
      fetch_sector_performance, bind at 1, requests_get;
    by rewrite Hprov.
Qed.

(** X6.  When the provider answers with a body that lacks the data of the
    operation (no quote or an empty one, no series or an empty one, an
    empty overview or one with an error message, no sector table), the
    operation returns its "no data" message; it has sent that one request
    and has neither read the clock again nor written to the cache. *)
Theorem reply_without_data_is_not_found o s s1 reply :
  no_api_key s = false ->
  cached w (key_of o) (ttl_of o) s = (None, s1) ->
  provider w (length (requests s1)) (request_of o s1) = inr reply ->
  lacks_data o reply ->
  run o s = (Error (not_found o), sent (request_of o s1) s1).
Proof.
  intros Hkey Hcached Hprov Hlacks.
  rewrite (perform_operation w str_exn float_of_string int_of_string strptime).
  unfold operation. rewrite Hkey, Hcached. unfold try_except.
  destruct o; cbn [fetch_of request_of lacks_data not_found] in *;
    unfold fetch_stock_price, fetch_performance_metrics, fetch_etf_overview,
      fetch_sector_performance, bind at 1, requests_get;
    rewrite Hprov; unfold bind, lift, ret.
  - destruct Hlacks as [->|(v & Hv & Hfalse)]; [done|].
    rewrite (contains_of_getitem _ _ _ Hv), Hv. cbn. by rewrite Hfalse.
  - destruct Hlacks as [->|(v & Hv & Hfalse)]; [done|].
    rewrite (contains_of_getitem _ _ _ Hv), Hv. cbn. by rewrite Hfalse.
  - destruct Hlacks as [->|Herr]; [done|].
    destruct (Py.truthy reply); cbn; [|done]. by rewrite Herr.
  - by rewrite Hlacks.
Qed.

Lemma cache_sound_new key : cache_sound (new_client key).
Proof. intros k e. cbn. by rewrite lookup_empty. Qed.

(** X7.  On a cache in which every entry holds a result of the operation
    its key belongs to, as is the cache of a new client, every result an
    operation returns, fetched or cached, is of the kind of the operation
    and for the symbol asked about (metrics with the four period labels in
    order), and the cache is again such a cache. *)
Theorem results_answer_the_call o s r s' :
  cache_sound s ->
  run o s = (r, s') ->
  cache_sound s' /\ forall d, r = Data d -> answers o d.
Proof.
  intros Hsound Hop.
  destruct (perform_inv _ _ _ _ Hop)
    as [(_ & -> & ->)|[(_ & e & Hlook & _ & -> & ->)
       |(_ & _ & _ & _ & _ & [[Herr Hc]|(d & -> & Hans & _ & Hc)])]].
  - split; [done|]. by intros d.
  - split; [exact Hsound|]. intros d Hd.
    destruct (Hsound _ _ Hlook) as (o' & d' & Hkey & Hd' & Hans).
    apply key_of_inj in Hkey as ->. congruence.
  - split.
    + intros k e. rewrite Hc. apply Hsound.
    + intros d ->. done.
  - split; [|by intros d' [= <-]].
    intros k e. rewrite Hc, lookup_insert. case_decide as Hk.
    + intros [= <-]. by exists o, d.
    + apply Hsound.
Qed.

(** ** Analyses *)

Local Abbreviation stock_price :=
  (get_stock_price w str_exn float_of_string int_of_string).
Local Abbreviation performance_metrics :=
  (get_performance_metrics w str_exn float_of_string strptime).
Local Abbreviation analyze :=
  (analyze_etf_for_investment w str_exn float_of_string int_of_string strptime).
Local Abbreviation evaluate :=
  (evaluate_portfolio_symbols w str_exn float_of_string int_of_string strptime).
Local Abbreviation analyses_of :=
  (analyses w str_exn float_of_string int_of_string strptime).

(** *** The score and the volatility reported *)

(** The difference behind an analysis: not negative, reported rounded to
    two decimals, and scored before that rounding. *)
Lemma analysis_of_figures symbol risk_tolerance m q x rest :
  let a := analysis_of symbol risk_tolerance m q x rest in
  exists difference : Q,
    (0 <= difference)%Q /\
    volatility a = Py.round2 difference /\
    risk_score a = Z.min 10 (Z.max 1 (Py.round (Float.div difference 5))) /\
    risk_match a = matches risk_tolerance (risk_score a).
Proof.
  cbn [analysis_of volatility risk_score risk_match].
  eexists. split; [|done].
  destruct (list_max_spec x rest) as [_ Hmax].
  destruct (list_min_spec x rest) as [Hmin _].
  specialize (Hmax _ Hmin).
  apply rnd_nonneg.
  pose proof (of_hundredths_mono _ _ Hmax). lra.
Qed.

(** A difference reported below [t] hundredths has a fifth that rounds no
    higher than the fifth of [t - 0.005], one reported above [t] a fifth
    that rounds no lower than the fifth of [t + 0.005]. *)
Lemma round_fifth_below (d : Q) (t : Z) :
  Py.round2 d < t ->
  Py.round (Float.div d 5) <= Py.round (Float.rnd ((2 * t - 1) # 1000)).
Proof.
  unfold Py.round2, Float.div. intros Hlt.
  destruct (round_near (d * 100)) as [_ Hhi].
  assert (Hh : (inject_Z (Py.round (d * 100)) + 1 <= inject_Z t)%Q)
    by (unfold Qle, Qplus, inject_Z; cbn; lia).
  assert (Ht : (inject_Z t == (1 # 2) + 500 * ((2 * t - 1) # 1000))%Q)
    by (unfold Qeq, Qplus, Qmult, inject_Z; cbn; lia).
  apply round_mono, rnd_mono.
  apply Qle_shift_div_r; [done|]. lra.
Qed.

Lemma round_fifth_above (d : Q) (t : Z) :
  t < Py.round2 d ->
  Py.round (Float.rnd ((2 * t + 1) # 1000)) <= Py.round (Float.div d 5).
Proof.
  unfold Py.round2, Float.div. intros Hlt.
  destruct (round_near (d * 100)) as [Hlo _].
  assert (Hh : (inject_Z t + 1 <= inject_Z (Py.round (d * 100)))%Q)
    by (unfold Qle, Qplus, inject_Z; cbn; lia).
  assert (Ht : (inject_Z t == 500 * ((2 * t + 1) # 1000) - (1 # 2))%Q)
    by (unfold Qeq, Qminus, Qplus, Qopp, Qmult, inject_Z; cbn; lia).
  apply round_mono, rnd_mono.
  apply Qle_shift_div_l; [done|]. lra.
Qed.

(** The scores on either side of the four ties. *)
Lemma fifth_thresholds :
  Py.round (Float.rnd ((2 * 2250 - 1) # 1000)) = 4 /\
  Py.round (Float.rnd ((2 * 2250 + 1) # 1000)) = 5 /\
  Py.round (Float.rnd ((2 * 1750 - 1) # 1000)) = 3 /\
  Py.round (Float.rnd ((2 * 1750 + 1) # 1000)) = 4 /\
  Py.round (Float.rnd ((2 * 3750 - 1) # 1000)) = 7 /\
  Py.round (Float.rnd ((2 * 3750 + 1) # 1000)) = 8 /\
  Py.round (Float.rnd ((2 * 3250 - 1) # 1000)) = 6 /\
  Py.round (Float.rnd ((2 * 3250 + 1) # 1000)) = 7.
Proof. vm_compute. done. Qed.

(** X8.  In every analysis returned, the risk matches a low tolerance
    when the volatility reported is below 22.5 and does not when it is
    above; it matches a medium one when the volatility is above 17.5 and
    below 37.5 and does not when it is below 17.5 or above 37.5; it
    matches a high one when the volatility is above 32.5 and does not when
    it is below.  At a volatility reported as 22.5, 17.5, 37.5 or 32.5
    the rounding error of the floating-point difference decides. *)
Theorem risk_match_by_volatility symbol risk_tolerance s a s' :
  analyze symbol risk_tolerance s = (inr (Analysed a), s') ->
  (risk_match a = true ->
   (risk_tolerance = "low" /\ volatility a <= 2250)
   \/ (risk_tolerance = "medium" /\ 1750 <= volatility a <= 3750)
   \/ (risk_tolerance = "high" /\ 3250 <= volatility a))
  /\ ((risk_tolerance = "low" /\ volatility a < 2250)
      \/ (risk_tolerance = "medium" /\ 1750 < volatility a < 3750)
      \/ (risk_tolerance = "high" /\ 3250 < volatility a) ->
      risk_match a = true).
Proof.
  intros (m & q & s1 & x & rest & _ & _ & _ & ->)%analyze_inv.
  destruct (analysis_of_figures symbol risk_tolerance m q x rest)
    as (d & _ & -> & Hscore & ->).
  rewrite matches_iff, Hscore. clear Hscore.
  pose proof (round_fifth_below d 2250) as B4. pose proof (round_fifth_above d 2250) as A4.
  pose proof (round_fifth_below d 1750) as B3. pose proof (round_fifth_above d 1750) as A3.
  pose proof (round_fifth_below d 3750) as B7. pose proof (round_fifth_above d 3750) as A7.
  pose proof (round_fifth_below d 3250) as B6. pose proof (round_fifth_above d 3250) as A6.
  destruct fifth_thresholds as (E1 & E2 & E3 & E4 & E5 & E6 & E7 & E8).
  rewrite E1 in B4. rewrite E2 in A4. rewrite E3 in B3. rewrite E4 in A3.
  rewrite E5 in B7. rewrite E6 in A7. rewrite E7 in B6. rewrite E8 in A6.
  clear E1 E2 E3 E4 E5 E6 E7 E8.
  set (h := Py.round2 d) in *. set (k := Py.round (Float.div d 5)) in *.
  clearbody h k.
  split; (intros [[? ?]|[[? ?]|[? ?]]];
          [left|right; left|right; right]; (split; [done|lia])).
Qed.

(** X9.  Of two analyses, of any symbols on any states, the one with the
    greater volatility reported never has the lesser risk score. *)
Theorem risk_score_monotone symbol1 tolerance1 s1 a1 s1' symbol2 tolerance2 s2 a2 s2' :
  analyze symbol1 tolerance1 s1 = (inr (Analysed a1), s1') ->
  analyze symbol2 tolerance2 s2 = (inr (Analysed a2), s2') ->
  volatility a1 < volatility a2 ->
  risk_score a1 <= risk_score a2.
Proof.
  intros (m1 & q1 & ? & x1 & rest1 & _ & _ & _ & ->)%analyze_inv
         (m2 & q2 & ? & x2 & rest2 & _ & _ & _ & ->)%analyze_inv.
  destruct (analysis_of_figures symbol1 tolerance1 m1 q1 x1 rest1)
    as (d1 & _ & -> & -> & _).
  destruct (analysis_of_figures symbol2 tolerance2 m2 q2 x2 rest2)
    as (d2 & _ & -> & -> & _).
  intros Hlt.
  assert (Hle : (d1 <= d2)%Q).
  { destruct (Qlt_le_dec d2 d1) as [Hgt|]; [exfalso|done].
    assert (Py.round2 d2 <= Py.round2 d1); [|lia].
    apply round_mono. lra. }
  assert (Py.round (Float.div d1 5) <= Py.round (Float.div d2 5)); [|lia].
  apply round_mono, rnd_mono.
  apply Qmult_le_compat_r; [done|]. by vm_compute.
Qed.

(** X10.  The recommendation of an analysis is "buy", "avoid" or "hold":
    "buy" exactly when the risk matches and the change over one year is
    above 15 percent, "avoid" exactly when the change over one year is
    below -10 percent, whether the risk matches or not. *)
Theorem recommendation_cases symbol risk_tolerance s a s' :
  analyze symbol risk_tolerance s = (inr (Analysed a), s') ->
  (recommendation a = "buy" <->
   risk_match a = true /\
   exists v d, dict_get "1yr" (analysis_performance a) = Some (Change v d) /\ 1500 < v)
  /\ (recommendation a = "avoid" <->
      exists v d, dict_get "1yr" (analysis_performance a) = Some (Change v d) /\ v < -1000)
  /\ (recommendation a = "buy" \/ recommendation a = "avoid" \/ recommendation a = "hold").
Proof.
  intros (m & q & s1 & x & rest & _ & _ & _ & ->)%analyze_inv.
  cbn [analysis_of recommendation risk_match analysis_performance].
  set (rm := matches _ _). clearbody rm.
  unfold recommend, yearly.
  destruct (dict_get "1yr" (performance m)) as [[v d|msg]|].
  2,3: (split; [|split; [|by right; right]]);
       (split; [done|]); [intros (_ & ? & ? & ? & _)|intros (? & ? & ? & _)]; done.
  destruct (Z.eqb_spec v 0) as [Hz|Hz], (Z.ltb_spec 1500 v) as [Hb|Hb],
    (Z.ltb_spec v (-1000)) as [Ha|Ha], rm; cbn; try lia;
    (split; [|split; [|auto]]);
    (split; [try done|]);
    try (intros (? & ? & ? & [= <- <-] & ?); try done; lia);
    try (intros (? & ? & [= <- <-] & ?); try done; lia);
    try (intros _; eauto 6).
Qed.

(** X11.  When the fetch of the metrics fails with a message, the analysis
    fails with that message, and when only the fetch of the price fails,
    with the message of the price; in both cases, and when the metrics
    have failed too, the price has been asked for: the state is the one
    after both calls. *)
Theorem analysis_reports_first_error symbol risk_tolerance s r1 s1 r2 s2 :
  performance_metrics symbol s = (r1, s1) ->
  stock_price symbol s1 = (r2, s2) ->
  (forall msg, r1 = Error msg -> msg <> "" ->
     analyze symbol risk_tolerance s = (inr (Failed symbol (Some msg)), s2))
  /\ (forall d msg, r1 = Data d -> r2 = Error msg ->
        analyze symbol risk_tolerance s = (inr (Failed symbol (Some msg)), s2))
  /\ (r1 = Error "" ->
        analyze symbol risk_tolerance s = (inr (Failed symbol (get_error r2)), s2)).
Proof.
  intros Hm Hq. unfold analyze_etf_for_investment, bind, call, lift, ret.
  rewrite Hm, Hq. repeat split.
  - intros [|c msg] -> Hmsg; [done|]. reflexivity.
  - intros d msg -> ->. reflexivity.
  - intros ->. reflexivity.
Qed.

(** *** Without a credential *)

Lemma run_no_key o s :
  no_api_key s = true -> run o s = (Error "API key not set", s).
Proof.
  intros Hkey.
  rewrite (perform_operation w str_exn float_of_string int_of_string strptime).
  unfold operation. by rewrite Hkey.
Qed.

Lemma analyze_no_key symbol risk_tolerance s :
  no_api_key s = true ->
  analyze symbol risk_tolerance s = (inr (Failed symbol (Some "API key not set")), s).
Proof.
  intros Hkey. unfold analyze_etf_for_investment, bind, call, lift, ret.
  pose proof (run_no_key (GetPerformanceMetrics symbol) s Hkey) as Hm.
  pose proof (run_no_key (GetStockPrice symbol) s Hkey) as Hq.
  cbn [perform] in Hm, Hq. by rewrite Hm, Hq.
Qed.

Lemma analyses_no_key symbols risk_tolerance s :
  no_api_key s = true ->
  analyses_of symbols risk_tolerance s
  = (inr (map (fun symbol => Failed symbol (Some "API key not set")) symbols), s).
Proof.
  intros Hkey. induction symbols as [|symbol symbols IH]; [done|].
  cbn [analyses map]. unfold bind. rewrite (analyze_no_key _ _ _ Hkey), IH. done.
Qed.

Lemma analysed_failed (symbols : list string) (error : option string) :
  analysed (map (fun symbol => Failed symbol error) symbols) = [].
Proof. by induction symbols. Qed.

(** X12.  Without a credential the evaluation of a portfolio files every
    symbol under the error "API key not set" and reports no valid symbol,
    with the averages and the diversification score at 0; the client is
    left as it was: no request is sent and the clock is not read. *)
Theorem evaluation_without_credential symbols risk_tolerance s :
  no_api_key s = true ->
  evaluate symbols risk_tolerance s
  = (inr (Evaluation
            (by_symbol symbols
               (map (fun symbol => Failed symbol (Some "API key not set")) symbols))
            (PortfolioMetrics (Z.of_nat (length symbols)) 0 0 0 0)), s).
Proof.
  intros Hkey. unfold evaluate_portfolio_symbols, bind.
  rewrite (evaluate_loop_analyses w str_exn float_of_string int_of_string strptime
             _ _ _ _ _ _ (analyses_no_key symbols risk_tolerance s Hkey)).
  unfold ret. do 2 f_equal.
  set (rs := map _ symbols).
  destruct (fold_record (zip symbols rs) (Tally ∅ [] 0 0)) as (Hv & _ & _ & Hr).
  rewrite map_snd_zip in Hv by (subst rs; by rewrite length_map).
  subst rs. rewrite analysed_failed in Hv. cbn in Hv.
  set (t := fold_left _ _ _) in *. clearbody t.
  f_equal.
  - rewrite Hr. cbn. unfold by_symbol. by rewrite (right_id_L ∅ (∪)).
  - unfold summarise. destruct (valid t); [done|discriminate Hv].
Qed.

(** *** The analyses of a portfolio *)

Lemma analyze_symbol symbol risk_tolerance s r s' :
  analyze symbol risk_tolerance s = (inr r, s') -> result_symbol r = symbol.
Proof.
  unfold analyze_etf_for_investment, bind, call, lift, ret.
  destruct (performance_metrics symbol s) as [r1 s1].
  destruct (stock_price symbol s1) as [r2 s2].
  destruct (is_error r1 || is_error r2); [by intros [= <- _]|].
  destruct (performance_of r1) as [e|perf]; [done|].
  destruct (changes perf); [by intros [= <- _]|].
  destruct (price_of r2); [done|]. by intros [= <- _].
Qed.

Lemma analyze_volatility symbol risk_tolerance s a s' :
  analyze symbol risk_tolerance s = (inr (Analysed a), s') -> 0 <= volatility a.
Proof.
  intros (m & q & s1 & x & rest & _ & _ & _ & ->)%analyze_inv.
  destruct (analysis_of_figures symbol risk_tolerance m q x rest)
    as (d & Hd & -> & _).
  apply round_ge. change (inject_Z 0) with 0%Q. by apply Qmult_le_0_compat.
Qed.

(** When the loop returns, so does the list of the analyses. *)
Lemma evaluate_loop_inv symbols risk_tolerance t s t' s' :
  evaluate_loop w str_exn float_of_string int_of_string strptime
    symbols risk_tolerance t s = (inr t', s') ->
  exists rs,
    analyses_of symbols risk_tolerance s = (inr rs, s') /\
    Forall2 (fun symbol r => result_symbol r = symbol) symbols rs /\
    Forall (fun a => 0 <= volatility a) (analysed rs).
Proof.
  revert t s. induction symbols as [|symbol symbols IH]; intros t s; cbn.
  - unfold ret. intros [= <- <-]. by exists [].
  - unfold bind.
    destruct (analyze symbol risk_tolerance s) as [[e|r] s1] eqn:Ha; [done|].
    intros (rs & -> & Hsym & Hvol)%IH. exists (r :: rs).
    split; [done|]. split.
    + constructor; [by eapply analyze_symbol|done].
    + destruct r as [sym err|a]; cbn; [done|].
      constructor; [by eapply analyze_volatility|done].
Qed.

Lemma sum_volatility_nonneg (good : list analysis) :
  Forall (fun a => 0 <= volatility a) good -> 0 <= sum_volatility good.
Proof. induction 1; cbn; lia. Qed.

Lemma count_matched_range (good : list analysis) :
  0 <= count_matched good <= Z.of_nat (length good).
Proof. induction good as [|a good IH]; cbn; [lia|]. destruct (risk_match a); lia. Qed.

Lemma round_nonneg (q : Q) : (0 <= q)%Q -> 0 <= Py.round q.
Proof.
  destruct q as [n d]. unfold Qle, Py.round. cbn [Qnum Qden]. intros Hn.
  assert (0 <= n / Z.pos d) by (apply Z.div_pos; lia).
  destruct (_ ?= _); [destruct (Z.even _)|..]; lia.
Qed.

Lemma round_le (q : Q) (k : Z) : (q <= inject_Z k)%Q -> Py.round q <= k.
Proof.
  destruct q as [n d]. unfold Qle, Py.round, inject_Z. cbn [Qnum Qden]. intros Hn.
  pose proof (Z.div_mod n (Z.pos d) ltac:(lia)) as E.
  pose proof (Z.mod_pos_bound n (Z.pos d) ltac:(lia)) as B.
  set (f := n / Z.pos d) in *. set (r := n mod Z.pos d) in *. clearbody f r.
  assert (Hf : f <= k) by nia.
  assert (Hr : f = k -> r = 0) by nia.
  destruct (Z.compare_spec (2 * r) (Z.pos d)); [destruct (Z.even f)|..]; lia.
Qed.

(** X13.  The aggregate of an evaluation is within bounds: the valid
    symbols are at most the symbols given, the average volatility is not
    negative, the percentage of matches lies between 0 and 100, and the
    diversification score is at most 10 and at most the number of valid
    symbols. *)
Theorem portfolio_figures_bounded symbols risk_tolerance s ev s' :
  evaluate symbols risk_tolerance s = (inr ev, s') ->
  let pm := metrics_of ev in
  total_symbols pm = Z.of_nat (length symbols) /\
  0 <= valid_symbols pm <= total_symbols pm /\
  0 <= avg_volatility pm /\
  0 <= risk_match_percentage pm <= 10000 /\
  0 <= diversification_score pm <= 10 /\
  diversification_score pm <= valid_symbols pm.
Proof.
  unfold evaluate_portfolio_symbols, bind.
  destruct (evaluate_loop _ _ _ _ _ _ _ _ s) as [[e|t] s1] eqn:Hloop; [done|].
  unfold ret. intros [= <- <-].
  destruct (evaluate_loop_inv _ _ _ _ _ _ Hloop) as (rs & Hrs & Hsym & Hvol).
  rewrite (evaluate_loop_analyses w str_exn float_of_string int_of_string strptime
             _ _ _ _ _ _ Hrs) in Hloop.
  injection Hloop as <-.
  pose proof (Forall2_length _ _ _ Hsym) as Hlen.
  destruct (fold_record (zip symbols rs) (Tally ∅ [] 0 0)) as (Hv & Ht & Hm & _).
  rewrite map_snd_zip in Hv, Ht, Hm by done.
  set (t := fold_left _ _ _) in *. clearbody t.
  cbn [valid total_volatility matched_risk_count length] in Hv, Ht, Hm.
  pose proof (sum_volatility_nonneg _ Hvol) as Hsum.
  pose proof (count_matched_range (analysed rs)) as Hcount.
  assert (Hgood : (length (analysed rs) <= length rs)%nat).
  { clear. induction rs as [|[?|?] rs IH]; cbn; lia. }
  cbn [metrics_of summarise total_symbols valid_symbols avg_volatility
       risk_match_percentage diversification_score]. unfold summarise.
  cbn [total_symbols valid_symbols avg_volatility risk_match_percentage
       diversification_score].
  split; [done|]. split; [lia|].
  assert (Hmatched : 0 <= matched_risk_count t <= Z.of_nat (length (valid t))) by lia.
  assert (Htotal : 0 <= total_volatility t) by lia.
  clear Hv Ht Hm Hsum Hcount Hgood.
  destruct (valid t) as [|v0 vs] eqn:Hvalid; [cbn; lia|].
  remember (Z.of_nat (length (v0 :: vs))) as n eqn:Hn.
  assert (Hpos : 0 < n) by (subst n; cbn [length]; lia).
  assert (HposQ : (0 < inject_Z n)%Q) by (unfold Qlt, inject_Z; cbn; lia).
  split; [|split; [|lia]].
  - apply round_nonneg. unfold Py.round2.
    apply Qmult_le_0_compat; [|done].
    apply Qle_shift_div_l; [done|]. rewrite Qmult_0_l.
    unfold percent, Qle. cbn. lia.
  - unfold Py.round2. split.
    + apply round_nonneg. apply Qmult_le_0_compat; [|done].
      apply Qmult_le_0_compat; [|done].
      apply Qle_shift_div_l; [done|]. rewrite Qmult_0_l.
      unfold inject_Z, Qle. cbn. lia.
    + apply round_le.
      assert (Hone : (inject_Z (matched_risk_count t) / inject_Z n <= 1)%Q).
      { apply Qle_shift_div_r; [done|]. rewrite Qmult_1_l.
        unfold inject_Z, Qle. cbn. lia. }
      assert (Hp : (0 <= inject_Z (matched_risk_count t) / inject_Z n)%Q).
      { apply Qle_shift_div_l; [done|]. rewrite Qmult_0_l.
        unfold inject_Z, Qle. cbn. lia. }
      set (x := (inject_Z (matched_risk_count t) / inject_Z n)%Q) in *. clearbody x.
      destruct x as [xn xd]. unfold Qle, Qmult, inject_Z in *. cbn in *. nia.
Qed.

(** X14.  The table of an evaluation has an entry for exactly the symbols
    given, and the entry of a symbol is a result for that symbol. *)
Theorem evaluation_table_by_symbol symbols risk_tolerance s ev s' :
  evaluate symbols risk_tolerance s = (inr ev, s') ->
  (forall symbol, is_Some (symbol_evaluations ev !! symbol) <-> symbol ∈ symbols)
  /\ (forall symbol r, symbol_evaluations ev !! symbol = Some r ->
        result_symbol r = symbol).
Proof.
  unfold evaluate_portfolio_symbols, bind.
  destruct (evaluate_loop _ _ _ _ _ _ _ _ s) as [[e|t] s1] eqn:Hloop; [done|].
  unfold ret. intros [= <- <-].
  destruct (evaluate_loop_inv _ _ _ _ _ _ Hloop) as (rs & Hrs & Hsym & _).
  rewrite (evaluate_loop_analyses w str_exn float_of_string int_of_string strptime
             _ _ _ _ _ _ Hrs) in Hloop.
  injection Hloop as <-.
  pose proof (Forall2_length _ _ _ Hsym) as Hlen.
  destruct (fold_record (zip symbols rs) (Tally ∅ [] 0 0)) as (_ & _ & _ & Hr).
  cbn [symbol_evaluations]. rewrite Hr. cbn [results].
  rewrite (right_id_L ∅ (∪)).
  assert (Hfst : forall symbol,
             symbol ∈ (reverse (zip symbols rs)).*1 <-> symbol ∈ symbols).
  { intros symbol. rewrite fmap_reverse, elem_of_reverse. by rewrite fst_zip by lia. }
  split.
  - intros symbol. rewrite <- Hfst. split.
    + intros [r Hr']. apply list_elem_of_fmap. exists (symbol, r).
      split; [done|]. by apply elem_of_list_to_map_2.
    + intros Hin. apply not_eq_None_Some. intros Hnone.
      by apply not_elem_of_list_to_map in Hnone.
  - intros symbol r Hlook%elem_of_list_to_map_2.
    rewrite elem_of_reverse in Hlook.
    apply list_elem_of_lookup in Hlook as [i Hi].
    apply lookup_zip_with_Some in Hi as (x & y & [= <- <-] & Hx & Hy).
    exact (Forall2_lookup_lr _ _ _ _ _ _ Hsym Hx Hy).
Qed.

(** X15.  After an analysis that has fetched both the metrics and the
    price, an analysis of the same symbol for the same tolerance whose two
    readings of the clock fall within an hour of the start of the first
    returns the same analysis from the cache: it sends no request and only
    reads the clock twice. *)
Theorem second_analysis_from_cache symbol risk_tolerance s a s2 :
  monotone w ->
  analyze symbol risk_tolerance s = (inr (Analysed a), s2) ->
  length (requests s2) = S (S (length (requests s))) ->
  clock w (S (clock_reads s2)) < clock w (clock_reads s) + hours 1 ->
  analyze symbol risk_tolerance s2 = (inr (Analysed a), tick (tick s2)).
Proof.
  intros Hmono Han Hreq Hnear.
  destruct (analyze_inv _ _ _ _ _ _ _ _ _ _ Han)
    as (m & q & s1 & x & rest & Hm & Hq & Hc & ->).
  pose proof (perform_inv (GetPerformanceMetrics symbol) _ _ _ Hm) as Hm'.
  pose proof (perform_inv (GetStockPrice symbol) _ _ _ Hq) as Hq'.
  destruct Hm' as [(_ & ? & _)|[(_ & e & _ & _ & _ & ->)|
    (Hkey & _ & Hk1 & Hr1 & Hn1 & [[? _]|(_ & _ & _ & Hlt1 & Hc1)])]]; try done.
  { destruct Hq' as [(_ & ? & _)|[(_ & e' & _ & _ & _ & ->)|
      (_ & _ & _ & Hr2 & _)]]; try done.
    - cbn in Hreq. lia.
    - rewrite Hr2, length_app in Hreq. cbn in Hreq. lia. }
  destruct Hq' as [(_ & ? & _)|[(_ & e' & _ & _ & _ & ->)|
    (_ & _ & Hk2 & Hr2 & Hn2 & [[? _]|(_ & _ & _ & Hlt2 & Hc2)])]]; try done.
  { cbn in Hreq. rewrite Hr1, length_app in Hreq. cbn in Hreq. lia. }
  assert (Hkey2 : no_api_key s2 = false).
  { unfold no_api_key in *. by rewrite Hk2, Hk1. }
  assert (Hhit1 : performance_metrics symbol s2 = (Data (OfMetrics m), tick s2)).
  { apply (fresh_entry_hit (GetPerformanceMetrics symbol) s2
             (Entry (clock w (pred (clock_reads s1))) (Data (OfMetrics m))) Hkey2).
    - rewrite Hc2, lookup_insert_ne by done. rewrite Hc1. by rewrite lookup_insert_eq.
    - cbn [timestamp ttl_of].
      pose proof (Hmono (clock_reads s) (pred (clock_reads s1)) ltac:(lia)).
      pose proof (Hmono (clock_reads s2) (S (clock_reads s2)) ltac:(lia)).
      unfold hours, us_per_hour in *. lia. }
  assert (Hhit2 : stock_price symbol (tick s2) = (Data (OfQuote q), tick (tick s2))).
  { apply (fresh_entry_hit (GetStockPrice symbol) (tick s2)
             (Entry (clock w (pred (clock_reads s2))) (Data (OfQuote q))) Hkey2).
    - cbn [tick cache]. rewrite Hc2. by rewrite lookup_insert_eq.
    - cbn [timestamp ttl_of tick clock_reads].
      pose proof (Hmono (clock_reads s) (pred (clock_reads s2)) ltac:(lia)).
      lia. }
  exact (analyze_ok w str_exn float_of_string int_of_string strptime
           _ _ _ _ _ _ _ _ _ Hhit1 Hhit2 Hc).
Qed.

(** A call keeps the credential and sends at most one request; without a
    credential it leaves the state as it is. *)
Lemma call_frame o s r s' :
  run o s = (r, s') ->
  api_key s' = api_key s /\
  (length (requests s) <= length (requests s') <= length (requests s) + 1)%nat /\
  (no_api_key s = true -> s' = s).
Proof.
  intros Hop.
  destruct (perform_inv _ _ _ _ Hop)
    as [(Hkey & _ & ->)|[(Hkey & e & _ & _ & _ & ->)|(Hkey & _ & Hk & Hr & _)]].
  - repeat split; lia.
  - cbn. repeat split; try lia. congruence.
  - rewrite Hr, length_app. cbn. repeat split; try lia; congruence.
Qed.

(** ** Alternatives and diversification *)

Variable str_float : Q -> string.

Local Abbreviation find_alternatives :=
  (find_alternative_investments w str_exn float_of_string int_of_string strptime).
Local Abbreviation diversification :=
  (get_portfolio_diversification_recommendations w str_exn float_of_string
     int_of_string strptime str_float).

Lemma list_remove_sublist (x : string) (l : list string) :
  list_remove x l `sublist_of` l.
Proof.
  induction l as [|y l IH]; cbn; [done|].
  destruct (String.eqb y x); [by apply sublist_cons|by apply sublist_skip].
Qed.

Lemma list_remove_not_elem_of (x : string) (l : list string) :
  NoDup l -> x ∉ list_remove x l.
Proof.
  induction 1 as [|y l Hy Hl IH]; cbn; [apply not_elem_of_nil|].
  destruct (String.eqb_spec y x) as [->|Hne]; [done|].
  rewrite not_elem_of_cons. split; [congruence|done].
Qed.

Lemma slice_to_sublist {A} (count : Z) (l : list A) : slice_to count l `sublist_of` l.
Proof. unfold slice_to. destruct (0 <=? count); apply sublist_take. Qed.

Lemma slice_to_length {A} (count : Z) (l : list A) :
  0 <= count -> Z.of_nat (length (slice_to count l)) <= count.
Proof.
  intros Hc. unfold slice_to. destruct (Z.leb_spec 0 count); [|lia].
  rewrite length_take. lia.
Qed.

Lemma possible_alternatives_NoDup (risk_tolerance : string) :
  NoDup (possible_alternatives risk_tolerance).
Proof.
  unfold possible_alternatives, alternatives_map. cbn [dict_get].
  repeat case_scrutinee; cbn [default];
    apply (bool_decide_unpack _); vm_compute; reflexivity.
Qed.

(** What the loop adds to [results]. *)
Lemma alternatives_loop_spec candidates risk_tolerance count results s alts s' :
  alternatives_loop w str_exn float_of_string int_of_string strptime
    candidates risk_tolerance count results s = (inr alts, s') ->
  exists new,
    alts = results ++ new /\
    (map alt_symbol new `sublist_of` candidates) /\
    Forall (fun x => analysis_symbol (alt_analysis x) = alt_symbol x) new /\
    (count <= Z.of_nat (length results) -> (length new <= 1)%nat).
Proof.
  revert results s.
  induction candidates as [|c candidates IH]; intros results s; cbn.
  - unfold ret. intros [= <- <-]. exists []. rewrite (right_id_L [] (++)).
    repeat split; [done|constructor|cbn; lia].
  - unfold bind.
    destruct (analyze c risk_tolerance s) as [[e|r] s1] eqn:Ha; [done|].
    pose proof (analyze_symbol _ _ _ _ _ Ha) as Hsym.
    destruct r as [sym err|a]; cbn in Hsym.
    + destruct (Z.leb_spec count (Z.of_nat (length results))) as [Hfull|Hmore].
      * unfold ret. intros [= <- <-]. exists []. rewrite (right_id_L [] (++)).
        repeat split; [apply sublist_nil_l|constructor|cbn; lia].
      * intros (new & -> & Hsub & Hall & Hone)%IH. exists new.
        repeat split; [by apply sublist_cons|done|lia].
    + destruct (Z.leb_spec count (Z.of_nat (length (results ++ [Alternative c a]))))
        as [Hfull|Hmore].
      * unfold ret. intros [= <- <-]. exists [Alternative c a].
        repeat split; [cbn; apply sublist_skip, sublist_nil_l|by repeat constructor|].
        cbn. lia.
      * intros (new & -> & Hsub & Hall & Hone)%IH. exists (Alternative c a :: new).
        rewrite <- (assoc_L (++)). repeat split.
        -- cbn. by apply sublist_skip.
        -- by constructor.
        -- rewrite length_app in Hmore. cbn in Hmore. lia.
Qed.

(** X16.  The alternatives returned are analyses without error of
    candidates of the tolerance, each for its own symbol, in the order of
    the candidates and without repetition; the reference symbol is never
    among them; there are at most [count] of them, and at most one for a
    negative [count]. *)
Theorem alternatives_are_other_candidates symbol risk_tolerance count s alts s' :
  find_alternatives symbol risk_tolerance count s = (inr alts, s') ->
  (map alt_symbol alts `sublist_of` possible_alternatives risk_tolerance) /\
  NoDup (map alt_symbol alts) /\
  (symbol ∉ map alt_symbol alts) /\
  Forall (fun x => analysis_symbol (alt_analysis x) = alt_symbol x) alts /\
  (0 <= count -> Z.of_nat (length alts) <= count) /\
  (count < 0 -> (length alts <= 1)%nat).
Proof.
  unfold find_alternative_investments.
  pose proof (possible_alternatives_NoDup risk_tolerance) as Hnd.
  set (possible := possible_alternatives risk_tolerance) in *.
  set (rest := if bool_decide _ then _ else _).
  assert (Hrest : rest `sublist_of` possible /\ symbol ∉ rest).
  { subst rest. case_bool_decide as Hin.
    - split; [apply list_remove_sublist|by apply list_remove_not_elem_of].
    - done. }
  destruct Hrest as [Hsub Hnot]. clearbody rest.
  intros (new & -> & Hnew & Hall & Hone)%alternatives_loop_spec.
  rewrite (left_id_L [] (++)).
  assert (Hcand : map alt_symbol new `sublist_of` rest)
    by (transitivity (slice_to count rest); [exact Hnew|apply slice_to_sublist]).
  split; [transitivity rest; [exact Hcand|exact Hsub]|]. split.
  { apply (sublist_NoDup _ possible); [exact Hnd|].
    transitivity rest; [exact Hcand|exact Hsub]. }
  split.
  { intros Hin. apply Hnot. exact (elem_of_sublist _ _ _ Hin Hcand). }
  split; [done|]. split.
  - intros Hc. pose proof (sublist_length _ _ Hnew) as Hlen.
    rewrite length_map in Hlen.
    pose proof (slice_to_length count rest Hc). lia.
  - intros Hc. apply Hone. cbn. lia.
Qed.

(** An analysis sends at most two requests and keeps the credential. *)
Lemma analyze_requests symbol risk_tolerance s r s' :
  analyze symbol risk_tolerance s = (r, s') ->
  api_key s' = api_key s /\
  (length (requests s) <= length (requests s') <= length (requests s) + 2)%nat /\
  (no_api_key s = true -> s' = s).
Proof.
  unfold analyze_etf_for_investment, bind, call, lift, ret.
  destruct (performance_metrics symbol s) as [r1 s1] eqn:Hm.
  destruct (stock_price symbol s1) as [r2 s2] eqn:Hq.
  assert (Hs2 : api_key s2 = api_key s /\
                (length (requests s) <= length (requests s2)
                 <= length (requests s) + 2)%nat /\
                (no_api_key s = true -> s2 = s)).
  { pose proof (call_frame (GetPerformanceMetrics symbol) _ _ _ Hm) as (Hk1 & Hr1 & Hn1).
    pose proof (call_frame (GetStockPrice symbol) _ _ _ Hq) as (Hk2 & Hr2 & Hn2).
    split; [congruence|]. split; [lia|].
    intros Hkey. rewrite (Hn1 Hkey) in *. by apply Hn2. }
  intros H. assert (s' = s2) as ->; [|done].
  revert H. repeat case_scrutinee; by intros [= _ <-].
Qed.

Lemma possible_alternatives_length (risk_tolerance : string) :
  (length (possible_alternatives risk_tolerance) <= 5)%nat.
Proof.
  unfold possible_alternatives, alternatives_map. cbn [dict_get].
  repeat case_scrutinee; cbn; lia.
Qed.

Lemma alternatives_loop_requests candidates risk_tolerance count results s res s' :
  alternatives_loop w str_exn float_of_string int_of_string strptime
    candidates risk_tolerance count results s = (res, s') ->
  (length (requests s) <= length (requests s')
   <= length (requests s) + 2 * length candidates)%nat /\
  (count <= Z.of_nat (length results) ->
   (length (requests s') <= length (requests s) + 2)%nat) /\
  (no_api_key s = true -> res = inr results /\ s' = s).
Proof.
  revert results s.
  induction candidates as [|c candidates IH]; intros results s; cbn [alternatives_loop].
  - unfold ret. intros [= <- <-]. cbn. split; [lia|]. split; [lia|done].
  - unfold bind.
    destruct (analyze c risk_tolerance s) as [[e|r] s1] eqn:Ha.
    + intros [= <- <-].
      destruct (analyze_requests _ _ _ _ _ Ha) as (_ & Hr & Hn).
      cbn [length]. split; [lia|]. split; [lia|].
      intros Hkey. rewrite (analyze_no_key _ _ _ Hkey) in Ha. done.
    + destruct (analyze_requests _ _ _ _ _ Ha) as (Hk & Hr & Hn).
      set (results' := match r with Analysed a => _ | Failed _ _ => results end).
      assert (Hgrow : (length results <= length results')%nat).
      { subst results'. destruct r; [lia|]. rewrite length_app. lia. }
      assert (Hnokey : no_api_key s = true -> results' = results /\ s1 = s).
      { intros Hkey. rewrite (analyze_no_key _ _ _ Hkey) in Ha.
        injection Ha as <- <-. done. }
      clearbody results'.
      destruct (Z.leb_spec count (Z.of_nat (length results'))) as [Hfull|Hmore].
      * unfold ret. intros [= <- <-]. cbn [length]. split; [lia|]. split; [lia|].
        intros Hkey. by destruct (Hnokey Hkey) as [-> ->].
      * intros (Hr' & _ & Hn')%IH. cbn [length]. split; [lia|]. split; [lia|].
        intros Hkey. destruct (Hnokey Hkey) as [-> ->]. by apply Hn'.
Qed.

(** X17.  A search for alternatives, whatever it returns, sends at most
    ten requests, since it analyses at most five candidates; at most two
    per alternative asked for; and at most two for a negative [count].
    Without a credential it returns no alternative and leaves the client
    as it was. *)
Theorem alternatives_cost symbol risk_tolerance count s res s' :
  find_alternatives symbol risk_tolerance count s = (res, s') ->
  (length (requests s) <= length (requests s') <= length (requests s) + 10)%nat /\
  (0 <= count ->
   Z.of_nat (length (requests s')) <= Z.of_nat (length (requests s)) + 2 * count) /\
  (count < 0 -> (length (requests s') <= length (requests s) + 2)%nat) /\
  (no_api_key s = true -> res = inr [] /\ s' = s).
Proof.
  unfold find_alternative_investments.
  pose proof (possible_alternatives_length risk_tolerance) as Hfive.
  set (possible := possible_alternatives risk_tolerance) in *.
  set (rest := if bool_decide _ then _ else _).
  assert (Hrest : (length rest <= 5)%nat).
  { subst rest. case_bool_decide; [|done].
    pose proof (sublist_length _ _ (list_remove_sublist symbol possible)). lia. }
  clearbody rest.
  intros (Hr & Hone & Hn)%alternatives_loop_requests.
  pose proof (sublist_length _ _ (slice_to_sublist count rest)) as Hslice.
  split; [lia|]. split; [|split; [|done]].
  - intros Hc. pose proof (slice_to_length count rest Hc). lia.
  - intros Hc. apply Hone. cbn. lia.
Qed.

(** *** Dictionaries *)

Lemma dict_get_set_eq {A} (k : string) (v : A) (d : list (string * A)) :
  dict_get k (dict_set k v d) = Some v.
Proof.
  induction d as [|[k' v'] d IH]; cbn.
  - by rewrite String.eqb_refl.
  - destruct (String.eqb k' k) eqn:Hk; cbn.
    + by rewrite String.eqb_refl.
    + by rewrite Hk.
Qed.

Lemma dict_get_set_ne {A} (k k' : string) (v : A) (d : list (string * A)) :
  k <> k' -> dict_get k' (dict_set k v d) = dict_get k' d.
Proof.
  intros Hne. induction d as [|[k0 v0] d IH]; cbn.
  - by destruct (String.eqb_spec k k').
  - destruct (String.eqb_spec k0 k) as [->|Hk]; cbn.
    + destruct (String.eqb_spec k k'); [done|]. reflexivity.
    + by rewrite IH.
Qed.

Lemma allocated_dict_set (k : string) (v : Z) (d : list (string * Z)) :
  allocated (dict_set k v d) = allocated d - default 0 (dict_get k d) + v.
Proof.
  unfold allocated. induction d as [|[k0 v0] d IH]; cbn; [lia|].
  destruct (String.eqb k0 k); cbn; lia.
Qed.

(** *** The count of the sectors *)

Lemma count_sectors_fold (symbols : list string) (d : list (string * Z)) :
  let d' := fold_left
              (fun sectors symbol =>
                 let sector := sector_of symbol in
                 dict_set sector (default 0 (dict_get sector sectors) + 1) sectors)
              symbols d in
  (forall sector,
     dict_get sector d'
     = if occurrences sector symbols =? 0 then dict_get sector d
       else Some (default 0 (dict_get sector d) + occurrences sector symbols))
  /\ allocated d' = allocated d + Z.of_nat (length symbols).
Proof.
  revert d. induction symbols as [|symbol symbols IH]; intros d.
  - cbn [fold_left length]. split; [done|lia].
  - cbn [fold_left]. destruct (IH (dict_set (sector_of symbol)
       (default 0 (dict_get (sector_of symbol) d) + 1) d)) as [Hget Hsum].
    split.
    + intros sector. rewrite Hget. unfold occurrences. cbn [List.filter].
      destruct (String.eqb_spec (sector_of symbol) sector) as [<-|Hne].
      * rewrite dict_get_set_eq. cbn [length default].
        set (n := length _). clearbody n.
        destruct (Z.eqb_spec (Z.of_nat n) 0) as [Hz|Hz].
        -- destruct (Z.eqb_spec (Z.of_nat (S n)) 0); [lia|]. f_equal. lia.
        -- destruct (Z.eqb_spec (Z.of_nat (S n)) 0); [lia|]. f_equal. unfold id. lia.
      * by rewrite dict_get_set_ne.
    + etrans; [exact Hsum|]. rewrite allocated_dict_set. cbn [length]. lia.
Qed.

Lemma count_sectors_get (symbols : list string) (sector : string) :
  dict_get sector (count_sectors symbols)
  = if occurrences sector symbols =? 0 then None
    else Some (occurrences sector symbols).
Proof.
  destruct (count_sectors_fold symbols []) as [Hget _].
  unfold count_sectors. rewrite Hget. cbn. by destruct (_ =? 0).
Qed.

Lemma occurrences_zero (sector : string) (symbols : list string) :
  occurrences sector symbols = 0 <->
  forall symbol, symbol ∈ symbols -> sector_of symbol <> sector.
Proof.
  unfold occurrences. induction symbols as [|symbol symbols IH]; cbn [List.filter].
  - split; [by intros _ ? ?%elem_of_nil|done].
  - destruct (String.eqb_spec (sector_of symbol) sector) as [Heq|Hne]; cbn [length].
    + split; [lia|]. intros H. destruct (H symbol); [left|done].
    + rewrite IH. split.
      * intros H sym [->|Hin]%elem_of_cons; [done|by apply H].
      * intros H sym Hin. apply H. by right.
Qed.

(** What a call that returns has computed. *)
Lemma diversification_inv symbols risk_tolerance s rec s' :
  diversification symbols risk_tolerance s = (inr rec, s') ->
  exists sector_data s1 ev top,
    get_sector_performance w str_exn s = (sector_data, s1) /\
    evaluate symbols risk_tolerance s1 = (inr ev, s') /\
    top_performing float_of_string str_float sector_data = inr top /\
    rec = Recommendations (missing_of (count_sectors symbols)) (count_sectors symbols)
            (suggested risk_tolerance (missing_of (count_sectors symbols))) top.
Proof.
  unfold get_portfolio_diversification_recommendations, bind, call, lift, ret.
  destruct (get_sector_performance w str_exn s) as [sector_data s1].
  destruct (evaluate symbols risk_tolerance s1) as [[e|ev] s2] eqn:Hev; [done|].
  destruct (top_performing _ _ sector_data) as [e|top] eqn:Htop; [done|].
  intros [= <- <-]. by exists sector_data, s1, ev, top.
Qed.

(** X18.  The sector allocation of the recommendations gives, for every
    sector with a symbol of the portfolio in it, the number of those
    symbols, a symbol outside the table of sectors counting for "Unknown";
    a sector without a symbol has no entry, and the counts add up to the
    number of symbols. *)
Theorem sector_allocation_counts symbols risk_tolerance s rec s' :
  diversification symbols risk_tolerance s = (inr rec, s') ->
  (forall sector n,
     dict_get sector (sector_allocation rec) = Some n <->
     0 < n /\ n = occurrences sector symbols)
  /\ allocated (sector_allocation rec) = Z.of_nat (length symbols).
Proof.
  intros (sector_data & s1 & ev & top & _ & _ & _ & ->)%diversification_inv.
  cbn [sector_allocation]. split.
  - intros sector n. rewrite count_sectors_get.
    assert (0 <= occurrences sector symbols) by (unfold occurrences; lia).
    destruct (Z.eqb_spec (occurrences sector symbols) 0).
    + split; [done|lia].
    + split; [intros [= <-]; lia|intros [_ ->]; done].
  - destruct (count_sectors_fold symbols []) as [_ Hsum]. exact Hsum.
Qed.

Lemma missing_of_count (symbols : list string) :
  missing_of (count_sectors symbols)
  = List.filter (fun sector => occurrences sector symbols =? 0) key_sectors.
Proof.
  unfold missing_of. generalize key_sectors. intros l.
  induction l as [|sector l IH]; [done|].
  cbn [List.filter]. rewrite IH, count_sectors_get.
  destruct (occurrences sector symbols =? 0).
  - case_bool_decide as H; [by destruct H|done].
  - case_bool_decide as H; [done|]. destruct H. by eexists.
Qed.

Lemma suggested_sectors (risk_tolerance : string) (missing : list string) :
  missing ⊆ key_sectors ->
  map addition_sector (suggested risk_tolerance missing) = missing.
Proof.
  induction missing as [|sector missing IH]; intros Hsub; [done|].
  assert (Hin : sector ∈ key_sectors) by (apply Hsub; left).
  assert (Hrest : missing ⊆ key_sectors) by (intros x Hx; apply Hsub; by right).
  unfold suggested in *. cbn [omap]. unfold key_sectors in Hin.
  specialize (IH Hrest).
  repeat (apply elem_of_cons in Hin as [->|Hin];
          [cbn; f_equal; exact IH|]).
  by apply elem_of_nil in Hin.
Qed.

(** X19.  The missing sectors of the recommendations are the key sectors,
    in their order, that no symbol of the portfolio belongs to, and the
    suggested additions name exactly these sectors, in the same order, one
    addition each. *)
Theorem one_suggestion_per_missing_sector symbols risk_tolerance s rec s' :
  diversification symbols risk_tolerance s = (inr rec, s') ->
  (missing_sectors rec `sublist_of` key_sectors) /\
  (forall sector,
     sector ∈ missing_sectors rec <->
     sector ∈ key_sectors /\
     forall symbol, symbol ∈ symbols -> sector_of symbol <> sector) /\
  map addition_sector (suggested_additions rec) = missing_sectors rec.
Proof.
  intros (sector_data & s1 & ev & top & _ & _ & _ & ->)%diversification_inv.
  cbn [missing_sectors suggested_additions].
  assert (Hin : forall sector,
             sector ∈ missing_of (count_sectors symbols) <->
             sector ∈ key_sectors /\
             forall symbol, symbol ∈ symbols -> sector_of symbol <> sector).
  { intros sector. rewrite missing_of_count, <- occurrences_zero.
    rewrite !list_elem_of_In, filter_In. by rewrite Z.eqb_eq. }
  split; [|split; [exact Hin|]].
  - rewrite missing_of_count. generalize key_sectors. intros l.
    induction l as [|x l IH]; cbn; [done|].
    destruct (_ =? 0); [by apply sublist_skip|by apply sublist_cons].
  - apply suggested_sectors. intros sector Hs. by apply Hin.
Qed.

Lemma occurrences_app (sector : string) (l1 l2 : list string) :
  occurrences sector (l1 ++ l2) = occurrences sector l1 + occurrences sector l2.
Proof. unfold occurrences. rewrite List.filter_app, length_app. lia. Qed.

Lemma occurrences_sum_zero (sector : string) (l1 l2 : list string) :
  (occurrences sector (l1 ++ l2) =? 0)
  = (occurrences sector l1 =? 0) && (occurrences sector l2 =? 0).
Proof.
  rewrite occurrences_app.
  assert (0 <= occurrences sector l1) by (unfold occurrences; lia).
  assert (0 <= occurrences sector l2) by (unfold occurrences; lia).
  destruct (Z.eqb_spec (occurrences sector l1) 0),
    (Z.eqb_spec (occurrences sector l2) 0),
    (Z.eqb_spec (occurrences sector l1 + occurrences sector l2) 0); cbn; lia.
Qed.

Lemma missing_after_additions (symbols : list string) (risk_tolerance : string) :
  let missing := missing_of (count_sectors symbols) in
  missing_of (count_sectors
                (symbols ++ map addition_symbol (suggested risk_tolerance missing)))
  = if String.eqb risk_tolerance "low"
    then (if bool_decide ("US Stocks" ∈ missing) then ["US Stocks"] else [])
    else [].
Proof.
  cbv zeta. rewrite !missing_of_count. unfold key_sectors. cbn [List.filter].
  rewrite !occurrences_sum_zero.
  destruct (occurrences "US Stocks" symbols =? 0),
    (occurrences "International Stocks" symbols =? 0),
    (occurrences "US Bonds" symbols =? 0),
    (occurrences "Real Estate" symbols =? 0),
    (String.eqb risk_tolerance "low") eqn:Hlow;
    unfold suggested; cbn [omap list_omap suggestion String.eqb Ascii.eqb Bool.eqb];
    rewrite ?Hlow; vm_compute; reflexivity.
Qed.

(** X20.  For a tolerance other than "low", a portfolio extended by the
    symbols of the suggested additions has no missing sector.  For the
    tolerance "low" the suggestion for "US Stocks" is VIG, which the table
    of sectors does not list: after the additions "US Stocks" is still
    missing if it was, and nothing else is. *)
Theorem additions_fill_the_gaps symbols risk_tolerance s rec s' s0 rec0 s0' :
  diversification symbols risk_tolerance s = (inr rec, s') ->
  diversification (symbols ++ map addition_symbol (suggested_additions rec))
    risk_tolerance s0 = (inr rec0, s0') ->
  (risk_tolerance <> "low" -> missing_sectors rec0 = []) /\
  (risk_tolerance = "low" ->
   missing_sectors rec0
   = if bool_decide ("US Stocks" ∈ missing_sectors rec) then ["US Stocks"] else []).
Proof.
  intros (? & ? & ? & ? & _ & _ & _ & ->)%diversification_inv.
  cbn [suggested_additions missing_sectors].
  intros (? & ? & ? & ? & _ & _ & _ & ->)%diversification_inv.
  cbn [missing_sectors]. rewrite missing_after_additions.
  split.
  - intros Hne. by destruct (String.eqb_spec risk_tolerance "low").
  - intros ->. reflexivity.
Qed.

(** *** The best sectors *)








(** X22.  The recommendations carry top performing sectors only with a
    sector table: none after an error of the sector call, none when the
    table is a string; when the table is neither an object nor a string
    the call raises an attribute error, after the portfolio has been
    evaluated. *)
Theorem sector_table_kinds symbols risk_tolerance s sector_data s1 ev s2 :
  get_sector_performance w str_exn s = (sector_data, s1) ->
  evaluate symbols risk_tolerance s1 = (inr ev, s2) ->
  (is_error sector_data = true ->
   exists rec, diversification symbols risk_tolerance s = (inr rec, s2) /\
               top_performing_sectors rec = None)
  /\ (forall t, sector_data = Data (OfSectors t) ->
        match sectors t with
        | JStr _ =>
            exists rec, diversification symbols risk_tolerance s = (inr rec, s2) /\
                        top_performing_sectors rec = None
        | JObj _ =>
            exists rec top, diversification symbols risk_tolerance s = (inr rec, s2) /\
                            top_performing_sectors rec = Some top
        | _ => diversification symbols risk_tolerance s = (inl AttributeError, s2)
        end).
Proof.
  intros Hsec Hev.
  unfold get_portfolio_diversification_recommendations, bind, call, lift, ret.
  rewrite Hsec, Hev. split.
  - intros Herr. destruct sector_data as [msg|d]; [|done]. cbn. eauto.
  - intros t ->. cbn. destruct (sectors t); cbn; eauto.
Qed.

End ClientFrame.

(** ** The feedback handlers side by side *)

Section FeedbackHandlers.

Variable json_loads : string -> option json.
Variable json_dumps : json -> string.
Variable feedback_agent : string -> string.

(** The test of the extraction code holds exactly for a text with a span
    from a first opening brace to a last closing one. *)
Lemma guard_iff_span (text : string) :
  (0 <=? PyStr.find lbrace text)
  && (PyStr.find lbrace text <? PyStr.rfind rbrace text + 1) = true <->
  exists pre mid post,
    text = pre +:+ braced mid +:+ post /\
    PyStr.mem lbrace pre = false /\ PyStr.mem rbrace post = false.
Proof.
  split.
  - intros Hguard.
    destruct (extract_json_response (fun _ => Some JNull) text) as [v|] eqn:Hex.
    + apply extract_succeeds_span in Hex as (pre & mid & post & ? & ? & ? & _).
      by exists pre, mid, post.
    + unfold extract_json_response in Hex. by rewrite Hguard in Hex.
  - intros (pre & mid & post & -> & Hpre & Hpost).
    pose proof (extract_span (fun _ => Some JNull) pre mid post Hpre Hpost) as Hex.
    unfold extract_json_response in Hex.
    by destruct (_ && _).
Qed.

(** X23.  The handlers of src/workflow.py, src/workflow1.py and
    src/main.py agree on a reply from which the extraction succeeds: each
    returns the decoded object.  On any other reply the first returns the
    default analysis and the third [None]; the second returns the default
    only for a reply without a brace-delimited span, and raises for a
    reply whose span does not decode. *)
Theorem feedback_handlers_compared user_feedback structured_goal strategy :
  let reply :=
    feedback_agent (feedback_message json_dumps user_feedback structured_goal strategy) in
  let here := process_feedback json_loads json_dumps feedback_agent
                user_feedback structured_goal strategy in
  let unguarded := Workflow1.process_feedback json_loads json_dumps feedback_agent
                     user_feedback structured_goal strategy in
  let bare := Main.process_feedback json_loads json_dumps feedback_agent
                user_feedback structured_goal strategy in
  (forall v, extract_json_response json_loads reply = Some v ->
     here = v /\ unguarded = inr v /\ bare = Some v)
  /\ (extract_json_response json_loads reply = None ->
      here = default_feedback_analysis /\ bare = None /\
      (unguarded = inl ValueError <->
       exists pre mid post,
         reply = pre +:+ braced mid +:+ post /\
         PyStr.mem lbrace pre = false /\ PyStr.mem rbrace post = false) /\
      (unguarded <> inl ValueError -> unguarded = inr default_feedback_analysis)).
Proof.
  intros reply here unguarded bare.
  subst here unguarded bare.
  unfold process_feedback, Workflow1.process_feedback, Main.process_feedback.
  fold reply. rewrite <- guard_iff_span.
  unfold extract_json_response.
  destruct ((0 <=? PyStr.find lbrace reply)
            && (PyStr.find lbrace reply <? PyStr.rfind rbrace reply + 1)).
  - destruct (json_loads _) as [v|].
    + split; [by intros ? [= <-]|done].
    + split; [done|]. intros _. repeat split; done.
  - split; [done|]. intros _. repeat split; try done.
Qed.

(** X24.  [_wait_for_json_response] raises exactly when the chat has no
    message of the agent; otherwise it returns what the extraction finds
    in the last message of the agent, later messages of others
    notwithstanding, and the empty object when the extraction fails. *)
Theorem wait_for_json_response_cases chat agent_name :
  (Main1._wait_for_json_response json_loads chat agent_name = inl ValueError <->
   forall content, (agent_name, content) ∉ chat)
  /\ (forall before content after,
        chat = before ++ (agent_name, content) :: after ->
        (forall content', (agent_name, content') ∉ after) ->
        Main1._wait_for_json_response json_loads chat agent_name
        = inr (default (JObj []) (extract_json_response json_loads content))).
Proof.
  unfold Main1._wait_for_json_response.
  set (mine := List.filter _ chat).
  assert (Hmine : forall sender content,
             (sender, content) ∈ mine <-> sender = agent_name /\ (sender, content) ∈ chat).
  { intros sender content. subst mine. rewrite !list_elem_of_In, filter_In. cbn.
    rewrite String.eqb_eq. tauto. }
  split.
  - split.
    + destruct (last mine) as [msg|] eqn:Hlast.
      { repeat case_scrutinee; done. }
      intros _ content Hin. apply last_None in Hlast.
      assert (Hm : (agent_name, content) ∈ mine) by (by apply Hmine).
      rewrite Hlast in Hm. by apply elem_of_nil in Hm.
    + intros Hnone. destruct (last mine) as [[sender content]|] eqn:Hlast; [|done].
      apply last_Some in Hlast as [l' Hl'].
      assert (Hm : (sender, content) ∈ mine).
      { rewrite Hl'. apply elem_of_app. right. left. }
      apply Hmine in Hm as [-> Hin]. by destruct (Hnone content).
  - intros before content after -> Hafter. subst mine.
    rewrite List.filter_app. cbn [List.filter fst]. rewrite String.eqb_refl.
    assert (List.filter (fun msg => String.eqb (fst msg) agent_name) after = []) as ->.
    { clear -Hafter. induction after as [|[sender c] after IH]; cbn; [done|].
      destruct (String.eqb_spec sender agent_name) as [->|Hne].
      - destruct (Hafter c). left.
      - apply IH. intros c' Hin. apply (Hafter c'). by right. }
    rewrite last_snoc. cbn [snd]. unfold extract_json_response.
    repeat case_scrutinee; reflexivity.
Qed.

End FeedbackHandlers.

(** ** The further properties at the sample clients *)

(** X2 at the first quote of VTI. *)
Lemma call_touches_own_entry_only_witness :
  Sample.perform (GetStockPrice "VTI") Sample.fresh
  = (Sample.first_quote, Sample.after_first_quote) /\
  api_key Sample.after_first_quote = api_key Sample.fresh /\
  (requests Sample.after_first_quote = requests Sample.fresh
   \/ requests Sample.after_first_quote
      = requests Sample.fresh ++ [request_of (GetStockPrice "VTI") Sample.fresh]) /\
  (clock_reads Sample.fresh <= clock_reads Sample.after_first_quote)%nat /\
  forall o', o' <> GetStockPrice "VTI" ->
    cache Sample.after_first_quote !! key_of o' = cache Sample.fresh !! key_of o'.
Proof.
  assert (E : Sample.perform (GetStockPrice "VTI") Sample.fresh
              = (Sample.first_quote, Sample.after_first_quote))
    by (vm_compute; reflexivity).
  split; [exact E|].
  exact (call_touches_own_entry_only Sample.w Lib.str_exn Lib.float_of_string
           Lib.int_of_string Lib.strptime _ _ _ _ E).
Defined.

(** X3 at a second quote of VTI, a second after the first. *)
Lemma entry_served_while_fresh_witness :
  no_api_key Sample.after_first_quote = false /\
  cache Sample.after_first_quote !! key_of (GetStockPrice "VTI")
  = Some (Entry (Sample.clock 1) Sample.first_quote) /\
  Sample.clock (clock_reads Sample.after_first_quote) - Sample.clock 1 < hours 1 /\
  Sample.perform (GetStockPrice "VTI") Sample.after_first_quote
  = (Sample.first_quote, tick Sample.after_first_quote).
Proof.
  assert (Hlook : cache Sample.after_first_quote !! key_of (GetStockPrice "VTI")
                  = Some (Entry (Sample.clock 1) Sample.first_quote))
    by (vm_compute; reflexivity).
  assert (Hfresh : Sample.clock (clock_reads Sample.after_first_quote) - Sample.clock 1
                   < hours 1) by (vm_compute; reflexivity).
  split; [reflexivity|]. split; [exact Hlook|]. split; [exact Hfresh|].
  exact (proj1 (entry_served_while_fresh Sample.w Lib.str_exn Lib.float_of_string
                  Lib.int_of_string Lib.strptime (GetStockPrice "VTI")
                  Sample.after_first_quote _ eq_refl Hlook) Hfresh).
Defined.

(** X4 at the metrics of VTI asked for twice. *)
Lemma result_reused_within_ttl_witness :
  Sample.perform (GetPerformanceMetrics "VTI") Sample.fresh
  = (Data (OfMetrics Sample.vti_metrics), Sample.after_metrics) /\
  requests Sample.after_metrics <> requests Sample.fresh /\
  clock Sample.w (clock_reads Sample.after_metrics)
  < clock Sample.w (clock_reads Sample.fresh) + ttl_of (GetPerformanceMetrics "VTI") /\
  Sample.perform (GetPerformanceMetrics "VTI") Sample.after_metrics
  = (Data (OfMetrics Sample.vti_metrics), tick Sample.after_metrics).
Proof.
  assert (Hreq : requests Sample.after_metrics <> requests Sample.fresh)
    by (vm_compute; discriminate).
  assert (Hnear : clock Sample.w (clock_reads Sample.after_metrics)
                  < clock Sample.w (clock_reads Sample.fresh)
                    + ttl_of (GetPerformanceMetrics "VTI"))
    by (vm_compute; reflexivity).
  split; [exact sample_metrics|]. split; [exact Hreq|]. split; [exact Hnear|].
  exact (result_reused_within_ttl Sample.w Lib.str_exn Lib.float_of_string
           Lib.int_of_string Lib.strptime (GetPerformanceMetrics "VTI") Sample.fresh
           _ _ sample_clock_monotone sample_metrics eq_refl Hreq Hnear).
Defined.

(** X5 at a provider that cannot be reached. *)
Lemma provider_exception_becomes_error_witness :
  perform SampleTool.unreachable Lib.str_exn Lib.float_of_string Lib.int_of_string
    Lib.strptime (GetEtfOverview "VTI") Sample.fresh
  = (Error "Connection refused",
     sent (request_of (GetEtfOverview "VTI") Sample.fresh) Sample.fresh).
Proof.
  exact (provider_exception_becomes_error SampleTool.unreachable Lib.str_exn
           Lib.float_of_string Lib.int_of_string Lib.strptime (GetEtfOverview "VTI")
           Sample.fresh Sample.fresh (RequestException "Connection refused")
           eq_refl eq_refl eq_refl).
Defined.

(** X6 at a symbol the provider does not know. *)
Lemma reply_without_data_is_not_found_witness :
  lacks_data (GetStockPrice "NONE") (JObj []) /\
  Sample.perform (GetStockPrice "NONE") Sample.fresh
  = (Error "No data found for symbol NONE",
     sent (request_of (GetStockPrice "NONE") Sample.fresh) Sample.fresh).
Proof.
  assert (Hlacks : lacks_data (GetStockPrice "NONE") (JObj [])) by (left; reflexivity).
  split; [exact Hlacks|].
  exact (reply_without_data_is_not_found Sample.w Lib.str_exn Lib.float_of_string
           Lib.int_of_string Lib.strptime (GetStockPrice "NONE") Sample.fresh
           Sample.fresh (JObj []) eq_refl eq_refl eq_refl Hlacks).
Defined.

(** X7 at the metrics of VTI on a new client. *)
Lemma results_answer_the_call_witness :
  cache_sound Sample.after_metrics /\
  forall d, Data (OfMetrics Sample.vti_metrics) = Data d ->
            answers (GetPerformanceMetrics "VTI") d.
Proof.
  exact (results_answer_the_call Sample.w Lib.str_exn Lib.float_of_string
           Lib.int_of_string Lib.strptime (GetPerformanceMetrics "VTI") Sample.fresh
           _ _ (cache_sound_new _) sample_metrics).
Defined.

(** X8 at the analysis of VTI for a medium tolerance: a volatility of 19
    points. *)
Lemma risk_match_by_volatility_witness :
  (risk_match Sample.vti_analysis = true ->
   ("medium" = "low" /\ volatility Sample.vti_analysis <= 2250)
   \/ ("medium" = "medium" /\ 1750 <= volatility Sample.vti_analysis <= 3750)
   \/ ("medium" = "high" /\ 3250 <= volatility Sample.vti_analysis))
  /\ (("medium" = "low" /\ volatility Sample.vti_analysis < 2250)
      \/ ("medium" = "medium" /\ 1750 < volatility Sample.vti_analysis < 3750)
      \/ ("medium" = "high" /\ 3250 < volatility Sample.vti_analysis) ->
      risk_match Sample.vti_analysis = true).
Proof.
  exact (risk_match_by_volatility Sample.w Lib.str_exn Lib.float_of_string
           Lib.int_of_string Lib.strptime "VTI" "medium" Sample.fresh
           Sample.vti_analysis Sample.after_quote sample_analysis_medium).
Defined.

Lemma sample_bond_analysis :
  Sample.analyze "BND" "medium" Sample.fresh
  = (inr (Analysed SampleTool.bond_analysis), SampleTool.after_bond_analysis).
Proof. vm_compute. reflexivity. Qed.

(** X9 at the analyses of BND and of VTI: volatilities of 5 and of 19
    points. *)
Lemma risk_score_monotone_witness :
  volatility SampleTool.bond_analysis < volatility Sample.vti_analysis /\
  risk_score SampleTool.bond_analysis <= risk_score Sample.vti_analysis.
Proof.
  assert (Hlt : volatility SampleTool.bond_analysis < volatility Sample.vti_analysis)
    by (vm_compute; reflexivity).
  split; [exact Hlt|].
  exact (risk_score_monotone Sample.w Lib.str_exn Lib.float_of_string
           Lib.int_of_string Lib.strptime "BND" "medium" Sample.fresh
           SampleTool.bond_analysis SampleTool.after_bond_analysis
           "VTI" "medium" Sample.fresh Sample.vti_analysis Sample.after_quote
           sample_bond_analysis sample_analysis_medium Hlt).
Defined.

(** X10 at the analysis of VTI: a year's change of 18 percent and a
    matching risk. *)
Lemma recommendation_cases_witness :
  (recommendation Sample.vti_analysis = "buy" <->
   risk_match Sample.vti_analysis = true /\
   exists v d, dict_get "1yr" (analysis_performance Sample.vti_analysis)
               = Some (Change v d) /\ 1500 < v)
  /\ (recommendation Sample.vti_analysis = "avoid" <->
      exists v d, dict_get "1yr" (analysis_performance Sample.vti_analysis)
                  = Some (Change v d) /\ v < -1000)
  /\ (recommendation Sample.vti_analysis = "buy"
      \/ recommendation Sample.vti_analysis = "avoid"
      \/ recommendation Sample.vti_analysis = "hold").
Proof.
  exact (recommendation_cases Sample.w Lib.str_exn Lib.float_of_string
           Lib.int_of_string Lib.strptime "VTI" "medium" Sample.fresh _ _
           sample_analysis_medium).
Defined.

(** X11 at a symbol the provider does not know: the analysis fails with
    the message of the metrics, after two requests. *)
Lemma analysis_reports_first_error_witness :
  exists s1 s2,
    Sample.get_performance_metrics "NONE" Sample.fresh
    = (Error "No data found for symbol NONE", s1) /\
    Sample.get_stock_price "NONE" s1 = (Error "No data found for symbol NONE", s2) /\
    Sample.analyze "NONE" "low" Sample.fresh
    = (inr (Failed "NONE" (Some "No data found for symbol NONE")), s2) /\
    length (requests s2) = 2%nat.
Proof.
  exists (snd (Sample.get_performance_metrics "NONE" Sample.fresh)).
  exists (snd (Sample.get_stock_price "NONE"
                 (snd (Sample.get_performance_metrics "NONE" Sample.fresh)))).
  assert (Hm : Sample.get_performance_metrics "NONE" Sample.fresh
               = (Error "No data found for symbol NONE",
                  snd (Sample.get_performance_metrics "NONE" Sample.fresh)))
    by (vm_compute; reflexivity).
  assert (Hq : Sample.get_stock_price "NONE"
                 (snd (Sample.get_performance_metrics "NONE" Sample.fresh))
               = (Error "No data found for symbol NONE",
                  snd (Sample.get_stock_price "NONE"
                         (snd (Sample.get_performance_metrics "NONE" Sample.fresh)))))
    by (vm_compute; reflexivity).
  split; [exact Hm|]. split; [exact Hq|]. split; [|vm_compute; reflexivity].
  exact (proj1 (analysis_reports_first_error Sample.w Lib.str_exn Lib.float_of_string
                  Lib.int_of_string Lib.strptime "NONE" "low" Sample.fresh _ _ _ _
                  Hm Hq) _ eq_refl ltac:(discriminate)).
Defined.

(** X12 at a client created without a credential. *)
Lemma evaluation_without_credential_witness :
  Sample.evaluate ["VTI"; "BND"] "medium" (new_client None)
  = (inr (Evaluation
            (by_symbol ["VTI"; "BND"]
               [Failed "VTI" (Some "API key not set");
                Failed "BND" (Some "API key not set")])
            (PortfolioMetrics 2 0 0 0 0)), new_client None).
Proof.
  exact (evaluation_without_credential Sample.w Lib.str_exn Lib.float_of_string
           Lib.int_of_string Lib.strptime ["VTI"; "BND"] "medium" (new_client None)
           eq_refl).
Defined.

(** X13 at the portfolio of three funds. *)
Lemma portfolio_figures_bounded_witness :
  let pm := metrics_of Sample.three_evaluation in
  total_symbols pm = 3 /\
  0 <= valid_symbols pm <= total_symbols pm /\
  0 <= avg_volatility pm /\
  0 <= risk_match_percentage pm <= 10000 /\
  0 <= diversification_score pm <= 10 /\
  diversification_score pm <= valid_symbols pm.
Proof.
  exact (portfolio_figures_bounded Sample.w Lib.str_exn Lib.float_of_string
           Lib.int_of_string Lib.strptime Sample.three "medium" Sample.fresh _ _
           sample_three_evaluation).
Defined.

(** X14 at the portfolio of three funds. *)
Lemma evaluation_table_by_symbol_witness :
  (forall symbol,
     is_Some (symbol_evaluations Sample.three_evaluation !! symbol) <->
     symbol ∈ Sample.three)
  /\ (forall symbol r,
        symbol_evaluations Sample.three_evaluation !! symbol = Some r ->
        result_symbol r = symbol).
Proof.
  exact (evaluation_table_by_symbol Sample.w Lib.str_exn Lib.float_of_string
           Lib.int_of_string Lib.strptime Sample.three "medium" Sample.fresh _ _
           sample_three_evaluation).
Defined.

(** X15 at two analyses of VTI one after the other. *)
Lemma second_analysis_from_cache_witness :
  length (requests Sample.after_quote) = S (S (length (requests Sample.fresh))) /\
  clock Sample.w (S (clock_reads Sample.after_quote))
  < clock Sample.w (clock_reads Sample.fresh) + hours 1 /\
  Sample.analyze "VTI" "medium" Sample.after_quote
  = (inr (Analysed Sample.vti_analysis), tick (tick Sample.after_quote)).
Proof.
  assert (Hnear : clock Sample.w (S (clock_reads Sample.after_quote))
                  < clock Sample.w (clock_reads Sample.fresh) + hours 1)
    by (vm_compute; reflexivity).
  split; [reflexivity|]. split; [exact Hnear|].
  exact (second_analysis_from_cache Sample.w Lib.str_exn Lib.float_of_string
           Lib.int_of_string Lib.strptime "VTI" "medium" Sample.fresh _ _
           sample_clock_monotone sample_analysis_medium eq_refl Hnear).
Defined.

Lemma sample_alternatives :
  SampleTool.find_alternatives "VTI" "medium" 3 Sample.fresh
  = (inr SampleTool.alternatives, SampleTool.after_alternatives).
Proof. vm_compute. reflexivity. Qed.

(** X16 at three alternatives to VTI for a medium tolerance. *)
Lemma alternatives_are_other_candidates_witness :
  (map alt_symbol SampleTool.alternatives `sublist_of` possible_alternatives "medium") /\
  NoDup (map alt_symbol SampleTool.alternatives) /\
  ("VTI" ∉ map alt_symbol SampleTool.alternatives) /\
  Forall (fun x => analysis_symbol (alt_analysis x) = alt_symbol x)
    SampleTool.alternatives /\
  (0 <= 3 -> Z.of_nat (length SampleTool.alternatives) <= 3) /\
  (3 < 0 -> (length SampleTool.alternatives <= 1)%nat).
Proof.
  exact (alternatives_are_other_candidates Sample.w Lib.str_exn Lib.float_of_string
           Lib.int_of_string Lib.strptime "VTI" "medium" 3 Sample.fresh _ _
           sample_alternatives).
Defined.

(** X17 at the same search: six requests for three candidates. *)
Lemma alternatives_cost_witness :
  (length (requests Sample.fresh) <= length (requests SampleTool.after_alternatives)
   <= length (requests Sample.fresh) + 10)%nat /\
  (0 <= 3 ->
   Z.of_nat (length (requests SampleTool.after_alternatives))
   <= Z.of_nat (length (requests Sample.fresh)) + 2 * 3) /\
  (3 < 0 ->
   (length (requests SampleTool.after_alternatives)
    <= length (requests Sample.fresh) + 2)%nat) /\
  (no_api_key Sample.fresh = true ->
   @inr exn _ SampleTool.alternatives = inr [] /\
   SampleTool.after_alternatives = Sample.fresh).
Proof.
  exact (alternatives_cost Sample.w Lib.str_exn Lib.float_of_string
           Lib.int_of_string Lib.strptime "VTI" "medium" 3 Sample.fresh _ _
           sample_alternatives).
Defined.

Lemma sample_advice :
  SampleTool.diversification SampleTool.portfolio "low" Sample.fresh
  = (inr SampleTool.advice, SampleTool.after_advice).
Proof. vm_compute. reflexivity. Qed.

Lemma sample_bond_advice :
  get_portfolio_diversification_recommendations SampleTool.w Lib.str_exn
    Lib.float_of_string Lib.int_of_string Lib.strptime SampleTool.str_float
    ["BND"] "low" Sample.fresh
  = (inr SampleTool.bond_advice, SampleTool.after_bond_advice).
Proof. vm_compute. reflexivity. Qed.

Lemma sample_extended_advice :
  get_portfolio_diversification_recommendations SampleTool.w Lib.str_exn
    Lib.float_of_string Lib.int_of_string Lib.strptime SampleTool.str_float
    (["BND"] ++ map addition_symbol (suggested_additions SampleTool.bond_advice))
    "low" SampleTool.after_bond_advice
  = (inr SampleTool.extended_advice, SampleTool.after_extended_advice).
Proof. vm_compute. reflexivity. Qed.

(** X18 at a portfolio of VTI, BND and an unlisted symbol. *)
Lemma sector_allocation_counts_witness :
  (forall sector n,
     dict_get sector (sector_allocation SampleTool.advice) = Some n <->
     0 < n /\ n = occurrences sector SampleTool.portfolio)
  /\ allocated (sector_allocation SampleTool.advice) = 3.
Proof.
  exact (sector_allocation_counts SampleTool.w Lib.str_exn Lib.float_of_string
           Lib.int_of_string Lib.strptime SampleTool.str_float SampleTool.portfolio
           "low" Sample.fresh _ _ sample_advice).
Defined.

(** X19 at the same portfolio: international stocks and real estate are
    missing. *)
Lemma one_suggestion_per_missing_sector_witness :
  (missing_sectors SampleTool.advice `sublist_of` key_sectors) /\
  (forall sector,
     sector ∈ missing_sectors SampleTool.advice <->
     sector ∈ key_sectors /\
     forall symbol, symbol ∈ SampleTool.portfolio -> sector_of symbol <> sector) /\
  map addition_sector (suggested_additions SampleTool.advice)
  = missing_sectors SampleTool.advice.
Proof.
  exact (one_suggestion_per_missing_sector SampleTool.w Lib.str_exn
           Lib.float_of_string Lib.int_of_string Lib.strptime SampleTool.str_float
           SampleTool.portfolio "low" Sample.fresh _ _ sample_advice).
Defined.

(** X20 at a bond fund held with a low tolerance: VIG, VXUS and VNQ are
    suggested, and with them "US Stocks" is still missing. *)
Lemma additions_fill_the_gaps_witness :
  ("low" <> "low" -> missing_sectors SampleTool.extended_advice = []) /\
  ("low" = "low" ->
   missing_sectors SampleTool.extended_advice
   = if bool_decide ("US Stocks" ∈ missing_sectors SampleTool.bond_advice)
     then ["US Stocks"] else []).
Proof.
  exact (additions_fill_the_gaps _ _ _ _ _ _ _ _ _ _ _ _ _ _
           sample_bond_advice sample_extended_advice).
Defined.


(** X22 at the sample client, whose sector table is an object. *)
Lemma sector_table_kinds_witness :
  get_sector_performance SampleTool.w Lib.str_exn Sample.fresh
  = (SampleTool.sector_reply, SampleTool.after_sectors) /\
  exists rec top,
    SampleTool.diversification SampleTool.portfolio "low" Sample.fresh
    = (inr rec, SampleTool.after_advice) /\
    top_performing_sectors rec = Some top.
Proof.
  assert (Hsec : get_sector_performance SampleTool.w Lib.str_exn Sample.fresh
                 = (SampleTool.sector_reply, SampleTool.after_sectors))
    by (vm_compute; reflexivity).
  assert (Hev : evaluate_portfolio_symbols SampleTool.w Lib.str_exn Lib.float_of_string
                  Lib.int_of_string Lib.strptime SampleTool.portfolio "low"
                  SampleTool.after_sectors
                = (inr SampleTool.portfolio_evaluation, SampleTool.after_advice))
    by (vm_compute; reflexivity).
  split; [exact Hsec|].
  exact (proj2 (sector_table_kinds SampleTool.w Lib.str_exn Lib.float_of_string
                  Lib.int_of_string Lib.strptime SampleTool.str_float
                  SampleTool.portfolio "low" Sample.fresh _ _ _ _ Hsec Hev)
           _ eq_refl).
Defined.
